(** * NuRadioMC event generator: shallow embedding of
      [NuRadioMC/EvtGen/generator.py] and the properties of its
      sharded writer, geometry helpers and table expansion. *)

From Stdlib Require Import ZArith QArith Qround List String Ascii Lia Lqa Bool
  DecimalString DecimalPos DecimalN Sorted.
From stdpp Require Import gmap strings.
Import ListNotations.
Open Scope Z_scope.

(** ** Python values and exceptions *)

(** The exceptions the modelled code can raise. [RuntimeWarning] is what
    NumPy emits when a float division has a zero divisor. *)
Inductive exn : Type :=
| KeyError (key : string)
| IndexError
| UnboundLocalError (name : string)
| NotImplementedError (msg : string)
| ValueError
| TypeError
| ZeroDivisionError
| RuntimeWarning.

(** Outcome of a call: a returned value or a raised exception. *)
Inductive res (A : Type) : Type :=
| Ok (a : A)
| Raise (e : exn).
Arguments Ok {A} a.
Arguments Raise {A} e.

(** ** Sequences: slicing, [np.unique], [np.argwhere] *)

(** Python resolves a slice bound [i] against a sequence of length [len]:
    a negative bound counts from the end, and the result is clamped to
    [0, len]. *)
Definition py_bound (len i : Z) : Z :=
  if i <? 0 then Z.max (i + len) 0 else Z.min i len.

(** [l[a:b]] *)
Definition py_slice {A : Type} (l : list A) (a b : Z) : list A :=
  let len := Z.of_nat (List.length l) in
  let s := py_bound len a in
  let e := py_bound len b in
  firstn (Z.to_nat (e - s)) (skipn (Z.to_nat s) l).

Fixpoint insert_unique (x : Z) (l : list Z) : list Z :=
  match l with
  | [] => [x]
  | y :: t =>
      if x <? y then x :: l
      else if x =? y then l
      else y :: insert_unique x t
  end.

(** [np.unique]: the sorted distinct values of an array. *)
Definition np_unique (l : list Z) : list Z := fold_right insert_unique [] l.

(** Indices (from [i]) of the entries of [l] equal to [v]:
    [np.squeeze(np.argwhere(l == v))]. *)
Fixpoint argwhere_from (i : Z) (v : Z) (l : list Z) : list Z :=
  match l with
  | [] => []
  | x :: t => if x =? v then i :: argwhere_from (i + 1) v t
              else argwhere_from (i + 1) v t
  end.

Definition argwhere (v : Z) (l : list Z) : list Z := argwhere_from 0 v l.

(** ** Formatting of the part number: ["{:04}".format(n)] *)

Fixpoint zeros (n : nat) : string :=
  match n with
  | O => EmptyString
  | S k => String "0" (zeros k)
  end.

Definition zfill (width : nat) (s : string) : string :=
  (zeros (width - String.length s) ++ s)%string.

Definition decimal (n : N) : string := NilZero.string_of_uint (N.to_uint n).

(** Zero padding to width 4 is sign aware: [-1] prints as [-001]. *)
Definition format_04 (z : Z) : string :=
  if z <? 0 then String "-" (zfill 3 (decimal (Z.abs_N z)))
  else zfill 4 (decimal (Z.to_N z)).

(** ** [write_events_to_hdf5] *)

(** One output file: its name, the attributes [n_events] and
    [total_number_of_events], the first and last event group id it holds and
    the row range [start_index:stop_index] that every data set is cut to. *)
Record shard : Type := mkShard {
  shard_filename : string;
  shard_n_events : Z;
  shard_total_number_of_events : Z;
  shard_evt_id_first : Z;
  shard_evt_id_last : Z;
  shard_start_index : Z;
  shard_stop_index : Z
}.

(** [fout[key] = value[start_index:stop_index]] *)
Definition shard_data {A : Type} (column : list A) (sh : shard) : list A :=
  py_slice column (shard_start_index sh) (shard_stop_index sh).

(** The event group ids claimed by file [iFile]. *)
Definition evt_ids_of_file (uniq : list Z) (K iFile : Z) : list Z :=
  py_slice uniq (iFile * K) ((iFile + 1) * K).

Definition is_empty {A : Type} (l : list A) : bool :=
  match l with [] => true | _ => false end.

(** The [while True] loop of the writer. [iFile] is the value after the
    increment at the top of the body; [fuel] bounds the iterations (the
    loop is shown below to need at most [length ids + 1]). [tmp[-1]] raises
    [IndexError] on an empty [tmp]. *)
Fixpoint write_loop (fuel : nat) (filename : string) (ids uniq : list Z)
    (n_events K start_event_id start_file_id : Z)
    (iFile evt_id_last_previous start_index : Z) : option (res (list shard)) :=
  match fuel with
  | O => None
  | S fuel' =>
      let evt_ids_this_file := evt_ids_of_file uniq K iFile in
      match evt_ids_this_file with
      | [] => Some (Ok [])
      | evt_id_first :: _ =>
          let filename2 :=
            if (0 <? iFile) || (K <? n_events)
            then (filename ++ ".part" ++ format_04 (iFile + start_file_id))%string
            else filename in
          let evt_id_last := List.last evt_ids_this_file evt_id_first in
          let tmp := argwhere evt_id_last ids in
          match tmp with
          | [] => Some (Raise IndexError)
          | t0 :: _ =>
              let stop_index :=
                if (List.length tmp =? 1)%nat then t0 + 1
                else List.last tmp t0 + 1 in
              let evt_ids_next_file := evt_ids_of_file uniq K (iFile + 1) in
              let n_events_this_file :=
                if (iFile =? 0) && is_empty evt_ids_next_file then n_events
                else if is_empty evt_ids_next_file then
                  n_events - (evt_id_last_previous + 1) + start_event_id
                else if iFile =? 0 then evt_id_last - start_event_id + 1
                else evt_id_last - evt_id_last_previous in
              let sh := mkShard filename2 n_events_this_file n_events
                                evt_id_first evt_id_last start_index stop_index in
              if evt_id_last =? n_events then Some (Ok [sh])
              else
                match write_loop fuel' filename ids uniq n_events K
                        start_event_id start_file_id
                        (iFile + 1) evt_id_last stop_index with
                | Some (Ok rest) => Some (Ok (sh :: rest))
                | other => other
                end
          end
      end
  end.

(** [write_events_to_hdf5(filename, data_sets, attributes, n_events_per_file,
    start_file_id)]. [ids] is [data_sets["event_group_ids"]], [n_events] is
    [attributes['n_events']], [start_event_id] is
    [attributes['start_event_id']] when the key is present. The result lists
    the files written, in order. *)
Definition write_events_to_hdf5 (filename : string) (ids : list Z)
    (n_events : Z) (start_event_id : option Z)
    (n_events_per_file : option Z) (start_file_id : Z)
    : option (res (list shard)) :=
  let start_event_id := match start_event_id with Some s => s | None => 0 end in
  let K := match n_events_per_file with None => n_events | Some k => k end in
  match ids with
  | [] => Some (Raise IndexError)
  | _ :: _ =>
      write_loop (S (List.length ids)) filename ids (np_unique ids)
                 n_events K start_event_id start_file_id 0 0 0
  end.

(** ** Numbers

    Python floats are modelled by exact rationals: the functions below only
    add, subtract, multiply, divide and compare them. Transcendental
    functions and the random source are taken from [Extern] further down. *)

Definition Qltb (a b : Q) : bool := negb (Qle_bool b a).
Definition Qgtb (a b : Q) : bool := Qltb b a.
Definition Qgeb (a b : Q) : bool := Qle_bool b a.

(** [int(x)]: truncation towards zero. *)
Definition py_int (x : Q) : Z :=
  if Qle_bool 0 x then Qfloor x else Qceiling x.

(** ** [primary_energy_from_deposited] *)

(** The operands of a float division are Python floats or NumPy float64
    scalars (the elements of an array); NumPy computes the quotient as soon
    as one operand is a NumPy scalar. *)
Inductive float_kind : Type :=
| python_float
| numpy_float64.

(** What a float division leaves: a finite value, or one of inf, -inf and
    nan, which are not told apart. *)
Inductive float64 : Type :=
| Finite (q : Q)
| NonFinite.

(** [a / b]. With a zero divisor Python floats raise [ZeroDivisionError];
    NumPy scalars return inf, -inf or nan and emit a [RuntimeWarning]. *)
Definition float_div (k : float_kind) (a b : Q) : res float64 :=
  if Qeq_bool b 0 then
    match k with
    | python_float => Raise ZeroDivisionError
    | numpy_float64 => Ok NonFinite
    end
  else Ok (Finite (a / b)%Q).

Definition res_map {A B : Type} (f : A -> B) (r : res A) : res B :=
  match r with
  | Ok a => Ok (f a)
  | Raise e => Raise e
  end.

(** The result is [None] when the Python function falls off its end, which
    returns [None] to the caller. [k] is the kind of the floats passed. *)
Definition primary_energy_from_deposited (k : float_kind)
    (Edep : Q) (ccnc : string) (flavor : Z) (inelasticity : Q)
    : res (option float64) :=
  if String.eqb ccnc "nc" then res_map Some (float_div k Edep inelasticity)
  else if String.eqb ccnc "cc" then
    if Z.abs flavor =? 12 then Ok (Some (Finite Edep))
    else if Z.abs flavor =? 14 then
      res_map Some (float_div k Edep inelasticity)
    else if Z.abs flavor =? 16 then
      res_map Some (float_div k Edep inelasticity)
    else Ok None
  else Ok None.

(** ** [intersection_box_ray] *)

Definition vec3 : Type := (Q * Q * Q)%type.

(** [v[i]] for [i] in 0, 1, 2. *)
Definition vget (v : vec3) (i : nat) : Q :=
  match v, i with
  | (x, _, _), O => x
  | (_, y, _), S O => y
  | (_, _, z), _ => z
  end.

(** [bounds[s]] for a 0/1 index held as a boolean. *)
Definition bget (bounds : vec3 * vec3) (s : bool) : vec3 :=
  if s then snd bounds else fst bounds.

(** The test for a direction held as an array. [1 / direction] is the
    rational quotient: for a zero component NumPy computes with inf, -inf
    and nan, which are not modelled, so the definition stands for the
    directions without a zero component. *)
Definition intersection_box_ray (bounds : vec3 * vec3) (ray : vec3 * vec3) : bool :=
  let orig := fst ray in
  let direction := snd ray in
  let invdir : vec3 :=
    (1 / vget direction 0, 1 / vget direction 1, 1 / vget direction 2)%Q in
  let sign0 := Qltb (vget invdir 0) 0 in
  let sign1 := Qltb (vget invdir 1) 0 in
  let sign2 := Qltb (vget invdir 2) 0 in
  let tmin := ((vget (bget bounds sign0) 0 - vget orig 0) * vget invdir 0)%Q in
  let tmax := ((vget (bget bounds (negb sign0)) 0 - vget orig 0) * vget invdir 1)%Q in
  let tymin := ((vget (bget bounds sign1) 1 - vget orig 1) * vget invdir 1)%Q in
  let tymax := ((vget (bget bounds (negb sign1)) 1 - vget orig 1) * vget invdir 1)%Q in
  if Qgtb tmin tymax || Qgtb tymin tmax then false
  else
    let tmin := if Qgtb tymin tmin then tymin else tmin in
    let tmax := if Qltb tymax tmax then tymax else tmax in
    let tzmin := ((vget (bget bounds sign2) 2 - vget orig 2) * vget invdir 2)%Q in
    let tzmax := ((vget (bget bounds (negb sign2)) 2 - vget orig 2) * vget invdir 2)%Q in
    if Qgtb tmin tzmax || Qgtb tzmin tmax then false
    else
      let tmin := if Qgtb tzmin tmin then tzmin else tmin in
      let tmax := if Qltb tzmax tmax then tzmax else tmax in
      let t := tmin in
      if Qltb t 0 then
        let t := tmax in
        if Qltb t 0 then false else true
      else true.

(** The geometry the slab test is meant to decide. *)
Definition ray_point (ray : vec3 * vec3) (t : Q) : vec3 :=
  let o := fst ray in
  let d := snd ray in
  (vget o 0 + t * vget d 0, vget o 1 + t * vget d 1, vget o 2 + t * vget d 2)%Q.

Definition in_box (bounds : vec3 * vec3) (p : vec3) : Prop :=
  forall i : nat, (i < 3)%nat ->
    (vget (fst bounds) i <= vget p i)%Q /\ (vget p i <= vget (snd bounds) i)%Q.

Definition ray_hits_box (bounds : vec3 * vec3) (ray : vec3 * vec3) : Prop :=
  exists t : Q, (0 <= t)%Q /\ in_box bounds (ray_point ray t).

Definition nonzero_components (d : vec3) : Prop :=
  forall i : nat, (i < 3)%nat -> ~ (vget d i == 0)%Q.

(** ** Dictionaries of numbers *)

(** A number held in a dict: Python [int] or [float]. *)
Inductive pynum : Type :=
| PInt (z : Z)
| PFloat (q : Q).

Definition float_of (v : pynum) : Q :=
  match v with
  | PInt z => inject_Z z
  | PFloat q => q
  end.

(** [d[key]] *)
Definition getitem (d : gmap string pynum) (key : string) : res pynum :=
  match d !! key with
  | Some v => Ok v
  | None => Raise (KeyError key)
  end.

(** [key in d] *)
Definition contains (d : gmap string pynum) (key : string) : bool :=
  match d !! key with
  | Some _ => true
  | None => false
  end.

(** ** External collaborators and the random source *)

(** One product of the lepton propagator ([secondary_properties] of
    NuRadioProposal). *)
Record secondary_properties : Type := mkProduct {
  product_distance : Q;
  product_energy : Q;
  product_shower_type : string;
  product_code : Z
}.

(** A float that may be [np.nan]. *)
Inductive pyfloat : Type :=
| Fl (q : Q)
| NaN.

Definition fl_sub (a b : pyfloat) : pyfloat :=
  match a, b with
  | Fl x, Fl y => Fl (x - y)%Q
  | _, _ => NaN
  end.

Definition fl_mul (a b : pyfloat) : pyfloat :=
  match a, b with
  | Fl x, Fl y => Fl (x * y)%Q
  | _, _ => NaN
  end.

(** The tabulated or closed-form flux models behind the named spectra. *)
Inductive flux_model : Type :=
| flux_GZK_1
| flux_ice_cube_nu_fit
| flux_GZK_1_plus_ice_cube.

(** What the generator takes from NumPy, SciPy, the unit system, the
    inelasticity module and the propagator. [rand_unit k] and [rand_word k]
    are the [k]-th variate of the process random source, as a number in
    [0, 1) and as an integer. [flux_cum_max] and [flux_inv_cdf] are the last
    value and the interpolated inverse of the cumulative table that
    [get_energy_from_flux] builds for a flux on [Emin, Emax]. *)
Class Extern : Type := {
  np_pi : Q;
  np_sin : Q -> Q;
  np_cos : Q -> Q;
  np_arccos : Q -> Q;
  np_log10 : Q -> Q;
  np_log : Q -> Q;
  np_exp : Q -> Q;
  np_power : Q -> Q -> Q;
  units_eV : Q;
  units_m : Q;
  cspeed : Q;
  py_float : string -> option Q;
  rand_unit : nat -> Q;
  rand_word : nat -> Z;
  ccnc_of : Q -> string;
  inelasticity_of : Q -> Q;
  flux_cum_max : flux_model -> Q -> Q -> Q;
  flux_inv_cdf : flux_model -> Q -> Q -> Q -> Q;
  get_secondaries_array : pyfloat -> Z -> vec3 -> vec3 -> list secondary_properties
}.

(** A call on the random source, as the process sees it. *)
Inductive draw : Type :=
| Uniform (low high : Q) (size : Z)
| Randint (high : Z) (size : Z)
| Ccnc (size : Z)
| Inelasticity (size : Z).

Definition draw_size (d : draw) : nat :=
  match d with
  | Uniform _ _ n => Z.to_nat n
  | Randint _ n => Z.to_nat n
  | Ccnc n => Z.to_nat n
  | Inelasticity n => Z.to_nat n
  end.

(** The state of the random source: the calls made so far, oldest first. *)
Definition world : Type := list draw.

Definition drawn (w : world) : nat := list_sum (map draw_size w).

(** Computations that draw random numbers and may raise. *)
Definition M (A : Type) : Type := world -> res A * world.

Definition ret {A : Type} (a : A) : M A := fun w => (Ok a, w).

Definition raise {A : Type} (e : exn) : M A := fun w => (Raise e, w).

Definition bind {A B : Type} (m : M A) (k : A -> M B) : M B :=
  fun w =>
    match m w with
    | (Ok a, w') => k a w'
    | (Raise e, w') => (Raise e, w')
    end.

Definition lift {A : Type} (r : res A) : M A := fun w => (r, w).

Definition rbind {A B : Type} (r : res A) (k : A -> res B) : res B :=
  match r with
  | Ok a => k a
  | Raise e => Raise e
  end.

Notation "x <- m ;; k" := (bind m (fun x => k))
  (at level 100, m at next level, right associativity).
Notation "x <-- r ;; k" := (rbind r (fun x => k))
  (at level 100, r at next level, right associativity).

Section Sampling.
Context `{Extern}.

(** Variates [drawn w], ..., [drawn w + n - 1] of the source. *)
Definition variates (w : world) (n : Z) : list Q :=
  map (fun k => rand_unit (drawn w + k)) (seq 0 (Z.to_nat n)).

(** [np.random.uniform(low, high, size)] *)
Definition np_random_uniform (low high : Q) (size : pynum) : M (list Q) :=
  fun w =>
    match size with
    | PFloat _ => (Raise TypeError, w)
    | PInt n =>
        if n <? 0 then (Raise ValueError, w)
        else (Ok (map (fun u => low + (high - low) * u)%Q (variates w n)),
              w ++ [Uniform low high n])
    end.

(** [np.random.randint(0, high=high, size=size)] *)
Definition np_random_randint (high : Z) (size : Z) : M (list Z) :=
  fun w =>
    if (high <=? 0) || (size <? 0) then (Raise ValueError, w)
    else (Ok (map (fun k => rand_word (drawn w + k) mod high)
                  (seq 0 (Z.to_nat size))),
          w ++ [Randint high size]).

(** [inelasticities.get_ccnc(n)] *)
Definition get_ccnc (n : Z) : M (list string) :=
  fun w =>
    if n <? 0 then (Raise ValueError, w)
    else (Ok (map ccnc_of (variates w n)), w ++ [Ccnc n]).

(** [inelasticities.get_neutrino_inelasticity(n)] *)
Definition get_neutrino_inelasticity (n : Z) : M (list Q) :=
  fun w =>
    if n <? 0 then (Raise ValueError, w)
    else (Ok (map inelasticity_of (variates w n)), w ++ [Inelasticity n]).

(** ** [get_tau_95_length] *)

Definition coeffs : list Q :=
  [ 680016451 # 1000000; - (161902120 # 1000000); 142383021 # 10000000;
    - (547388025 # 1000000000); 779239697 # 100000000000 ]%Q.

Fixpoint poly_from (ipow : Z) (cs : list Q) (x : Q) : Q :=
  match cs with
  | [] => 0
  | c :: t => (c * x ^ ipow + poly_from (ipow + 1) t x)%Q
  end.

Definition get_tau_95_length (energies : Q) : Q :=
  let log_energy_eV := np_log10 (energies / units_eV)%Q in
  let log_length := poly_from 0 coeffs log_energy_eV in
  (np_power 10 log_length * units_m)%Q.

(** ** [generate_vertex_positions] *)

(** [n_events * k] for an integer [k]. *)
Definition pynum_scale (n : pynum) (k : Z) : pynum :=
  match n with
  | PInt z => PInt (z * k)
  | PFloat q => PFloat (q * inject_Z k)%Q
  end.

(** Quotient of two floats; a zero divisor ends the call with an exception
    (Python raises [ZeroDivisionError]; with NumPy scalars the [int()] of
    the infinite quotient raises instead), modelled as [ValueError]. *)
Definition py_div (a b : Q) : res Q :=
  if Qeq_bool b 0 then Raise ValueError else Ok (a / b)%Q.

Definition sq (x : Q) : Q := (x ^ 2)%Q.

(** The cylinder branch. [full_rmax] is assigned on one path only, hence an
    option. The result carries the updated attributes. *)
Definition generate_vertex_positions_cylinder
    (volume : gmap string pynum) (proposal : bool)
    (attributes : gmap string pynum) (n_events : pynum)
    : M (gmap string pynum * (list Q * list Q * list Q)) :=
  let attributes :=
    match volume !! "fiducial_rmin" with
    | Some v => <["fiducial_rmin" := v]> attributes
    | None => <["fiducial_rmin" := PInt 0]> attributes
    end in
  v <- lift (getitem volume "fiducial_rmax");;
  let attributes := <["fiducial_rmax" := v]> attributes in
  v <- lift (getitem volume "fiducial_zmin");;
  let attributes := <["fiducial_zmin" := v]> attributes in
  v <- lift (getitem volume "fiducial_zmax");;
  let attributes := <["fiducial_zmax" := v]> attributes in
  rmin <- lift (getitem attributes "fiducial_rmin");;
  rmax <- lift (getitem attributes "fiducial_rmax");;
  zmin <- lift (getitem attributes "fiducial_zmin");;
  zmax <- lift (getitem attributes "fiducial_zmax");;
  st <- (if proposal then
           Emax <- lift (getitem attributes "Emax");;
           let tau_95_length := get_tau_95_length (float_of Emax) in
           let rmin' :=
             match volume !! "full_rmin" with
             | Some v => v
             | None => PFloat (float_of rmin / 3)%Q
             end in
           let '(rmax', full_rmax) :=
             match volume !! "full_rmax" with
             | Some v => (v, None)
             | None => (rmax, Some (tau_95_length + float_of rmax)%Q)
             end in
           let zmax' :=
             match volume !! "full_zmax" with
             | Some v => v
             | None => PFloat (float_of zmax / 3)%Q
             end in
           let zmin' :=
             match volume !! "full_zmin" with
             | Some v => v
             | None => PFloat (float_of zmin - tau_95_length)%Q
             end in
           ratio <- lift (py_div (float_of rmax') (float_of rmax));;
           factor <- lift (py_div (sq ratio * float_of zmin')%Q (float_of zmin));;
           let n_events' := pynum_scale n_events (py_int factor) in
           _ <- lift (getitem attributes "zmax");;
           ret (rmin', rmax', zmin', zmax', full_rmax, n_events')
         else ret (rmin, rmax, zmin, zmax, None, n_events));;
  let '(rmin, rmax, zmin, zmax, full_rmax, n_events) := st in
  let attributes := <["rmin" := rmin]> attributes in
  let attributes := <["rmax" := rmax]> attributes in
  let attributes := <["zmin" := zmin]> attributes in
  let attributes := <["zmax" := zmax]> attributes in
  let V := (np_pi * (sq (float_of rmax) - sq (float_of rmin))
            * (float_of zmax - float_of zmin))%Q in
  let attributes := <["volume" := PFloat V]> attributes in
  match full_rmax with
  | None => raise (UnboundLocalError "full_rmax")
  | Some full_rmax =>
      u <- np_random_uniform (sq (float_of rmin)) (sq full_rmax) n_events;;
      let rr_full := map (fun x => np_power x (1 # 2)) u in
      phiphi <- np_random_uniform 0 (2 * np_pi)%Q n_events;;
      let xx := map (fun rp => (fst rp * np_cos (snd rp))%Q) (combine rr_full phiphi) in
      let yy := map (fun rp => (fst rp * np_sin (snd rp))%Q) (combine rr_full phiphi) in
      zz <- np_random_uniform (float_of zmin) (float_of zmax) n_events;;
      ret (attributes, (xx, yy, zz))
  end.

(** The box branch. *)
Definition generate_vertex_positions_box
    (volume : gmap string pynum) (proposal : bool)
    (attributes : gmap string pynum) (n_events : pynum)
    : M (gmap string pynum * (list Q * list Q * list Q)) :=
  v <- lift (getitem volume "fiducial_xmax");;
  let attributes := <["fiducial_xmax" := v]> attributes in
  v <- lift (getitem volume "fiducial_xmin");;
  let attributes := <["fiducial_xmin" := v]> attributes in
  v <- lift (getitem volume "fiducial_ymax");;
  let attributes := <["fiducial_ymax" := v]> attributes in
  v <- lift (getitem volume "fiducial_ymin");;
  let attributes := <["fiducial_ymin" := v]> attributes in
  v <- lift (getitem volume "fiducial_zmin");;
  let attributes := <["fiducial_zmin" := v]> attributes in
  v <- lift (getitem volume "fiducial_zmax");;
  let attributes := <["fiducial_zmax" := v]> attributes in
  xmin <- lift (getitem attributes "fiducial_xmin");;
  xmax <- lift (getitem attributes "fiducial_xmax");;
  ymin <- lift (getitem attributes "fiducial_ymin");;
  ymax <- lift (getitem attributes "fiducial_ymax");;
  zmin <- lift (getitem attributes "fiducial_zmin");;
  zmax <- lift (getitem attributes "fiducial_zmax");;
  let volume_fiducial :=
    ((float_of xmax - float_of xmin) * (float_of ymax - float_of ymin)
     * (float_of zmax - float_of zmin))%Q in
  st <- (if proposal then
           b <- (if negb (contains volume "full_xmax") then
                   Emax <- lift (getitem attributes "Emax");;
                   let tau_95_length := get_tau_95_length (float_of Emax) in
                   ret (PFloat (float_of xmin - tau_95_length)%Q,
                        PFloat (float_of xmax + tau_95_length)%Q,
                        PFloat (float_of ymin - tau_95_length)%Q,
                        PFloat (float_of ymax + tau_95_length)%Q,
                        PFloat (float_of zmin - tau_95_length)%Q,
                        zmax)
                 else
                   xmin' <- lift (getitem attributes "full_xmin");;
                   xmax' <- lift (getitem attributes "full_xmax");;
                   ymin' <- lift (getitem attributes "full_ymin");;
                   ymax' <- lift (getitem attributes "full_ymax");;
                   zmin' <- lift (getitem attributes "full_zmin");;
                   zmax' <- lift (getitem attributes "full_zmax");;
                   ret (xmin', xmax', ymin', ymax', zmin', zmax'));;
           let '(xmin', xmax', ymin', ymax', zmin', zmax') := b in
           let volume_full :=
             ((float_of xmax' - float_of xmin') * (float_of ymax' - float_of ymin')
              * (float_of zmax' - float_of zmin'))%Q in
           factor <- lift (py_div volume_full volume_fiducial);;
           ret (b, pynum_scale n_events (py_int factor))
         else ret ((xmin, xmax, ymin, ymax, zmin, zmax), n_events));;
  let '((xmin, xmax, ymin, ymax, zmin, zmax), n_events) := st in
  let attributes := <["xmin" := xmin]> attributes in
  let attributes := <["xmax" := xmax]> attributes in
  let attributes := <["ymin" := ymin]> attributes in
  let attributes := <["ymax" := ymax]> attributes in
  let attributes := <["zmin" := zmin]> attributes in
  let attributes := <["zmax" := zmax]> attributes in
  let V :=
    ((float_of xmax - float_of xmin) * (float_of ymax - float_of ymin)
     * (float_of zmax - float_of zmin))%Q in
  let attributes := <["volume" := PFloat V]> attributes in
  xx <- np_random_uniform (float_of xmin) (float_of xmax) n_events;;
  yy <- np_random_uniform (float_of ymin) (float_of ymax) n_events;;
  zz <- np_random_uniform (float_of zmin) (float_of zmax) n_events;;
  ret (attributes, (xx, yy, zz)).

(** [generate_vertex_positions(volume, proposal, attributes)]: the updated
    attributes and the returned triple, [None] when the volume is neither a
    cylinder nor a box (the function then falls off its end). *)
Definition generate_vertex_positions
    (volume : gmap string pynum) (proposal : bool)
    (attributes : gmap string pynum)
    : M (gmap string pynum * option (list Q * list Q * list Q)) :=
  n_events <- lift (getitem attributes "n_events");;
  if contains volume "fiducial_rmax" then
    r <- generate_vertex_positions_cylinder volume proposal attributes n_events;;
    ret (fst r, Some (snd r))
  else if contains volume "fiducial_xmax" then
    r <- generate_vertex_positions_box volume proposal attributes n_events;;
    ret (fst r, Some (snd r))
  else ret (attributes, None).

(** ** [get_energies] *)

(** [get_energy_from_flux(Emin, Emax, n_events, flux)] *)
Definition get_energy_from_flux (Emin Emax : Q) (n_events : Z) (flux : flux_model)
    : M (list Q) :=
  r <- np_random_uniform 0 (flux_cum_max flux Emin Emax) (PInt n_events);;
  ret (map (flux_inv_cdf flux Emin Emax) r).

(** [s[1:]] *)
Definition str_tail (s : string) : string :=
  match s with
  | EmptyString => EmptyString
  | String _ t => t
  end.

Definition not_implemented (spectrum_type : string) : exn :=
  NotImplementedError ("spectrum " ++ spectrum_type ++ " not implemented")%string.

Definition get_energies (n_events : Z) (Emin Emax : Q) (spectrum_type : string)
    : M (list Q) :=
  if String.eqb spectrum_type "log_uniform" then
    u <- np_random_uniform (np_log10 Emin) (np_log10 Emax) (PInt n_events);;
    ret (map (np_power 10) u)
  else if String.prefix "E-" spectrum_type then
    match py_float (str_tail spectrum_type) with
    | None => raise ValueError
    | Some g =>
        let gamma := (g + 1)%Q in
        let Nmin := np_power Emin gamma in
        let Nmax := np_power Emax gamma in
        u <- np_random_uniform Nmax Nmin (PInt n_events);;
        ret (map (fun N => np_exp (np_log N / gamma)%Q) u)
    end
  else if String.eqb spectrum_type "GZK-1" then
    get_energy_from_flux Emin Emax n_events flux_GZK_1
  else if String.eqb spectrum_type "IceCube-nu-2017" then
    get_energy_from_flux Emin Emax n_events flux_ice_cube_nu_fit
  else if String.eqb spectrum_type "GZK-1+IceCube-nu-2017" then
    get_energy_from_flux Emin Emax n_events flux_GZK_1_plus_ice_cube
  else raise (not_implemented spectrum_type).

End Sampling.

(** ** The event table: a dict of parallel columns *)

(** [data_sets]: one list per key, in the order the generator creates the
    keys. Row [i] of the table is entry [i] of every column. *)
Record data_sets : Type := mkData {
  azimuths : list Q;
  zeniths : list Q;
  xx : list Q;
  yy : list Q;
  zz : list Q;
  event_group_ids : list Z;
  n_interaction : list Z;
  vertex_times : list Q;
  flavors : list Z;
  energies : list Q;
  interaction_type : list string;
  inelasticity : list pyfloat;
  shower_energies : list pyfloat;
  shower_type : list string
}.

(** [for key in data_sets: data_sets[key] = f(data_sets[key])] *)
Definition for_each_key (f : forall A : Type, list A -> list A) (d : data_sets)
    : data_sets :=
  {| azimuths := f _ (azimuths d);
     zeniths := f _ (zeniths d);
     xx := f _ (xx d);
     yy := f _ (yy d);
     zz := f _ (zz d);
     event_group_ids := f _ (event_group_ids d);
     n_interaction := f _ (n_interaction d);
     vertex_times := f _ (vertex_times d);
     flavors := f _ (flavors d);
     energies := f _ (energies d);
     interaction_type := f _ (interaction_type d);
     inelasticity := f _ (inelasticity d);
     shower_energies := f _ (shower_energies d);
     shower_type := f _ (shower_type d) |}.

(** [for key in src: dst[key] = f(src[key], dst[key])] *)
Definition for_each_key2 (f : forall A : Type, list A -> list A -> list A)
    (src dst : data_sets) : data_sets :=
  {| azimuths := f _ (azimuths src) (azimuths dst);
     zeniths := f _ (zeniths src) (zeniths dst);
     xx := f _ (xx src) (xx dst);
     yy := f _ (yy src) (yy dst);
     zz := f _ (zz src) (zz dst);
     event_group_ids := f _ (event_group_ids src) (event_group_ids dst);
     n_interaction := f _ (n_interaction src) (n_interaction dst);
     vertex_times := f _ (vertex_times src) (vertex_times dst);
     flavors := f _ (flavors src) (flavors dst);
     energies := f _ (energies src) (energies dst);
     interaction_type := f _ (interaction_type src) (interaction_type dst);
     inelasticity := f _ (inelasticity src) (inelasticity dst);
     shower_energies := f _ (shower_energies src) (shower_energies dst);
     shower_type := f _ (shower_type src) (shower_type dst) |}.

(** Length of the shortest column: an index below it is valid for every key. *)
Definition min_len (d : data_sets) : nat :=
  fold_right Nat.min (List.length (azimuths d))
    [ List.length (zeniths d); List.length (xx d); List.length (yy d);
      List.length (zz d); List.length (event_group_ids d);
      List.length (n_interaction d); List.length (vertex_times d);
      List.length (flavors d); List.length (energies d);
      List.length (interaction_type d); List.length (inelasticity d);
      List.length (shower_energies d); List.length (shower_type d) ].

(** The table with every column empty. *)
Definition empty_data_sets : data_sets :=
  mkData [] [] [] [] [] [] [] [] [] [] [] [] [] [].

(** [l.insert(index, x)]; an index past the end appends. *)
Definition py_insert {A : Type} (index : nat) (x : A) (l : list A) : list A :=
  firstn index l ++ x :: skipn index l.

(** [l.insert(pos + 1, l[pos])] for a valid [pos]. *)
Definition insert_copy (pos : nat) (A : Type) (l : list A) : list A :=
  match nth_error l pos with
  | Some x => py_insert (S pos) x l
  | None => l
  end.

(** [dst.append(src[iE])] for a valid [iE]. *)
Definition append_entry (iE : nat) (A : Type) (src dst : list A) : list A :=
  dst ++ firstn 1 (skipn iE src).

(** [l[-1] = v]; the list is never empty where the generator does this. *)
Definition set_last {A : Type} (v : A) (l : list A) : list A :=
  match l with
  | [] => []
  | _ :: _ => removelast l ++ [v]
  end.

(** ** Electron charged-current rows get a second, electromagnetic shower *)

Definition is_em_shower (ccnc : string) (flavor : Z) : bool :=
  String.eqb ccnc "cc" && (Z.abs flavor =? 12).

(** [(data_sets["interaction_type"] == "cc") & (np.abs(data_sets['flavors']) == 12)] *)
Definition em_shower_mask (d : data_sets) : res (list bool) :=
  if (List.length (interaction_type d) =? List.length (flavors d))%nat
  then Ok (map (fun p => is_em_shower (fst p) (snd p))
               (combine (interaction_type d) (flavors d)))
  else Raise ValueError.

Fixpoint where_true (i : nat) (mask : list bool) : list nat :=
  match mask with
  | [] => []
  | b :: t => if b then i :: where_true (S i) t else where_true (S i) t
  end.

(** [np.arange(n_events, dtype=np.int)[mask]] *)
Definition arange_masked (n_events : Z) (mask : list bool) : res (list nat) :=
  if (List.length mask =? Z.to_nat n_events)%nat
  then Ok (where_true 0 mask)
  else Raise IndexError.

(** One pass of the insertion loop, for event [i] after [n_inserted]
    earlier insertions. *)
Definition em_step (d : data_sets) (i n_inserted : nat) : res data_sets :=
  let pos := (i + n_inserted)%nat in
  if (pos <? min_len d)%nat then
    let d1 := for_each_key (insert_copy pos) d in
    match nth_error (inelasticity d1) (S pos), nth_error (energies d1) (S pos) with
    | Some y, Some E =>
        Ok {| azimuths := azimuths d1;
              zeniths := zeniths d1;
              xx := xx d1;
              yy := yy d1;
              zz := zz d1;
              event_group_ids := event_group_ids d1;
              n_interaction := n_interaction d1;
              vertex_times := vertex_times d1;
              flavors := flavors d1;
              energies := energies d1;
              interaction_type := interaction_type d1;
              inelasticity := inelasticity d1;
              shower_energies :=
                <[S pos := fl_mul (fl_sub (Fl 1) y) (Fl E)]> (shower_energies d1);
              shower_type := <[S pos := "em"%string]> (shower_type d1) |}
    | _, _ => Raise IndexError
    end
  else Raise IndexError.

Fixpoint em_loop (indices : list nat) (n_inserted : nat) (d : data_sets)
    : res data_sets :=
  match indices with
  | [] => Ok d
  | i :: rest =>
      d' <-- em_step d i n_inserted ;;
      em_loop rest (S n_inserted) d'
  end.

(** Lines 1021-1036 of [generate_eventlist_cylinder]. *)
Definition add_em_showers (n_events : Z) (d : data_sets) : res data_sets :=
  mask <-- em_shower_mask d ;;
  indices <-- arange_masked n_events mask ;;
  em_loop indices 0 d.

(** ** Rows as a view of the columns *)

Record row : Type := mkRow {
  r_azimuth : Q;
  r_zenith : Q;
  r_x : Q;
  r_y : Q;
  r_z : Q;
  r_event_group_id : Z;
  r_n_interaction : Z;
  r_vertex_time : Q;
  r_flavor : Z;
  r_energy : Q;
  r_interaction_type : string;
  r_inelasticity : pyfloat;
  r_shower_energy : pyfloat;
  r_shower_type : string
}.

(** The table whose rows are [rows]. *)
Definition cols_of (rows : list row) : data_sets :=
  {| azimuths := map r_azimuth rows;
     zeniths := map r_zenith rows;
     xx := map r_x rows;
     yy := map r_y rows;
     zz := map r_z rows;
     event_group_ids := map r_event_group_id rows;
     n_interaction := map r_n_interaction rows;
     vertex_times := map r_vertex_time rows;
     flavors := map r_flavor rows;
     energies := map r_energy rows;
     interaction_type := map r_interaction_type rows;
     inelasticity := map r_inelasticity rows;
     shower_energies := map r_shower_energy rows;
     shower_type := map r_shower_type rows |}.

(** Entry [i] of every column, when all have one. *)
Definition row_at (d : data_sets) (i : nat) : option row :=
  match nth_error (azimuths d) i, nth_error (zeniths d) i, nth_error (xx d) i,
        nth_error (yy d) i, nth_error (zz d) i, nth_error (event_group_ids d) i,
        nth_error (n_interaction d) i, nth_error (vertex_times d) i,
        nth_error (flavors d) i, nth_error (energies d) i,
        nth_error (interaction_type d) i, nth_error (inelasticity d) i,
        nth_error (shower_energies d) i, nth_error (shower_type d) i with
  | Some a, Some b, Some c, Some d0, Some e, Some f, Some g, Some h,
    Some i0, Some j, Some k, Some l, Some m, Some n =>
      Some (mkRow a b c d0 e f g h i0 j k l m n)
  | _, _, _, _, _, _, _, _, _, _, _, _, _, _ => None
  end.

(** The vertex columns may hold more entries than the others (the event
    count is inflated for them only): [with_extra] appends those. *)
Definition with_extra (tx ty tz : list Q) (d : data_sets) : data_sets :=
  {| azimuths := azimuths d;
     zeniths := zeniths d;
     xx := xx d ++ tx;
     yy := yy d ++ ty;
     zz := zz d ++ tz;
     event_group_ids := event_group_ids d;
     n_interaction := n_interaction d;
     vertex_times := vertex_times d;
     flavors := flavors d;
     energies := energies d;
     interaction_type := interaction_type d;
     inelasticity := inelasticity d;
     shower_energies := shower_energies d;
     shower_type := shower_type d |}.

(** The electromagnetic twin of a row. *)
Definition em_twin (r : row) : row :=
  {| r_azimuth := r_azimuth r;
     r_zenith := r_zenith r;
     r_x := r_x r;
     r_y := r_y r;
     r_z := r_z r;
     r_event_group_id := r_event_group_id r;
     r_n_interaction := r_n_interaction r;
     r_vertex_time := r_vertex_time r;
     r_flavor := r_flavor r;
     r_energy := r_energy r;
     r_interaction_type := r_interaction_type r;
     r_inelasticity := r_inelasticity r;
     r_shower_energy :=
       fl_mul (fl_sub (Fl 1) (r_inelasticity r)) (Fl (r_energy r));
     r_shower_type := "em"%string |}.

(** What the splitting is meant to do to one row. *)
Definition split_row (r : row) : list row :=
  if is_em_shower (r_interaction_type r) (r_flavor r) then [r; em_twin r] else [r].

(** ** Secondary interactions *)

Definition at_index {A : Type} (l : list A) (i : nat) : res A :=
  match nth_error l i with
  | Some x => Ok x
  | None => Raise IndexError
  end.

(** [for key in data_sets: data_sets_fiducial[key].append(data_sets[key][iE])] *)
Definition append_row (iE : nat) (src dst : data_sets) : res data_sets :=
  if (iE <? min_len src)%nat then Ok (for_each_key2 (append_entry iE) src dst)
  else Raise IndexError.

(** The overwrites of the last row that turn it into a secondary record. *)
Definition mark_secondary (n_int : Z) (product : secondary_properties)
    (x y z vertex_time : Q) (fid : data_sets) : data_sets :=
  {| azimuths := azimuths fid;
     zeniths := zeniths fid;
     xx := set_last x (xx fid);
     yy := set_last y (yy fid);
     zz := set_last z (zz fid);
     event_group_ids := event_group_ids fid;
     n_interaction := set_last n_int (n_interaction fid);
     vertex_times := set_last vertex_time (vertex_times fid);
     flavors := set_last (product_code product) (flavors fid);
     energies := energies fid;
     interaction_type := set_last (product_shower_type product) (interaction_type fid);
     inelasticity := set_last NaN (inelasticity fid);
     shower_energies := set_last (Fl (product_energy product)) (shower_energies fid);
     shower_type := set_last (product_shower_type product) (shower_type fid) |}.

(** [lepton_codes]: neutrino flavor to charged lepton code. *)
Definition lepton_code (f : Z) : Z :=
  if f =? 14 then 13
  else if f =? -14 then -13
  else if f =? 16 then 15
  else if f =? -16 then -15
  else f.

Definition is_lepton (ccnc : string) (flavor : Z) : bool :=
  (String.eqb ccnc "cc" && (Z.abs flavor =? 16))
  || (String.eqb ccnc "cc" && (Z.abs flavor =? 14)).

(** [r >= attributes['fiducial_rmin'] and r <= attributes['fiducial_rmax']]
    and then the same on z; a key is only read when the tests before it
    passed. *)
Definition in_fiducial (attributes : gmap string pynum) (r z : Q) : res bool :=
  rmin <-- getitem attributes "fiducial_rmin" ;;
  if Qgeb r (float_of rmin) then
    rmax <-- getitem attributes "fiducial_rmax" ;;
    if Qle_bool r (float_of rmax) then
      zmin <-- getitem attributes "fiducial_zmin" ;;
      if Qgeb z (float_of zmin) then
        zmax <-- getitem attributes "fiducial_zmax" ;;
        Ok (Qle_bool z (float_of zmax))
      else Ok false
    else Ok false
  else Ok false.

Definition get_intersection_volume_neutrino (attributes : gmap string pynum)
    (vertex direction : vec3) : res bool :=
  if contains attributes "xmax" then
    xmin <-- getitem attributes "fiducial_xmin" ;;
    ymin <-- getitem attributes "fiducial_ymin" ;;
    zmin <-- getitem attributes "fiducial_zmin" ;;
    xmax <-- getitem attributes "fiducial_xmax" ;;
    ymax <-- getitem attributes "fiducial_ymax" ;;
    zmax <-- getitem attributes "fiducial_zmax" ;;
    let bounds := ((float_of xmin, float_of ymin, float_of zmin),
                   (float_of xmax, float_of ymax, float_of zmax)) in
    Ok (intersection_box_ray bounds (vertex, direction))
  else Ok true.

Section Generation.
Context `{Extern}.

Definition radius (x y : Q) : Q := np_power (x ^ 2 + y ^ 2)%Q (1 # 2).

Definition get_product_position_time (d : data_sets)
    (product : secondary_properties) (iE : nat) : res (Q * Q * Q * Q) :=
  let dist := product_distance product in
  let time := (dist / cspeed)%Q in
  x0 <-- at_index (xx d) iE ;;
  zen <-- at_index (zeniths d) iE ;;
  az <-- at_index (azimuths d) iE ;;
  y0 <-- at_index (yy d) iE ;;
  z0 <-- at_index (zz d) iE ;;
  Ok ((x0 - dist * np_sin zen * np_cos az)%Q,
      (y0 - dist * np_sin zen * np_sin az)%Q,
      (z0 - dist * np_cos zen)%Q,
      time).

(** State of the loop over the products of one event group. *)
Record product_state : Type := mkPState {
  first_inserted : bool;
  ps_n_interaction : Z;
  ps_fiducial : data_sets
}.

Definition product_step (attributes : gmap string pynum) (d : data_sets)
    (iE : nat) (st : product_state) (product : secondary_properties)
    : res product_state :=
  p <-- get_product_position_time d product iE ;;
  let '(x, y, z, vertex_time) := p in
  let r := radius x y in
  inside <-- in_fiducial attributes r z ;;
  if inside then
    fid1 <-- (if first_inserted st then append_row iE d (ps_fiducial st)
              else
                fid0 <-- append_row iE d (ps_fiducial st) ;;
                append_row iE d fid0) ;;
    Ok (mkPState true (ps_n_interaction st + 1)
          (mark_secondary (ps_n_interaction st) product x y z vertex_time fid1))
  else Ok st.

Fixpoint product_loop (attributes : gmap string pynum) (d : data_sets)
    (iE : nat) (products : list secondary_properties) (st : product_state)
    : res product_state :=
  match products with
  | [] => Ok st
  | product :: rest =>
      st' <-- product_step attributes d iE st product ;;
      product_loop attributes d iE rest st'
  end.

Definition lepton_directions (d : data_sets) : list vec3 :=
  map (fun tp =>
         let theta := fst tp in
         let phi := snd tp in
         ((- np_sin theta * np_cos phi)%Q,
          (- np_sin theta * np_sin phi)%Q,
          (- np_cos theta)%Q))
      (combine (zeniths d) (azimuths d)).

Definition lepton_positions (d : data_sets) : list vec3 :=
  map (fun p => (fst (fst p), snd (fst p), snd p))
      (combine (combine (xx d) (yy d)) (zz d)).

Definition mask_leptons (d : data_sets) : res (list bool) :=
  if (List.length (interaction_type d) =? List.length (flavors d))%nat
  then Ok (map (fun p => is_lepton (fst p) (snd p))
               (combine (interaction_type d) (flavors d)))
  else Raise ValueError.

Definition E_all_leptons (d : data_sets) : res (list pyfloat) :=
  if (List.length (inelasticity d) =? List.length (energies d))%nat
  then Ok (map (fun p => fl_mul (fl_sub (Fl 1) (fst p)) (Fl (snd p)))
               (combine (inelasticity d) (energies d)))
  else Raise ValueError.

(** The body of the loop over event groups (lines 1068-1132). *)
Definition event_step (attributes : gmap string pynum) (d : data_sets)
    (mask : list bool) (E_all : list pyfloat) (fid : data_sets) (iE : nat)
    : res data_sets :=
  x_nu <-- at_index (xx d) iE ;;
  y_nu <-- at_index (yy d) iE ;;
  z_nu <-- at_index (zz d) iE ;;
  let r_nu := radius x_nu y_nu in
  inside <-- in_fiducial attributes r_nu z_nu ;;
  fid1 <-- (if inside then append_row iE d fid else Ok fid) ;;
  is_lep <-- at_index mask iE ;;
  if is_lep then
    direction <-- at_index (lepton_directions d) iE ;;
    geometry_selection <--
      get_intersection_volume_neutrino attributes (x_nu, y_nu, z_nu) direction ;;
    if geometry_selection then
      E <-- at_index E_all iE ;;
      code <-- at_index (map lepton_code (flavors d)) iE ;;
      position <-- at_index (lepton_positions d) iE ;;
      let products := get_secondaries_array E code position direction in
      st <-- product_loop attributes d iE products (mkPState inside 2 fid1) ;;
      Ok (ps_fiducial st)
    else Ok fid1
  else Ok fid1.

Fixpoint event_loop (attributes : gmap string pynum) (d : data_sets)
    (mask : list bool) (E_all : list pyfloat) (events : list nat)
    (fid : data_sets) : res data_sets :=
  match events with
  | [] => Ok fid
  | iE :: rest =>
      fid' <-- event_step attributes d mask E_all fid iE ;;
      event_loop attributes d mask E_all rest fid'
  end.

(** The [if proposal:] block (lines 1040-1138). The timing line after the
    loop reads [iE], which is unbound when the table has no row. *)
Definition expand_secondaries (attributes : gmap string pynum) (d : data_sets)
    : res data_sets :=
  mask <-- mask_leptons d ;;
  E_all <-- E_all_leptons d ;;
  fid <-- event_loop attributes d mask E_all
            (seq 0 (List.length (event_group_ids d))) empty_data_sets ;;
  if is_empty (event_group_ids d) then Raise (UnboundLocalError "iE")
  else Ok fid.

(** ** [generate_eventlist_cylinder] *)

(** [np.arange(lo, lo + n)] as a list. *)
Definition arange (lo : Z) (n : Z) : list Z :=
  map (fun k => lo + Z.of_nat k) (seq 0 (Z.to_nat n)).

Fixpoint all_some {A : Type} (l : list (option A)) : option (list A) :=
  match l with
  | [] => Some []
  | Some x :: t => option_map (cons x) (all_some t)
  | None :: _ => None
  end.

(** The results of a list comprehension: the first exception ends it. *)
Fixpoint all_ok {A : Type} (l : list (res A)) : res (list A) :=
  match l with
  | [] => Ok []
  | Ok x :: t => res_map (cons x) (all_ok t)
  | Raise e :: _ => Raise e
  end.

Fixpoint all_finite (l : list float64) : option (list Q) :=
  match l with
  | [] => Some []
  | Finite q :: t => option_map (cons q) (all_finite t)
  | NonFinite :: _ => None
  end.

(** Lines 1012-1016: the primary energies of a run with [deposited]. The
    elements that [zip] hands to [primary_energy_from_deposited] are NumPy
    scalars. A [None] among the results makes the product with the
    inelasticities (line 1019) raise [TypeError]. A zero inelasticity on a
    row that divides by it leaves inf or nan in the column, with a
    [RuntimeWarning], and the run goes on; the columns of this model hold
    finite floats only, so the model stops such a run with that warning
    and nothing is said of its table. *)
Definition primary_energies (en : list Q) (ccnc : list string) (fl : list Z)
    (inel : list Q) : res (list Q) :=
  rows <-- all_ok
             (map (fun p =>
                     let '(Edep, c, f, y) := p in
                     primary_energy_from_deposited numpy_float64 Edep c f y)
                  (combine (combine (combine en ccnc) fl) inel)) ;;
  match all_some rows with
  | None => Raise TypeError
  | Some l =>
      match all_finite l with
      | Some finite => Ok finite
      | None => Raise RuntimeWarning
      end
  end.

(** The numeric run attributes set at the start of the entry point; the
    version strings, the flavor list and the [deposited] flag are not read
    again by the generator and are left out. *)
Definition initial_attributes (n_events start_event_id : Z)
    (Emin Emax thetamin thetamax phimin phimax : Q) : gmap string pynum :=
  <["phimax" := PFloat phimax]>
  (<["phimin" := PFloat phimin]>
  (<["thetamax" := PFloat thetamax]>
  (<["thetamin" := PFloat thetamin]>
  (<["Emax" := PFloat Emax]>
  (<["Emin" := PFloat Emin]>
  (<["n_events" := PInt n_events]>
  (<["start_event_id" := PInt start_event_id]> ∅))))))).

(** Lines 962-1019: the attributes and the one-row-per-event table. *)
Definition baseline_table (n_events : Z) (Emin Emax : Q)
    (volume : gmap string pynum) (thetamin thetamax phimin phimax : Q)
    (start_event_id : Z) (flavor : list Z) (spectrum : string)
    (deposited proposal : bool) : M (gmap string pynum * data_sets) :=
  let attributes :=
    initial_attributes n_events start_event_id Emin Emax
                       thetamin thetamax phimin phimax in
  az <- np_random_uniform phimin phimax (PInt n_events) ;;
  u <- np_random_uniform (np_cos thetamax) (np_cos thetamin) (PInt n_events) ;;
  let zen := map np_arccos u in
  vp <- generate_vertex_positions volume proposal attributes ;;
  let attributes := fst vp in
  match snd vp with
  | None => raise TypeError
  | Some (vx, vy, vz) =>
      let ids := arange start_event_id n_events in
      let n_int := map (fun _ => 1) ids in
      let times := map (fun _ => 0%Q) ids in
      idx <- np_random_randint (Z.of_nat (List.length flavor)) n_events ;;
      let fl := map (fun i => nth (Z.to_nat i) flavor 0) idx in
      en <- get_energies n_events Emin Emax spectrum ;;
      ccnc <- get_ccnc n_events ;;
      inel <- get_neutrino_inelasticity n_events ;;
      en' <- (if deposited then lift (primary_energies en ccnc fl inel)
              else ret en) ;;
      let sh := map (fun p => Fl (fst p * snd p)%Q) (combine en' inel) in
      ret (attributes,
           {| azimuths := az;
              zeniths := zen;
              xx := vx;
              yy := vy;
              zz := vz;
              event_group_ids := ids;
              n_interaction := n_int;
              vertex_times := times;
              flavors := fl;
              energies := en';
              interaction_type := ccnc;
              inelasticity := map Fl inel;
              shower_energies := sh;
              shower_type := map (fun _ => "had"%string) ids |})
  end.

(** Lines 962-1144: the table handed to the writer and its [shower_ids]. *)
Definition final_table (n_events : Z) (Emin Emax : Q)
    (volume : gmap string pynum) (thetamin thetamax phimin phimax : Q)
    (start_event_id : Z) (flavor : list Z) (spectrum : string)
    (deposited proposal : bool) : M (data_sets * list Z) :=
  b <- baseline_table n_events Emin Emax volume thetamin thetamax phimin phimax
         start_event_id flavor spectrum deposited proposal ;;
  let attributes := fst b in
  d <- lift (add_em_showers n_events (snd b)) ;;
  fid <- (if proposal then lift (expand_secondaries attributes d) else ret d) ;;
  ret (fid, arange 0 (Z.of_nat (List.length (shower_energies fid)))).

(** Lines 1143-1146: the call of the writer on a finished table. *)
Definition eventlist_finish (filename : string) (fid : data_sets)
    (n_events start_event_id : Z) (n_events_per_file : option Z)
    (start_file_id : Z) : option (res (list shard)) :=
  write_events_to_hdf5 filename (event_group_ids fid) n_events
    (Some start_event_id) n_events_per_file start_file_id.

Definition generate_eventlist_cylinder (filename : string) (n_events : Z)
    (Emin Emax : Q) (volume : gmap string pynum)
    (thetamin thetamax phimin phimax : Q) (start_event_id : Z)
    (flavor : list Z) (n_events_per_file : option Z) (spectrum : string)
    (deposited proposal : bool) (start_file_id : Z)
    : world -> option (res (list shard)) * world :=
  fun w =>
    match final_table n_events Emin Emax volume thetamin thetamax phimin phimax
            start_event_id flavor spectrum deposited proposal w with
    | (Ok (fid, _), w') =>
        (eventlist_finish filename fid n_events start_event_id
           n_events_per_file start_file_id, w')
    | (Raise e, w') => (Some (Raise e), w')
    end.

End Generation.

(** ** The end of [generate_surface_muons] (lines 807-821) *)

(** The muon table has the key [muon_energies] on top of the others. *)
Record muon_data_sets : Type := mkMuon {
  md_columns : data_sets;
  muon_energies : list Q
}.

(** [np.array([column[0]])] *)
Definition first_entry (A : Type) (l : list A) : list A := firstn 1 l.

(** The placeholder table: the first input row with flavor 14. *)
Definition placeholder (d : muon_data_sets) : muon_data_sets :=
  let c := for_each_key first_entry (md_columns d) in
  {| md_columns :=
       {| azimuths := azimuths c;
          zeniths := zeniths c;
          xx := xx c;
          yy := yy c;
          zz := zz c;
          event_group_ids := event_group_ids c;
          n_interaction := n_interaction c;
          vertex_times := vertex_times c;
          flavors := [14];
          energies := energies c;
          interaction_type := interaction_type c;
          inelasticity := inelasticity c;
          shower_energies := shower_energies c;
          shower_type := shower_type c |};
     muon_energies := first_entry _ (muon_energies d) |}.

(** The table that is written, with its [shower_ids], and the files. *)
Definition surface_muons_finish (filename : string)
    (d fid : muon_data_sets) (n_events start_event_id : Z)
    (n_events_per_file : option Z) (start_file_id : Z)
    : res (muon_data_sets * list Z) * option (res (list shard)) :=
  let r :=
    if (List.length (event_group_ids (md_columns fid)) =? 0)%nat then
      if (0 <? Nat.min (min_len (md_columns d)) (List.length (muon_energies d)))%nat
      then Ok (placeholder d)
      else Raise IndexError
    else Ok fid in
  match r with
  | Raise e => (Raise e, Some (Raise e))
  | Ok fid' =>
      (Ok (fid', arange 0 (Z.of_nat (List.length (shower_energies (md_columns fid'))))),
       write_events_to_hdf5 filename (event_group_ids (md_columns fid')) n_events
         (Some start_event_id) n_events_per_file start_file_id)
  end.

(** ** A concrete choice of the external functions

    Used to run the model on examples: constant trigonometry, a tau range of
    ten length units and a random source that always yields one half. *)
Definition sample_extern : Extern :=
  {| np_pi := 355 # 113;
     np_sin := fun _ => 0%Q;
     np_cos := fun _ => 1%Q;
     np_arccos := fun x => x;
     np_log10 := fun _ => 18%Q;
     np_log := fun x => x;
     np_exp := fun x => x;
     np_power := fun x _ => x;
     units_eV := 1;
     units_m := 1;
     cspeed := 299792458 # 1000000000;
     py_float := fun _ => None;
     rand_unit := fun _ => (1 # 2)%Q;
     rand_word := fun k => Z.of_nat k;
     ccnc_of := fun _ => "cc"%string;
     inelasticity_of := fun u => u;
     flux_cum_max := fun _ _ _ => 1%Q;
     flux_inv_cdf := fun _ _ _ u => u;
     get_secondaries_array := fun _ _ _ _ => [] |}.

(** A unit box and a unit cylinder as volume dicts. *)
Definition sample_box : gmap string pynum :=
  <["fiducial_xmin" := PInt 0]> (<["fiducial_xmax" := PInt 1]>
  (<["fiducial_ymin" := PInt 0]> (<["fiducial_ymax" := PInt 1]>
  (<["fiducial_zmin" := PInt (-1)]> (<["fiducial_zmax" := PInt 0]> ∅))))).

Definition sample_cylinder : gmap string pynum :=
  <["fiducial_rmax" := PInt 1]>
  (<["fiducial_zmin" := PInt (-1)]> (<["fiducial_zmax" := PInt 0]> ∅)).
(** ** The event count of a file, as the specification words it *)

(** Last event group id claimed by file [i]. *)
Definition last_id (uniq : list Z) (K i : Z) : Z :=
  List.last (evt_ids_of_file uniq K i) 0.

(** The four cases, in their precedence: [first] says the file is file 0,
    [ids_remain] that the next file still claims ids. *)
Definition four_case (n_events start_event_id : Z) (first ids_remain : bool)
    (last_this last_previous : Z) : Z :=
  if first && negb ids_remain then n_events
  else if negb ids_remain then n_events - (last_previous + 1) + start_event_id
  else if first then last_this - start_event_id + 1
  else last_this - last_previous.

(** The name of file [i]. *)
Definition part_name (filename : string) (n_events K start_file_id i : Z) : string :=
  if (0 <? i) || (K <? n_events)
  then (filename ++ ".part" ++ format_04 (i + start_file_id))%string
  else filename.

(** The spectrum names [get_energies] has a branch for. *)
Definition has_spectrum_branch (spectrum_type : string) : bool :=
  String.eqb spectrum_type "log_uniform"
  || String.prefix "E-" spectrum_type
  || String.eqb spectrum_type "GZK-1"
  || String.eqb spectrum_type "IceCube-nu-2017"
  || String.eqb spectrum_type "GZK-1+IceCube-nu-2017".

(** Two rays for the box test: one that enters the box at parameter 2, and
    one that has the box behind its origin. *)
Definition hit_bounds : vec3 * vec3 := ((2, 4, 2), (3, 6, 3))%Q.
Definition hit_ray : vec3 * vec3 := ((0, 0, 0), (1, 2, 1))%Q.
Definition behind_bounds : vec3 * vec3 := ((0, 0, 0), (1, 16, 16))%Q.
Definition behind_ray : vec3 * vec3 := ((10, 5, 5), (1, -1, -1))%Q.


(** Attribute dicts for two calls of [generate_vertex_positions]: the one
    the entry point builds, and one that already holds a [zmax] entry. *)
Definition fresh_attributes : gmap string pynum :=
  initial_attributes 10 1 1 2 0 1 0 1.

Definition attributes_with_zmax : gmap string pynum :=
  <["zmax" := PInt 0]> fresh_attributes.


(** Whether a row is an electron charged-current interaction. *)
Definition is_em_row (r : row) : bool :=
  is_em_shower (r_interaction_type r) (r_flavor r).

(** ** The secondary expansion, as the specification words it *)


Section ExpansionSpec.
Context `{Extern}.
Variables rmin rmax zmin zmax : pynum.

(** Position and time of a product of the lepton of row [parent]. *)
Definition product_position (parent : row) (p : secondary_properties)
    : Q * Q * Q * Q :=
  let dist := product_distance p in
  ((r_x parent - dist * np_sin (r_zenith parent) * np_cos (r_azimuth parent))%Q,
   (r_y parent - dist * np_sin (r_zenith parent) * np_sin (r_azimuth parent))%Q,
   (r_z parent - dist * np_cos (r_zenith parent))%Q,
   (dist / cspeed)%Q).






Definition row_direction (parent : row) : vec3 :=
  ((- np_sin (r_zenith parent) * np_cos (r_azimuth parent))%Q,
   (- np_sin (r_zenith parent) * np_sin (r_azimuth parent))%Q,
   (- np_cos (r_zenith parent))%Q).



End ExpansionSpec.

(** ** Sample tables *)

(** A propagator that yields two products, one and three half length units
    down the track. *)
Definition sample_extern_with_products : Extern :=
  {| np_pi := 355 # 113;
     np_sin := fun _ => 0%Q;
     np_cos := fun _ => 1%Q;
     np_arccos := fun x => x;
     np_log10 := fun _ => 18%Q;
     np_log := fun x => x;
     np_exp := fun x => x;
     np_power := fun x _ => x;
     units_eV := 1;
     units_m := 1;
     cspeed := 299792458 # 1000000000;
     py_float := fun _ => None;
     rand_unit := fun _ => (1 # 2)%Q;
     rand_word := fun k => Z.of_nat k;
     ccnc_of := fun _ => "cc"%string;
     inelasticity_of := fun u => u;
     flux_cum_max := fun _ _ _ => 1%Q;
     flux_inv_cdf := fun _ _ _ u => u;
     get_secondaries_array := fun _ _ _ _ =>
       [mkProduct 1 5 "had" 86; mkProduct (3 # 2) 3 "em" 11] |}.

(** Attributes of a unit fiducial cylinder, z between -1 and 0. *)
Definition cylinder_attributes : gmap string pynum :=
  <["fiducial_rmin" := PInt 0]> (<["fiducial_rmax" := PInt 1]>
  (<["fiducial_zmin" := PInt (-1)]> (<["fiducial_zmax" := PInt 0]> ∅))).

(** A muon-neutrino charged-current row with its vertex above the
    fiducial cylinder. *)
Definition outside_row : row :=
  {| r_azimuth := 0;
     r_zenith := 0;
     r_x := 1 # 2;
     r_y := 1 # 2;
     r_z := 1 # 2;
     r_event_group_id := 7;
     r_n_interaction := 1;
     r_vertex_time := 0;
     r_flavor := 14;
     r_energy := 10;
     r_interaction_type := "cc";
     r_inelasticity := Fl (1 # 2);
     r_shower_energy := Fl 5;
     r_shower_type := "had" |}.

(** A muon table of one row that crosses nothing. *)
Definition sample_muons : muon_data_sets :=
  {| md_columns :=
       cols_of [ {| r_azimuth := 0;
                    r_zenith := 0;
                    r_x := 1 # 2;
                    r_y := 1 # 2;
                    r_z := 0;
                    r_event_group_id := 1;
                    r_n_interaction := 1;
                    r_vertex_time := 0;
                    r_flavor := 13;
                    r_energy := 10;
                    r_interaction_type := "";
                    r_inelasticity := Fl 0;
                    r_shower_energy := Fl 0;
                    r_shower_type := "had" |} ];
     muon_energies := [10%Q] |}.

Definition no_muons : muon_data_sets :=
  {| md_columns := empty_data_sets; muon_energies := [] |}.

(** The baseline table of a run of three events in the unit box, with the
    attributes and the state of the random source after it. *)
Definition sample_baseline : res (gmap string pynum * data_sets) * world :=
  @baseline_table sample_extern 3 1 2 sample_box 0 1 0 1 1 [12; -12; 14]
    "log_uniform" false false [].

Definition sample_attributes : gmap string pynum :=
  Eval vm_compute in
    match sample_baseline with
    | (Ok (attrs, _), _) => attrs
    | _ => ∅
    end.

Definition sample_base : data_sets :=
  Eval vm_compute in
    match sample_baseline with
    | (Ok (_, base), _) => base
    | _ => empty_data_sets
    end.

Definition sample_world : world :=
  Eval vm_compute in snd sample_baseline.

(** ** Orderings and totals used to state the properties of the writer *)

(** The rows of a table are ordered by event group id: the ids never
    decrease from one row to the next. *)
Fixpoint nondecreasing (l : list Z) : bool :=
  match l with
  | [] => true
  | x :: t =>
      match t with
      | [] => true
      | y :: _ => (x <=? y) && nondecreasing t
      end
  end.

(** [n_events_total]: the sum of the [n_events] attributes of the files. *)
Definition n_events_total (shards : list shard) : Z :=
  fold_right Z.add 0 (map shard_n_events shards).

(** ** Reading a part number back from its printed form *)

(** The number a string of decimal digits stands for; leading zeros are
    allowed. *)
Definition read_digits (s : string) : option N :=
  option_map N.of_uint (NilEmpty.uint_of_string s).

(** The inverse of [format_04]. *)
Definition read_04 (s : string) : option Z :=
  match s with
  | String "-" t => option_map (fun n => - Z.of_N n) (read_digits t)
  | _ => option_map Z.of_N (read_digits s)
  end.

(** A table of five rows in three event groups, and the two files the
    writer cuts it into at two events per file. *)
Definition sample_ids : list Z := [1; 1; 2; 3; 3].

Definition sample_shards : list shard :=
  [ mkShard "f.part0000" 2 3 1 2 0 3; mkShard "f.part0001" 1 3 3 3 3 5 ].

(** Attributes that hold the number of events only, as
    [generate_vertex_positions] needs them without secondary interactions. *)
Definition three_events : gmap string pynum := <["n_events" := PInt 3]> ∅.

(** The same with the maximum energy, as the tau range needs it. *)
Definition three_events_Emax : gmap string pynum :=
  <["Emax" := PFloat 2]> three_events.

(** The unit box with an entry for the full simulation volume, and a volume
    dict that names neither a cylinder nor a box. *)
Definition sample_box_full : gmap string pynum :=
  <["full_xmax" := PInt 2]> sample_box.

Definition sample_sphere : gmap string pynum := <["radius" := PInt 1]> ∅.

(** The table that a run of three events in the unit box hands to the
    writer, with its shower ids. *)
Definition sample_table : data_sets :=
  Eval vm_compute in
    match @final_table sample_extern 3 1 2 sample_box 0 1 0 1 1 [12; -12; 14]
            "log_uniform" false false [] with
    | (Ok (fid, _), _) => fid
    | _ => empty_data_sets
    end.

Definition sample_shower_ids : list Z :=
  Eval vm_compute in
    match @final_table sample_extern 3 1 2 sample_box 0 1 0 1 1 [12; -12; 14]
            "log_uniform" false false [] with
    | (Ok (_, sids), _) => sids
    | _ => []
    end.

(** ** [generate_surface_muons] (lines 685-823)

    The muon table is the event table with the extra key [muon_energies].
    [np.arcsin] is taken as a parameter; the propagator object is taken to
    be constructed. *)

(** [for key in data_sets: data_sets_fiducial[key].append(data_sets[key][iE])] *)
Definition muon_append_row (iE : nat) (src dst : muon_data_sets)
    : res muon_data_sets :=
  c <-- append_row iE (md_columns src) (md_columns dst) ;;
  m <-- at_index (muon_energies src) iE ;;
  Ok {| md_columns := c; muon_energies := muon_energies dst ++ [m] |}.

(** The overwrites of the last row for a product of a muon (lines 783-799). *)
Definition mark_muon_product (n_int : Z) (product : secondary_properties)
    (x y z vertex_time : Q) (fid : muon_data_sets) : muon_data_sets :=
  let c := md_columns fid in
  {| md_columns :=
       {| azimuths := azimuths c;
          zeniths := zeniths c;
          xx := set_last x (xx c);
          yy := set_last y (yy c);
          zz := set_last z (zz c);
          event_group_ids := event_group_ids c;
          n_interaction := set_last n_int (n_interaction c);
          vertex_times := set_last vertex_time (vertex_times c);
          flavors := set_last (product_code product) (flavors c);
          energies := energies c;
          interaction_type :=
            set_last (product_shower_type product) (interaction_type c);
          inelasticity := set_last (Fl 1) (inelasticity c);
          shower_energies :=
            set_last (Fl (product_energy product)) (shower_energies c);
          shower_type := set_last (product_shower_type product) (shower_type c) |};
     muon_energies := muon_energies fid |}.

(** [plus_minus] to the list of particle codes. *)
Definition muon_flavor (plus_minus : string) : list Z :=
  if String.eqb plus_minus "plus" then [-13]
  else if String.eqb plus_minus "minus" then [13]
  else [13; -13].

Definition empty_muon_data_sets : muon_data_sets :=
  {| md_columns := empty_data_sets; muon_energies := [] |}.

(** How a direction reaches the ray test. [generate_eventlist_cylinder]
    turns its list of directions into an array ([np.array], line 1065), so
    that an element of it is an array; [generate_surface_muons] keeps the
    list of tuples that lines 757-758 build. *)
Inductive py_vector : Type :=
| nd_array (v : vec3)
| py_tuple (v : vec3).

(** [intersection_box_ray(bounds, [orig, direction])]. The function starts
    with [invdir = 1 / direction] (line 514): NumPy computes it for an
    array; for a tuple it raises [TypeError], before [bounds] is read. *)
Definition intersection_box_ray_py (bounds : vec3 * vec3) (orig : vec3)
    (direction : py_vector) : res bool :=
  match direction with
  | nd_array d => Ok (intersection_box_ray bounds (orig, d))
  | py_tuple _ => Raise TypeError
  end.

(** [get_intersection_volume_neutrino(attributes, vertex, direction)] for a
    direction of either kind. *)
Definition get_intersection_volume_neutrino_py
    (attributes : gmap string pynum) (vertex : vec3) (direction : py_vector)
    : res bool :=
  if contains attributes "xmax" then
    xmin <-- getitem attributes "fiducial_xmin" ;;
    ymin <-- getitem attributes "fiducial_ymin" ;;
    zmin <-- getitem attributes "fiducial_zmin" ;;
    xmax <-- getitem attributes "fiducial_xmax" ;;
    ymax <-- getitem attributes "fiducial_ymax" ;;
    zmax <-- getitem attributes "fiducial_zmax" ;;
    let bounds := ((float_of xmin, float_of ymin, float_of zmin),
                   (float_of xmax, float_of ymax, float_of zmax)) in
    intersection_box_ray_py bounds vertex direction
  else Ok true.

Section SurfaceMuons.
Context `{Extern}.
Variable np_arcsin : Q -> Q.

(** The loop over the products of one muon (lines 776-799). *)
Definition muon_product_step (d : muon_data_sets) (iE : nat)
    (st : Z * muon_data_sets) (product : secondary_properties)
    : res (Z * muon_data_sets) :=
  p <-- get_product_position_time (md_columns d) product iE ;;
  let '(x, y, z, vertex_time) := p in
  fid1 <-- muon_append_row iE d (snd st) ;;
  Ok (fst st + 1, mark_muon_product (fst st) product x y z vertex_time fid1).

Fixpoint muon_product_loop (d : muon_data_sets) (iE : nat)
    (products : list secondary_properties) (st : Z * muon_data_sets)
    : res (Z * muon_data_sets) :=
  match products with
  | [] => Ok st
  | product :: rest =>
      st' <-- muon_product_step d iE st product ;;
      muon_product_loop d iE rest st'
  end.

(** The body of the loop over the muons (lines 760-799). The direction
    handed to the ray test is an element of [lepton_directions], a tuple. *)
Definition muon_event_step (attributes : gmap string pynum)
    (d : muon_data_sets) (fid : muon_data_sets) (iE : nat)
    : res muon_data_sets :=
  let c := md_columns d in
  x <-- at_index (xx c) iE ;;
  y <-- at_index (yy c) iE ;;
  z <-- at_index (zz c) iE ;;
  direction <-- at_index (lepton_directions c) iE ;;
  geometry_selection <--
    get_intersection_volume_neutrino_py attributes (x, y, z)
      (py_tuple direction) ;;
  if geometry_selection then
    E <-- at_index (energies c) iE ;;
    code <-- at_index (flavors c) iE ;;
    position <-- at_index (lepton_positions c) iE ;;
    let products := get_secondaries_array (Fl E) code position direction in
    st <-- muon_product_loop d iE products (1, fid) ;;
    Ok (snd st)
  else Ok fid.

Fixpoint muon_event_loop (attributes : gmap string pynum)
    (d : muon_data_sets) (events : list nat) (fid : muon_data_sets)
    : res muon_data_sets :=
  match events with
  | [] => Ok fid
  | iE :: rest =>
      fid' <-- muon_event_step attributes d fid iE ;;
      muon_event_loop attributes d rest fid'
  end.

(** Lines 688-744: the attributes and the one-row-per-muon table. *)
Definition muon_baseline_table (n_events : Z) (Emin Emax : Q)
    (volume : gmap string pynum) (thetamin thetamax phimin phimax : Q)
    (start_event_id : Z) (plus_minus : string) (spectrum : string)
    : M (gmap string pynum * muon_data_sets) :=
  let attributes :=
    initial_attributes n_events start_event_id Emin Emax
                       thetamin thetamax phimin phimax in
  let flavor := muon_flavor plus_minus in
  az <- np_random_uniform phimin phimax (PInt n_events) ;;
  u <- np_random_uniform (sq (np_sin thetamin)) (sq (np_sin thetamax))
         (PInt n_events) ;;
  let zen := map (fun x => np_arcsin (np_power x (1 # 2))) u in
  vp <- generate_vertex_positions volume false attributes ;;
  let attributes := fst vp in
  match snd vp with
  | None => raise TypeError
  | Some (vx, vy, vz) =>
      let ids := arange start_event_id n_events in
      let n_int := map (fun _ => 1) ids in
      let times := map (fun _ => 0%Q) ids in
      idx <- np_random_randint (Z.of_nat (List.length flavor)) n_events ;;
      let fl := map (fun i => nth (Z.to_nat i) flavor 0) idx in
      en <- get_energies n_events Emin Emax spectrum ;;
      ret (attributes,
           {| md_columns :=
                {| azimuths := az;
                   zeniths := zen;
                   xx := vx;
                   yy := vy;
                   zz := vz;
                   event_group_ids := ids;
                   n_interaction := n_int;
                   vertex_times := times;
                   flavors := fl;
                   energies := en;
                   interaction_type := map (fun _ => ""%string) ids;
                   inelasticity := map (fun _ => Fl 0) ids;
                   shower_energies := map (fun e => Fl (e * 0)%Q) en;
                   shower_type := map (fun _ => "had"%string) ids |};
              muon_energies := en |})
  end.

(** [generate_surface_muons]: the files written. The timing line after the
    loop reads [iE], which is unbound when there is no muon. *)
Definition generate_surface_muons (filename : string) (n_events : Z)
    (Emin Emax : Q) (volume : gmap string pynum)
    (thetamin thetamax phimin phimax : Q) (start_event_id : Z)
    (plus_minus : string) (n_events_per_file : option Z) (spectrum : string)
    (start_file_id : Z) : world -> option (res (list shard)) * world :=
  fun w =>
    match muon_baseline_table n_events Emin Emax volume thetamin thetamax
            phimin phimax start_event_id plus_minus spectrum w with
    | (Raise e, w') => (Some (Raise e), w')
    | (Ok (attributes, d), w') =>
        match muon_event_loop attributes d
                (seq 0 (List.length (event_group_ids (md_columns d))))
                empty_muon_data_sets with
        | Raise e => (Some (Raise e), w')
        | Ok fid =>
            if is_empty (event_group_ids (md_columns d))
            then (Some (Raise (UnboundLocalError "iE")), w')
            else (snd (surface_muons_finish filename d fid n_events
                         start_event_id n_events_per_file start_file_id), w')
        end
    end.

End SurfaceMuons.

(** *** The muon table read on rows *)

(** The muon table whose rows are [mrows]: a row and its muon energy. *)
Definition mcols_of (mrows : list (row * Q)) : muon_data_sets :=
  {| md_columns := cols_of (map fst mrows); muon_energies := map snd mrows |}.

Section MuonRows.
Context `{Extern}.

(** The record of product [p] of the muon of row [parent], with interaction
    index [n]. *)
Definition muon_secondary_row (parent : row) (n : Z) (p : secondary_properties)
    : row :=
  let '(x, y, z, t) := product_position parent p in
  {| r_azimuth := r_azimuth parent;
     r_zenith := r_zenith parent;
     r_x := x;
     r_y := y;
     r_z := z;
     r_event_group_id := r_event_group_id parent;
     r_n_interaction := n;
     r_vertex_time := t;
     r_flavor := product_code p;
     r_energy := r_energy parent;
     r_interaction_type := product_shower_type p;
     r_inelasticity := Fl 1;
     r_shower_energy := Fl (product_energy p);
     r_shower_type := product_shower_type p |}.

Fixpoint muon_secondaries (parent : row) (m : Q) (n : Z)
    (products : list secondary_properties) : list (row * Q) :=
  match products with
  | [] => []
  | p :: rest =>
      (muon_secondary_row parent n p, m) :: muon_secondaries parent m (n + 1) rest
  end.

Definition muon_products (parent : row) : list secondary_properties :=
  get_secondaries_array (Fl (r_energy parent)) (r_flavor parent)
    (r_x parent, r_y parent, r_z parent) (row_direction parent).

(** Outcome of the ray/volume test for the muon of row [parent]. *)
Definition muon_selected (attributes : gmap string pynum) (parent : row)
    : res bool :=
  get_intersection_volume_neutrino_py attributes
    (r_x parent, r_y parent, r_z parent) (py_tuple (row_direction parent)).

(** Rows appended for one muon. *)
Definition muon_group_rows (attributes : gmap string pynum)
    (mrow : row * Q) : list (row * Q) :=
  match muon_selected attributes (fst mrow) with
  | Ok true => muon_secondaries (fst mrow) (snd mrow) 1 (muon_products (fst mrow))
  | _ => []
  end.

(** Rows appended for one muon that is propagated: one per product. *)
Definition muon_product_rows (mrow : row * Q) : list (row * Q) :=
  muon_secondaries (fst mrow) (snd mrow) 1 (muon_products (fst mrow)).

End MuonRows.

(** One muon row with its muon energy. *)
Definition sample_muon_rows : list (row * Q) := [(outside_row, 10%Q)].

(** The baseline table of the same run with deposited energies. *)
Definition sample_deposited : data_sets :=
  Eval vm_compute in
    match @baseline_table sample_extern 3 1 2 sample_box 0 1 0 1 1
            [12; -12; 14] "log_uniform" true false [] with
    | (Ok (_, base), _) => base
    | _ => empty_data_sets
    end.

(** * Properties *)

Lemma insert_unique_length (x : Z) (l : list Z) :
  (List.length (insert_unique x l) <= S (List.length l))%nat.
Proof.
  induction l as [|y t IH]; simpl; [lia|].
  destruct (x <? y); [simpl; lia|].
  destruct (x =? y); simpl; lia.
Qed.

Lemma np_unique_length (l : list Z) :
  (List.length (np_unique l) <= List.length l)%nat.
Proof.
  induction l as [|x t IH]; simpl; [lia|].
  pose proof (insert_unique_length x (np_unique t)). lia.
Qed.

Lemma py_slice_nonempty {A : Type} (l : list A) (a b : Z) :
  py_slice l a b <> [] ->
  py_bound (Z.of_nat (List.length l)) a < py_bound (Z.of_nat (List.length l)) b
  /\ py_bound (Z.of_nat (List.length l)) a < Z.of_nat (List.length l).
Proof.
  unfold py_slice. intros Hne.
  set (len := Z.of_nat (List.length l)) in *.
  set (s := py_bound len a) in *. set (e := py_bound len b) in *.
  assert (Hlen : 0 <= len) by (unfold len; lia).
  assert (Hs : 0 <= s) by (unfold s, py_bound; destruct (Z.ltb_spec a 0); lia).
  split.
  - destruct (Z_lt_le_dec s e) as [|Hle]; [assumption|].
    exfalso. apply Hne. replace (Z.to_nat (e - s)) with 0%nat by lia. reflexivity.
  - destruct (Z_lt_le_dec s len) as [|Hle]; [assumption|].
    exfalso. apply Hne. rewrite skipn_all2 by lia. now rewrite firstn_nil.
Qed.

Lemma evt_ids_nonempty_bound (uniq : list Z) (K i : Z) :
  0 <= i -> evt_ids_of_file uniq K i <> [] -> i < Z.of_nat (List.length uniq).
Proof.
  intros Hi Hne. apply py_slice_nonempty in Hne. destruct Hne as [Hlt Hs].
  set (len := Z.of_nat (List.length uniq)) in *.
  assert (Hlen : 0 <= len) by (unfold len; lia).
  unfold py_bound in *.
  destruct (i * K <? 0) eqn:E1; destruct ((i + 1) * K <? 0) eqn:E2;
    try apply Z.ltb_lt in E1; try apply Z.ltb_ge in E1;
    try apply Z.ltb_lt in E2; try apply Z.ltb_ge in E2; nia.
Qed.

Lemma last_indep {A : Type} (l : list A) (d d' : A) :
  l <> [] -> List.last l d = List.last l d'.
Proof.
  induction l as [|x t IH]; [congruence|].
  intros _. destruct t as [|y t']; [reflexivity|].
  change (List.last (y :: t') d = List.last (y :: t') d').
  apply IH. discriminate.
Qed.

Lemma last_In {A : Type} (l : list A) (d : A) : l <> [] -> In (List.last l d) l.
Proof.
  induction l as [|x t IH]; [congruence|].
  intros _. destruct t as [|y t']; [left; reflexivity|].
  right. apply IH. discriminate.
Qed.

Lemma insert_unique_In (x v : Z) (l : list Z) :
  In v (insert_unique x l) -> v = x \/ In v l.
Proof.
  induction l as [|y t IH]; simpl.
  - intros [->|[]]. now left.
  - destruct (x <? y).
    + simpl. intros [->|[->|Hin]]; auto.
    + destruct (x =? y).
      * simpl. auto.
      * simpl. intros [->|Hin]; auto. destruct (IH Hin); auto.
Qed.

Lemma np_unique_In (v : Z) (l : list Z) : In v (np_unique l) -> In v l.
Proof.
  induction l as [|x t IH]; simpl; [auto|].
  intros Hin. apply insert_unique_In in Hin. destruct Hin; auto.
Qed.

Lemma py_slice_In {A : Type} (l : list A) (a b : Z) (v : A) :
  In v (py_slice l a b) -> In v l.
Proof.
  unfold py_slice. intros Hin.
  set (s := Z.to_nat (py_bound (Z.of_nat (List.length l)) a)) in *.
  set (n := Z.to_nat _) in Hin.
  rewrite <- (firstn_skipn s l). apply in_or_app. right.
  rewrite <- (firstn_skipn n (skipn s l)). apply in_or_app. now left.
Qed.

Lemma argwhere_from_nonempty (v : Z) (l : list Z) (i : Z) :
  In v l -> argwhere_from i v l <> [].
Proof.
  revert i. induction l as [|x t IH]; simpl; intros i Hin; [contradiction|].
  destruct (Z.eqb_spec x v); [discriminate|].
  destruct Hin; [congruence|]. now apply IH.
Qed.

(** The loop never runs out of fuel when it is given one more than the
    number of distinct ids still ahead. *)
Lemma write_loop_total (filename : string) (ids uniq : list Z)
    (n_events K start_event_id start_file_id : Z) :
  forall (fuel : nat) (i prev start : Z),
    0 <= i <= Z.of_nat (List.length uniq) ->
    Z.of_nat (List.length uniq) + 1 <= Z.of_nat fuel + i ->
    write_loop fuel filename ids uniq n_events K start_event_id start_file_id
               i prev start <> None.
Proof.
  induction fuel as [|fuel IH]; intros i prev start Hi Hfuel; [lia|].
  simpl.
  destruct (evt_ids_of_file uniq K i) as [|first rest] eqn:Hthis; [discriminate|].
  assert (Hlt : i < Z.of_nat (List.length uniq)).
  { apply (evt_ids_nonempty_bound uniq K); [lia|]. rewrite Hthis. discriminate. }
  destruct (argwhere (List.last (first :: rest) first) ids) as [|t0 ts];
    [discriminate|].
  destruct (List.last (first :: rest) first =? n_events); [discriminate|].
  specialize (IH (i + 1) (List.last (first :: rest) first)
                 (if (List.length (t0 :: ts) =? 1)%nat then t0 + 1
                  else List.last (t0 :: ts) t0 + 1)).
  destruct (write_loop fuel filename ids uniq n_events K start_event_id
              start_file_id (i + 1) _ _) as [[?|?]|] eqn:Hrec;
    try discriminate.
  exfalso. apply IH; [lia|lia|reflexivity].
Qed.

(** No [tmp[-1]] on an empty array: the last id of a file occurs in [ids]. *)
Lemma write_loop_no_raise (filename : string) (ids : list Z)
    (n_events K start_event_id start_file_id : Z) :
  forall (fuel : nat) (i prev start : Z) (e : exn),
    write_loop fuel filename ids (np_unique ids) n_events K start_event_id
               start_file_id i prev start <> Some (Raise e).
Proof.
  induction fuel as [|fuel IH]; intros i prev start e; [discriminate|].
  simpl.
  destruct (evt_ids_of_file (np_unique ids) K i) as [|first rest] eqn:Hthis;
    [discriminate|].
  destruct (argwhere (List.last (first :: rest) first) ids) as [|t0 ts] eqn:Htmp.
  { exfalso. revert Htmp. apply argwhere_from_nonempty.
    apply np_unique_In. apply (py_slice_In _ (i * K) ((i + 1) * K)).
    fold (evt_ids_of_file (np_unique ids) K i). rewrite Hthis.
    apply last_In. discriminate. }
  destruct (List.last (first :: rest) first =? n_events); [discriminate|].
  destruct (write_loop fuel filename ids (np_unique ids) n_events K
              start_event_id start_file_id (i + 1) _ _) as [[?|e']|] eqn:Hrec;
    try discriminate.
  intros Heq. injection Heq as ->. eapply IH. exact Hrec.
Qed.

(** Name and event count of every file the loop writes. *)
Lemma write_loop_shards (filename : string) (ids uniq : list Z)
    (n_events K start_event_id start_file_id : Z) :
  forall (fuel : nat) (i prev start : Z) (shards : list shard),
    write_loop fuel filename ids uniq n_events K start_event_id start_file_id
               i prev start = Some (Ok shards) ->
    forall (j : nat) (sh : shard),
      nth_error shards j = Some sh ->
      shard_filename sh
        = part_name filename n_events K start_file_id (i + Z.of_nat j)
      /\ shard_n_events sh
        = four_case n_events start_event_id (i + Z.of_nat j =? 0)
            (negb (is_empty (evt_ids_of_file uniq K (i + Z.of_nat j + 1))))
            (last_id uniq K (i + Z.of_nat j))
            (match j with
             | O => prev
             | S _ => last_id uniq K (i + Z.of_nat j - 1)
             end)
      /\ shard_total_number_of_events sh = n_events
      /\ evt_ids_of_file uniq K (i + Z.of_nat j) <> [].
Proof.
  induction fuel as [|fuel IH]; intros i prev start shards Hrun j sh Hj;
    [discriminate|].
  simpl in Hrun.
  destruct (evt_ids_of_file uniq K i) as [|first rest] eqn:Hthis.
  { injection Hrun as <-. destruct j; discriminate. }
  assert (Hlast : List.last (first :: rest) first = last_id uniq K i).
  { unfold last_id. rewrite Hthis. apply last_indep. discriminate. }
  rewrite Hlast in Hrun.
  destruct (argwhere (last_id uniq K i) ids) as [|t0 ts]; [discriminate|].
  set (sh0 := mkShard _ _ _ _ _ _ _) in Hrun.
  assert (H0 : shard_filename sh0 = part_name filename n_events K start_file_id i
               /\ shard_n_events sh0
                  = four_case n_events start_event_id (i =? 0)
                      (negb (is_empty (evt_ids_of_file uniq K (i + 1))))
                      (last_id uniq K i) prev
               /\ shard_total_number_of_events sh0 = n_events
               /\ evt_ids_of_file uniq K i <> []).
  { repeat split; try (rewrite Hthis; discriminate).
    unfold sh0, four_case; simpl.
    destruct (i =? 0); destruct (is_empty (evt_ids_of_file uniq K (i + 1)));
      reflexivity. }
  destruct (last_id uniq K i =? n_events).
  { injection Hrun as <-. destruct j as [|[|j]]; try discriminate.
    injection Hj as <-. rewrite Z.add_0_r. exact H0. }
  destruct (write_loop fuel filename ids uniq n_events K start_event_id
              start_file_id (i + 1) _ _) as [[rest'|?]|] eqn:Hrec;
    try discriminate.
  injection Hrun as <-.
  destruct j as [|j].
  - injection Hj as <-. rewrite Z.add_0_r. exact H0.
  - simpl in Hj. specialize (IH _ _ _ _ Hrec j sh Hj).
    replace (i + Z.of_nat (S j)) with (i + 1 + Z.of_nat j) by lia.
    destruct IH as (Hn & Hc & Ht & Hne). repeat split; try assumption.
    rewrite Hc. f_equal.
    destruct j as [|j']; [f_equal; lia|reflexivity].
Qed.

(** Where the loop stops: no ids are left for a next file, or the last id
    written equals [n_events]. *)
Lemma write_loop_stop (filename : string) (ids uniq : list Z)
    (n_events K start_event_id start_file_id : Z) :
  forall (fuel : nat) (i prev start : Z) (shards : list shard),
    write_loop fuel filename ids uniq n_events K start_event_id start_file_id
               i prev start = Some (Ok shards) ->
    evt_ids_of_file uniq K (i + Z.of_nat (List.length shards)) = []
    \/ (exists j : nat,
           List.length shards = S j
           /\ last_id uniq K (i + Z.of_nat j) = n_events).
Proof.
  induction fuel as [|fuel IH]; intros i prev start shards Hrun;
    [discriminate|].
  simpl in Hrun.
  destruct (evt_ids_of_file uniq K i) as [|first rest] eqn:Hthis.
  { injection Hrun as <-. left. simpl. now rewrite Z.add_0_r. }
  assert (Hlast : List.last (first :: rest) first = last_id uniq K i).
  { unfold last_id. rewrite Hthis. apply last_indep. discriminate. }
  rewrite Hlast in Hrun.
  destruct (argwhere (last_id uniq K i) ids) as [|t0 ts]; [discriminate|].
  destruct (Z.eqb_spec (last_id uniq K i) n_events) as [Heq|Hne].
  { injection Hrun as <-. right. exists 0%nat. split; [reflexivity|].
    now rewrite Z.add_0_r. }
  destruct (write_loop fuel filename ids uniq n_events K start_event_id
              start_file_id (i + 1) _ _) as [[rest'|?]|] eqn:Hrec;
    try discriminate.
  injection Hrun as <-.
  destruct (IH _ _ _ _ Hrec) as [Hnil|(j & Hlen & Hj)].
  - left. cbn [List.length].
    replace (i + Z.of_nat (S (List.length rest')))
      with (i + 1 + Z.of_nat (List.length rest')) by lia.
    exact Hnil.
  - right. exists (S j). split; [cbn [List.length]; now rewrite Hlen|].
    replace (i + Z.of_nat (S j)) with (i + 1 + Z.of_nat j) by lia.
    exact Hj.
Qed.

Lemma write_events_returns (filename : string) (ids : list Z)
    (n_events : Z) (start_event_id n_events_per_file : option Z)
    (start_file_id : Z) :
  ids <> [] ->
  exists shards : list shard,
    write_events_to_hdf5 filename ids n_events start_event_id
      n_events_per_file start_file_id = Some (Ok shards).
Proof.
  intros Hne. unfold write_events_to_hdf5.
  destruct ids as [|x t]; [congruence|].
  set (K := match n_events_per_file with Some k => k | None => n_events end).
  set (s := match start_event_id with Some s => s | None => 0 end).
  destruct (write_loop (S (List.length (x :: t))) filename (x :: t)
              (np_unique (x :: t)) n_events K s start_file_id 0 0 0)
    as [[shards|e]|] eqn:Hrun.
  - now exists shards.
  - exfalso. eapply write_loop_no_raise. exact Hrun.
  - exfalso. revert Hrun. apply write_loop_total.
    + lia.
    + pose proof (np_unique_length (x :: t)). lia.
Qed.

Lemma four_case_first (n s : Z) (more : bool) (l p p' : Z) :
  four_case n s true more l p = four_case n s true more l p'.
Proof. unfold four_case. destruct more; reflexivity. Qed.

(** X26: the [n_events] attribute of every file that
    [write_events_to_hdf5] writes is the four-case value, with the cases
    keyed on the ids left for a next file and tried in this order:
    (a) file 0 with no ids left for a next file gets the total
    [attributes['n_events']]; (b) a later file with no ids left for a next
    file gets total - (last id of the previous file + 1) + start_event_id;
    (c) file 0 with ids left gets (its last id) - start_event_id + 1; (d) any
    other file gets (its last id) - (last id of the previous file). A file
    that is followed by another always has ids left for it; the last file
    written has none left, or its last id equals [attributes['n_events']],
    where the loop breaks. The call returns whenever the table has a row. For 100 events, start_event_id 0,
    ids 0..99 with one row each and 40 events per file, three files are
    written, with counts 40, 40, 20 and rows [0,40), [40,80), [80,100). *)
Theorem shard_event_counts :
  (forall (filename : string) (ids : list Z) (n_events : Z)
          (start_event_id n_events_per_file : option Z) (start_file_id : Z),
      ids <> [] ->
      exists shards : list shard,
        write_events_to_hdf5 filename ids n_events start_event_id
          n_events_per_file start_file_id = Some (Ok shards))
  /\ (forall (filename : string) (ids : list Z) (n_events : Z)
             (start_event_id n_events_per_file : option Z) (start_file_id : Z)
             (shards : list shard) (j : nat) (sh : shard),
         write_events_to_hdf5 filename ids n_events start_event_id
           n_events_per_file start_file_id = Some (Ok shards) ->
         nth_error shards j = Some sh ->
         let K := match n_events_per_file with Some k => k | None => n_events end in
         let s := match start_event_id with Some s => s | None => 0 end in
         let uniq := np_unique ids in
         let i := Z.of_nat j in
         shard_n_events sh
         = four_case n_events s (i =? 0)
             (negb (is_empty (evt_ids_of_file uniq K (i + 1))))
             (last_id uniq K i) (last_id uniq K (i - 1))
         /\ shard_total_number_of_events sh = n_events
         /\ ((S j < List.length shards)%nat ->
             evt_ids_of_file uniq K (i + 1) <> [])
         /\ (S j = List.length shards ->
             evt_ids_of_file uniq K (i + 1) = []
             \/ last_id uniq K i = n_events))
  /\ (forall (filename : string) (start_file_id : Z),
         exists shards : list shard,
           write_events_to_hdf5 filename (map Z.of_nat (seq 0 100)) 100
             (Some 0) (Some 40) start_file_id = Some (Ok shards)
           /\ map (fun sh => (shard_n_events sh,
                              (shard_start_index sh, shard_stop_index sh)))
                  shards
              = [(40, (0, 40)); (40, (40, 80)); (20, (80, 100))]).
Proof.
  split; [|split].
  - intros. now apply write_events_returns.
  - intros filename ids n_events start_event_id n_events_per_file start_file_id
           shards j sh Hrun Hj K s uniq i.
    unfold write_events_to_hdf5 in Hrun.
    destruct ids as [|x t]; [discriminate|].
    fold K s uniq in Hrun.
    destruct (write_loop_shards _ _ _ _ _ _ _ _ _ _ _ _ Hrun j sh Hj)
      as (_ & Hc & Ht & _).
    split; [|split; [exact Ht|split]].
    + rewrite Hc. simpl (0 + Z.of_nat j). fold i.
      destruct j as [|j']; [apply four_case_first|reflexivity].
    + intros Hnext.
      destruct (nth_error shards (S j)) as [sh'|] eqn:Hj';
        [|apply nth_error_None in Hj'; lia].
      destruct (write_loop_shards _ _ _ _ _ _ _ _ _ _ _ _ Hrun (S j) sh' Hj')
        as (_ & _ & _ & Hne).
      replace (0 + Z.of_nat (S j)) with (i + 1) in Hne by (unfold i; lia).
      exact Hne.
    + intros Hend.
      destruct (write_loop_stop _ _ _ _ _ _ _ _ _ _ _ _ Hrun)
        as [Hnil|(j0 & Hlen & Hj0)].
      * left. rewrite <- Hend in Hnil.
        replace (0 + Z.of_nat (S j)) with (i + 1) in Hnil by (unfold i; lia).
        exact Hnil.
      * right. assert (j0 = j) by lia. subst j0. exact Hj0.
  - intros filename start_file_id. eexists. split.
    + vm_compute. reflexivity.
    + reflexivity.
Qed.

Lemma shard_event_counts_witness :
  let ids := map Z.of_nat (seq 0 100) in
  exists sh : shard,
    shard_n_events sh
    = four_case 100 0 false
        (negb (is_empty (evt_ids_of_file (np_unique ids) 40 3)))
        (last_id (np_unique ids) 40 2) (last_id (np_unique ids) 40 1)
    /\ shard_n_events sh = 20.
Proof.
  intro ids.
  exists (mkShard "run.hdf5.part0002" 20 100 80 99 80 100).
  split; [|reflexivity].
  refine (proj1 (proj1 (proj2 shard_event_counts) "run.hdf5"%string ids 100
                   (Some 0) (Some 40) 0 _ 2%nat _ _ _)).
  - vm_compute. reflexivity.
  - reflexivity.
Defined.

(** C1: the loop of [write_events_to_hdf5] is left at line 202 while event
    groups remain, and the file written last is then not counted as the
    last one. For ten events numbered from [start_event_id] 2 (event group
    ids 2..11, one row each) and 9 events per file, one file is written:
    it holds the ids 2..10 in the rows [0, 9) and its [n_events] attribute
    is 9 (the case of a first file that others follow), not the total 10
    of a file that is the first and the last; the row of id 11 is in no
    file. *)
Theorem only_file_written_misses_the_total :
  let ids := [2; 3; 4; 5; 6; 7; 8; 9; 10; 11] in
  exists sh : shard,
    write_events_to_hdf5 "run.hdf5" ids 10 (Some 2) (Some 9) 0
    = Some (Ok [sh])
    /\ sh = mkShard "run.hdf5.part0000" 9 10 2 10 0 9
    /\ four_case 10 2 true false (shard_evt_id_last sh) 0 = 10
    /\ shard_n_events sh = 9
    /\ shard_data ids sh = [2; 3; 4; 5; 6; 7; 8; 9; 10]
    /\ evt_ids_of_file (np_unique ids) 9 1 = [11].
Proof.
  intro ids. exists (mkShard "run.hdf5.part0000" 9 10 2 10 0 9).
  split; [vm_compute; reflexivity|].
  repeat split.
Qed.

(** C8, as stated, fails: a call that writes one file only still names it
    with the part suffix when [n_events_per_file] is below
    [attributes['n_events']]. *)
Lemma single_shard_is_suffixed :
  write_events_to_hdf5 "out.hdf5" [0; 1; 2] 100 (Some 0) (Some 40) 0
  = Some (Ok [mkShard "out.hdf5.part0000" 100 100 0 2 0 3]).
Proof. vm_compute. reflexivity. Qed.

(** C8, amended: file [i] of a call is named [filename] unchanged exactly
    when [i = 0] and [n_events_per_file] (the total when unset) is not
    below [attributes['n_events']]; every other file is named [filename],
    then [.part], then [start_file_id + i] zero-padded to four characters. *)
Theorem shard_file_names :
  forall (filename : string) (ids : list Z) (n_events : Z)
         (start_event_id n_events_per_file : option Z) (start_file_id : Z)
         (shards : list shard) (j : nat) (sh : shard),
    write_events_to_hdf5 filename ids n_events start_event_id
      n_events_per_file start_file_id = Some (Ok shards) ->
    nth_error shards j = Some sh ->
    let K := match n_events_per_file with Some k => k | None => n_events end in
    shard_filename sh
    = if (0 <? Z.of_nat j) || (K <? n_events)
      then (filename ++ ".part" ++ format_04 (Z.of_nat j + start_file_id))%string
      else filename.
Proof.
  intros filename ids n_events start_event_id n_events_per_file start_file_id
         shards j sh Hrun Hj K.
  unfold write_events_to_hdf5 in Hrun.
  destruct ids as [|x t]; [discriminate|].
  fold K in Hrun.
  destruct (write_loop_shards _ _ _ _ _ _ _ _ _ _ _ _ Hrun j sh Hj)
    as (Hn & _).
  exact Hn.
Qed.

Lemma shard_file_names_witness :
  shard_filename (mkShard "out.hdf5.part0001" 40 100 40 79 40 80)
  = "out.hdf5.part0001"%string.
Proof.
  exact (shard_file_names "out.hdf5" (map Z.of_nat (seq 0 100)) 100 (Some 0)
           (Some 40) 0
           [mkShard "out.hdf5.part0000" 40 100 0 39 0 40;
            mkShard "out.hdf5.part0001" 40 100 40 79 40 80;
            mkShard "out.hdf5.part0002" 20 100 80 99 80 100]
           1%nat _ eq_refl eq_refl).
Defined.

(** C10, as stated, fails: with Python floats and inelasticity 0 the call
    for a neutral-current event does not return [Edep / inelasticity]; the
    division raises [ZeroDivisionError]. *)
Lemma zero_inelasticity_raises :
  primary_energy_from_deposited python_float 1 "nc" 14 0
  = Raise ZeroDivisionError
  /\ ~ (exists v : option float64,
          primary_energy_from_deposited python_float 1 "nc" 14 0 = Ok v).
Proof.
  split; [reflexivity|]. intros [v Hv]. discriminate Hv.
Qed.

(** C10, amended: for ['nc'] and for ['cc'] with |flavor| 14 or 16,
    [primary_energy_from_deposited] returns [Edep / inelasticity] when the
    inelasticity is not zero; with a zero inelasticity the division raises
    [ZeroDivisionError] on Python floats and returns inf, -inf or nan on
    NumPy scalars. It returns [Edep] for ['cc'] with |flavor| 12, whatever
    the inelasticity, and returns [None] (it falls off its end, raising
    nothing) for every other interaction type or flavor. *)
Theorem primary_energy_from_deposited_cases :
  forall (k : float_kind) (Edep : Q) (ccnc : string) (flavor : Z)
         (inelasticity : Q),
    let divides :=
      ccnc = "nc"%string
      \/ (ccnc = "cc"%string /\ (Z.abs flavor = 14 \/ Z.abs flavor = 16)) in
    (divides -> ~ (inelasticity == 0)%Q ->
     primary_energy_from_deposited k Edep ccnc flavor inelasticity
     = Ok (Some (Finite (Edep / inelasticity)%Q)))
    /\ (divides -> (inelasticity == 0)%Q ->
        primary_energy_from_deposited k Edep ccnc flavor inelasticity
        = match k with
          | python_float => Raise ZeroDivisionError
          | numpy_float64 => Ok (Some NonFinite)
          end)
    /\ (ccnc = "cc"%string -> Z.abs flavor = 12 ->
        primary_energy_from_deposited k Edep ccnc flavor inelasticity
        = Ok (Some (Finite Edep)))
    /\ (ccnc <> "nc"%string ->
        ccnc <> "cc"%string
        \/ (Z.abs flavor <> 12 /\ Z.abs flavor <> 14 /\ Z.abs flavor <> 16) ->
        primary_energy_from_deposited k Edep ccnc flavor inelasticity
        = Ok None).
Proof.
  intros k Edep ccnc flavor y divides.
  assert (Hdiv : divides ->
                 primary_energy_from_deposited k Edep ccnc flavor y
                 = res_map Some (float_div k Edep y)).
  { unfold primary_energy_from_deposited.
    intros [->|(-> & [Hf|Hf])]; [reflexivity| |]; simpl; rewrite Hf;
      reflexivity. }
  split; [|split; [|split]].
  - intros Hd Hy. rewrite (Hdiv Hd). unfold float_div.
    destruct (Qeq_bool y 0) eqn:Hz; [|reflexivity].
    apply Qeq_bool_iff in Hz. contradiction.
  - intros Hd Hy. rewrite (Hdiv Hd). unfold float_div.
    rewrite (proj2 (Qeq_bool_iff y 0) Hy). destruct k; reflexivity.
  - intros -> Hf. unfold primary_energy_from_deposited. simpl. rewrite Hf.
    reflexivity.
  - intros Hnc Hother. unfold primary_energy_from_deposited.
    destruct (String.eqb_spec ccnc "nc"); [contradiction|].
    destruct (String.eqb_spec ccnc "cc") as [Hcc|Hcc]; [|reflexivity].
    destruct Hother as [Hne|(H12 & H14 & H16)]; [contradiction|].
    destruct (Z.eqb_spec (Z.abs flavor) 12); [contradiction|].
    destruct (Z.eqb_spec (Z.abs flavor) 14); [contradiction|].
    destruct (Z.eqb_spec (Z.abs flavor) 16); [contradiction|].
    reflexivity.
Qed.

Lemma primary_energy_from_deposited_cases_witness :
  primary_energy_from_deposited numpy_float64 3 "nc" 14 (1 # 2)
  = Ok (Some (Finite (3 / (1 # 2))%Q))
  /\ primary_energy_from_deposited python_float 3 "cc" (-16) (1 # 2)
     = Ok (Some (Finite (3 / (1 # 2))%Q))
  /\ primary_energy_from_deposited python_float 3 "cc" (-16) 0
     = Raise ZeroDivisionError
  /\ primary_energy_from_deposited numpy_float64 3 "cc" (-16) 0
     = Ok (Some NonFinite)
  /\ primary_energy_from_deposited python_float 3 "cc" (-12) 0
     = Ok (Some (Finite 3))
  /\ primary_energy_from_deposited python_float 3 "cc" 13 (1 # 2) = Ok None.
Proof.
  split; [|split; [|split; [|split; [|split]]]].
  - apply (proj1 (primary_energy_from_deposited_cases numpy_float64 3 "nc" 14
                    (1 # 2))).
    + left. reflexivity.
    + intro Hq. discriminate Hq.
  - apply (proj1 (primary_energy_from_deposited_cases python_float 3 "cc" (-16)
                    (1 # 2))).
    + right. split; [reflexivity|]. right. reflexivity.
    + intro Hq. discriminate Hq.
  - apply (proj1 (proj2 (primary_energy_from_deposited_cases python_float 3
                           "cc" (-16) 0))).
    + right. split; [reflexivity|]. right. reflexivity.
    + reflexivity.
  - apply (proj1 (proj2 (primary_energy_from_deposited_cases numpy_float64 3
                           "cc" (-16) 0))).
    + right. split; [reflexivity|]. right. reflexivity.
    + reflexivity.
  - apply (proj1 (proj2 (proj2
             (primary_energy_from_deposited_cases python_float 3 "cc" (-12) 0)))).
    + reflexivity.
    + reflexivity.
  - apply (proj2 (proj2 (proj2
             (primary_energy_from_deposited_cases python_float 3 "cc" 13
                (1 # 2))))).
    + discriminate.
    + right. split; [|split]; discriminate.
Defined.

Lemma bounded_index (P : nat -> Prop) :
  P 0%nat -> P 1%nat -> P 2%nat -> forall i : nat, (i < 3)%nat -> P i.
Proof.
  intros H0 H1 H2 i Hi.
  destruct i as [|[|[|i]]]; [assumption|assumption|assumption|lia].
Qed.

(** C6: [intersection_box_ray] is not the slab test. The ray from the
    origin along (1, 2, 1) meets the box [2,3] x [4,6] x [2,3] at parameter
    2, yet the function returns [False]; the ray from (10, 5, 5) along
    (1, -1, -1) has the box [0,1] x [0,16] x [0,16] behind it, yet the
    function returns [True]. Both directions have nonzero components. *)
Theorem intersection_box_ray_is_not_slab_test :
  (nonzero_components (snd hit_ray)
   /\ ray_hits_box hit_bounds hit_ray
   /\ intersection_box_ray hit_bounds hit_ray = false)
  /\ (nonzero_components (snd behind_ray)
      /\ ~ ray_hits_box behind_bounds behind_ray
      /\ intersection_box_ray behind_bounds behind_ray = true).
Proof.
  split; split.
  - unfold nonzero_components. apply bounded_index; simpl; intro Hq; discriminate Hq.
  - split; [|reflexivity].
    exists 2%Q. split; [discriminate|].
    unfold in_box. apply bounded_index; simpl; split; discriminate.
  - unfold nonzero_components. apply bounded_index; simpl; intro Hq; discriminate Hq.
  - split; [|reflexivity].
    intros (t & Ht & Hin).
    destruct (Hin 0%nat ltac:(lia)) as [_ Hx]. simpl in Hx.
    lra.
Qed.

Section VertexFacts.
Context `{Extern}.

(** With proposal on and no [full_rmax] override the cylinder branch stores
    the fiducial [rmax] unchanged, and it only returns when the attributes
    already hold a [zmax] entry. *)
Lemma cylinder_rmax_stays_fiducial (volume attributes : gmap string pynum)
    (w w' : world) (attrs' : gmap string pynum)
    (pos : option (list Q * list Q * list Q)) (rmax : pynum) :
  volume !! "fiducial_rmax" = Some rmax ->
  volume !! "full_rmax" = None ->
  generate_vertex_positions volume true attributes w = (Ok (attrs', pos), w') ->
  attrs' !! "rmax" = Some rmax /\ attributes !! "zmax" <> None.
Proof.
  intros Hr Hfull Hrun.
  unfold generate_vertex_positions, bind, lift, ret, contains in Hrun.
  destruct (getitem attributes "n_events") as [n|]; [|discriminate].
  rewrite Hr in Hrun.
  unfold generate_vertex_positions_cylinder, bind, lift, ret, raise in Hrun.
  unfold getitem at 1 in Hrun. rewrite Hr in Hrun.
  destruct (getitem volume "fiducial_zmin") as [zmin|]; [|discriminate].
  destruct (getitem volume "fiducial_zmax") as [zmax|]; [|discriminate].
  rewrite Hfull in Hrun.
  set (a0 := match volume !! "fiducial_rmin" with
             | Some v => <["fiducial_rmin" := v]> attributes
             | None => <["fiducial_rmin" := PInt 0]> attributes
             end) in Hrun.
  set (a3 := <["fiducial_zmax" := zmax]> _) in Hrun.
  assert (Hz : a3 !! "zmax" = attributes !! "zmax").
  { unfold a3, a0. destruct (volume !! "fiducial_rmin");
      rewrite !lookup_insert_ne by discriminate; reflexivity. }
  assert (Hg : forall k v, a3 !! k = Some v -> getitem a3 k = Ok v).
  { intros k v Hk. unfold getitem. now rewrite Hk. }
  assert (Hrmin : exists v, a3 !! "fiducial_rmin" = Some v).
  { unfold a3, a0. destruct (volume !! "fiducial_rmin"); eexists;
      rewrite !lookup_insert_ne by discriminate; apply lookup_insert_eq. }
  destruct Hrmin as [rmin Hrmin].
  rewrite (Hg _ _ Hrmin) in Hrun.
  rewrite (Hg "fiducial_rmax" rmax) in Hrun
    by (unfold a3; rewrite !lookup_insert_ne by discriminate; apply lookup_insert_eq).
  rewrite (Hg "fiducial_zmin" zmin) in Hrun
    by (unfold a3; rewrite !lookup_insert_ne by discriminate; apply lookup_insert_eq).
  rewrite (Hg "fiducial_zmax" zmax) in Hrun
    by (unfold a3; apply lookup_insert_eq).
  destruct (getitem a3 "Emax") as [Emax|]; [|discriminate].
  destruct (py_div (float_of rmax) (float_of rmax)) as [ratio|]; [|discriminate].
  destruct (py_div _ (float_of zmin)) as [factor|]; [|discriminate].
  unfold getitem in Hrun. rewrite Hz in Hrun.
  destruct (attributes !! "zmax") as [z0|] eqn:Hzmax; [|discriminate].
  split; [|discriminate].
  destruct (np_random_uniform _ _ _ w) as [[u|] w1]; [|discriminate].
  destruct (np_random_uniform _ _ _ w1) as [[phi|] w2]; [|discriminate].
  destruct (np_random_uniform _ _ _ w2) as [[zz|] w3]; [|discriminate].
  injection Hrun as <- _ _.
  rewrite !lookup_insert_ne by discriminate. apply lookup_insert_eq.
Qed.

End VertexFacts.

(** C2: with proposal enabled and no [full_rmax] override the cylinder
    branch does not inflate [rmax]. Called with the attributes the entry
    point builds it raises [KeyError('zmax')]; called with attributes that
    already hold [zmax] it stores [attrs['rmax']] equal to the fiducial
    [rmax] (1 here) and draws [10 * int((1/1)^2 * zmin/fiducial_zmin)] = 110
    vertices for a tau range of 10, where the inflated radius 11 would give
    [10 * int((11/1)^2 * 11)] = 13310. *)
Theorem cylinder_rmax_is_not_inflated :
  (forall (E : Extern) (w : world),
      generate_vertex_positions sample_cylinder true fresh_attributes w
      = (Raise (KeyError "zmax"), w))
  /\ @get_tau_95_length sample_extern 2 = 10%Q
  /\ sample_cylinder !! "fiducial_rmax" = Some (PInt 1)
  /\ match @generate_vertex_positions sample_extern sample_cylinder true
              attributes_with_zmax [] with
     | (Ok (attrs', Some (xx, _, _)), _) =>
         attrs' !! "rmax" = Some (PInt 1) /\ List.length xx = 110%nat
     | _ => False
     end.
Proof.
  split; [|split; [|split]].
  - intros E w. vm_compute. reflexivity.
  - vm_compute. reflexivity.
  - vm_compute. reflexivity.
  - vm_compute. split; reflexivity.
Qed.


Section SpectrumFacts.
Context `{Extern}.

Lemma get_energies_no_branch (n_events : Z) (Emin Emax : Q)
    (spectrum_type : string) (w : world) :
  has_spectrum_branch spectrum_type = false ->
  get_energies n_events Emin Emax spectrum_type w
  = (Raise (not_implemented spectrum_type), w).
Proof.
  unfold has_spectrum_branch, get_energies. intros Hno.
  repeat (apply orb_false_iff in Hno; destruct Hno as [Hno ?]).
  repeat match goal with Hb : _ = false |- _ => rewrite Hb; clear Hb end.
  reflexivity.
Qed.

Lemma uniform_int_ok (low high : Q) (n : Z) (w : world) :
  0 <= n ->
  np_random_uniform low high (PInt n) w
  = (Ok (map (fun u => low + (high - low) * u)%Q (variates w n)),
     w ++ [Uniform low high n]).
Proof.
  intros Hn. unfold np_random_uniform.
  destruct (Z.ltb_spec n 0); [lia|reflexivity].
Qed.

Lemma uniform_int_neg (low high : Q) (n : Z) (w : world) :
  n < 0 -> np_random_uniform low high (PInt n) w = (Raise ValueError, w).
Proof.
  intros Hn. unfold np_random_uniform.
  destruct (Z.ltb_spec n 0); [reflexivity|lia].
Qed.

(** With a spectrum name that has no branch the table is never built. *)
Lemma baseline_table_no_branch (n_events : Z) (Emin Emax : Q)
    (volume : gmap string pynum) (thetamin thetamax phimin phimax : Q)
    (start_event_id : Z) (flavor : list Z) (spectrum : string)
    (deposited proposal : bool) (w : world) :
  has_spectrum_branch spectrum = false ->
  exists (e : exn) (w' : world),
    baseline_table n_events Emin Emax volume thetamin thetamax phimin phimax
      start_event_id flavor spectrum deposited proposal w = (Raise e, w').
Proof.
  intros Hno. unfold baseline_table, bind.
  destruct (np_random_uniform phimin phimax (PInt n_events) w) as [[az|e] w0];
    [|eauto].
  destruct (np_random_uniform _ _ (PInt n_events) w0) as [[u|e] w1]; [|eauto].
  destruct (generate_vertex_positions volume proposal _ w1)
    as [[[attrs' [[[vx vy] vz]|]]|e] w2]; [| |eauto].
  - cbn [fst snd].
    destruct (np_random_randint _ n_events w2) as [[idx|e] w3]; [|eauto].
    rewrite get_energies_no_branch by assumption. eauto.
  - cbn [fst snd]. unfold raise. eauto.
Qed.

(** When the draws that come first succeed, the error of the missing
    branch is what the table construction raises, after those draws. *)
Lemma baseline_table_no_branch_after_draws (n_events : Z) (Emin Emax : Q)
    (volume : gmap string pynum) (thetamin thetamax phimin phimax : Q)
    (start_event_id : Z) (flavor : list Z) (spectrum : string)
    (deposited proposal : bool) (w w3 : world)
    (attrs' : gmap string pynum) (pos : list Q * list Q * list Q) :
  has_spectrum_branch spectrum = false ->
  0 <= n_events ->
  flavor <> [] ->
  generate_vertex_positions volume proposal
    (initial_attributes n_events start_event_id Emin Emax
       thetamin thetamax phimin phimax)
    (w ++ [Uniform phimin phimax n_events;
           Uniform (np_cos thetamax) (np_cos thetamin) n_events])
  = (Ok (attrs', Some pos), w3) ->
  baseline_table n_events Emin Emax volume thetamin thetamax phimin phimax
    start_event_id flavor spectrum deposited proposal w
  = (Raise (not_implemented spectrum),
     w3 ++ [Randint (Z.of_nat (List.length flavor)) n_events]).
Proof.
  intros Hno Hn Hfl Hvp. unfold baseline_table, bind.
  rewrite uniform_int_ok by assumption.
  rewrite uniform_int_ok by assumption.
  rewrite <- app_assoc. cbn [app]. rewrite Hvp. cbn [fst snd].
  destruct pos as [[vx vy] vz].
  unfold np_random_randint.
  destruct (Z.leb_spec (Z.of_nat (List.length flavor)) 0) as [Hlen|Hlen].
  { destruct flavor; [congruence|simpl in Hlen; lia]. }
  destruct (Z.ltb_spec n_events 0); [lia|]. cbn [orb].
  now rewrite get_energies_no_branch.
Qed.

End SpectrumFacts.

(** C7, as stated, fails: with the unknown spectrum name [foo] the entry
    point raises the error only after it has drawn the azimuths, the
    zeniths, the three vertex coordinates and the flavors. *)
Lemma unknown_spectrum_raised_after_draws :
  @generate_eventlist_cylinder sample_extern "out.hdf5" 3 1 2 sample_box
    0 1 0 1 1 [12; -12; 14] None "foo" false false 0 []
  = (Some (Raise (NotImplementedError "spectrum foo not implemented")),
     [Uniform 0 1 3; Uniform 1 1 3; Uniform 0 1 3; Uniform 0 1 3;
      Uniform (-1) 0 3; Randint 3 3]).
Proof. vm_compute. reflexivity. Qed.

(** C7, amended: for every spectrum name that is not ['log_uniform'], does
    not start with ['E-'] and is none of ['GZK-1'], ['IceCube-nu-2017'],
    ['GZK-1+IceCube-nu-2017'], [get_energies] raises the not-implemented
    error without drawing anything, and [generate_eventlist_cylinder] ends
    with an exception and writes no file; when the draws of azimuths and
    zeniths, the vertex generation and the flavor draw that precede
    [get_energies] succeed, that exception is the not-implemented error and
    it is raised after those draws, before any energy is drawn. *)
Theorem unknown_spectrum_error :
  forall (E : Extern) (filename : string) (n_events : Z) (Emin Emax : Q)
         (volume : gmap string pynum) (thetamin thetamax phimin phimax : Q)
         (start_event_id : Z) (flavor : list Z) (n_events_per_file : option Z)
         (spectrum : string) (deposited proposal : bool) (start_file_id : Z)
         (w : world),
    has_spectrum_branch spectrum = false ->
    get_energies n_events Emin Emax spectrum w
    = (Raise (not_implemented spectrum), w)
    /\ (exists (e : exn) (w' : world),
           generate_eventlist_cylinder filename n_events Emin Emax volume
             thetamin thetamax phimin phimax start_event_id flavor
             n_events_per_file spectrum deposited proposal start_file_id w
           = (Some (Raise e), w'))
    /\ (forall (w3 : world) (attrs' : gmap string pynum)
               (pos : list Q * list Q * list Q),
           0 <= n_events ->
           flavor <> [] ->
           generate_vertex_positions volume proposal
             (initial_attributes n_events start_event_id Emin Emax
                thetamin thetamax phimin phimax)
             (w ++ [Uniform phimin phimax n_events;
                    Uniform (np_cos thetamax) (np_cos thetamin) n_events])
           = (Ok (attrs', Some pos), w3) ->
           generate_eventlist_cylinder filename n_events Emin Emax volume
             thetamin thetamax phimin phimax start_event_id flavor
             n_events_per_file spectrum deposited proposal start_file_id w
           = (Some (Raise (not_implemented spectrum)),
              w3 ++ [Randint (Z.of_nat (List.length flavor)) n_events])).
Proof.
  intros E filename n_events Emin Emax volume thetamin thetamax phimin phimax
         start_event_id flavor n_events_per_file spectrum deposited proposal
         start_file_id w Hno.
  split; [now apply get_energies_no_branch|]. split.
  - destruct (baseline_table_no_branch n_events Emin Emax volume thetamin
                thetamax phimin phimax start_event_id flavor spectrum
                deposited proposal w Hno) as (e & w' & Hb).
    exists e, w'. unfold generate_eventlist_cylinder, final_table, bind.
    now rewrite Hb.
  - intros w3 attrs' pos Hn Hfl Hvp.
    unfold generate_eventlist_cylinder, final_table, bind.
    now rewrite (baseline_table_no_branch_after_draws _ _ _ _ _ _ _ _ _ _ _ _ _
                   _ _ _ _ Hno Hn Hfl Hvp).
Qed.

Lemma unknown_spectrum_error_witness :
  @get_energies sample_extern 3 1 2 "foo" []
  = (Raise (not_implemented "foo"), []).
Proof.
  exact (proj1 (unknown_spectrum_error sample_extern "out.hdf5" 3 1 2
                  sample_box 0 1 0 1 1 [12; -12; 14] None "foo" false false 0
                  [] eq_refl)).
Defined.

(** ** Columns and rows *)

Lemma insert_copy_middle {A : Type} (P : list A) (r : A) (post : list A) :
  insert_copy (List.length P) A (P ++ r :: post) = P ++ r :: r :: post.
Proof.
  unfold insert_copy, py_insert.
  rewrite nth_error_app2 by lia. rewrite Nat.sub_diag. cbn [nth_error].
  replace (S (List.length P)) with (List.length (P ++ [r]))
    by (rewrite length_app; simpl; lia).
  replace (P ++ r :: post) with ((P ++ [r]) ++ post)
    by (rewrite <- app_assoc; reflexivity).
  rewrite firstn_app, skipn_app, Nat.sub_diag, firstn_all, skipn_all.
  cbn [firstn skipn]. rewrite app_nil_r. cbn [app].
  rewrite <- app_assoc. reflexivity.
Qed.

Lemma insert_copy_middle_map {A B : Type} (f : A -> B) (P : list A) (r : A)
    (post : list A) (extra : list B) :
  insert_copy (List.length P) B (map f (P ++ r :: post) ++ extra)
  = map f (P ++ r :: r :: post) ++ extra.
Proof.
  rewrite !map_app. cbn [map]. rewrite <- app_assoc. cbn [app].
  rewrite <- (length_map f P). rewrite insert_copy_middle.
  rewrite <- app_assoc. reflexivity.
Qed.

Lemma insert_copy_middle_map0 {A B : Type} (f : A -> B) (P : list A) (r : A)
    (post : list A) :
  insert_copy (List.length P) B (map f (P ++ r :: post))
  = map f (P ++ r :: r :: post).
Proof.
  pose proof (insert_copy_middle_map f P r post []) as Hm.
  now rewrite !app_nil_r in Hm.
Qed.

Lemma set_twin_map {A B : Type} (f : A -> B) (P : list A) (r x : A)
    (post : list A) (v : B) :
  f x = v ->
  <[S (List.length P) := v]> (map f (P ++ r :: r :: post))
  = map f (P ++ r :: x :: post).
Proof.
  intros <-. induction P as [|p P IH]; [reflexivity|].
  cbn [List.length app map]. cbn [app map] in IH.
  change (f p :: <[S (List.length P) := f x]> (map f (P ++ r :: r :: post))
          = f p :: map f (P ++ r :: x :: post)).
  now rewrite IH.
Qed.

Lemma nth_error_twin_map {A B : Type} (f : A -> B) (P : list A) (r : A)
    (post : list A) :
  nth_error (map f (P ++ r :: r :: post)) (S (List.length P)) = Some (f r).
Proof.
  induction P as [|p P IH]; [reflexivity|exact IH].
Qed.

Lemma min_len_cols (tx ty tz : list Q) (rows : list row) :
  min_len (with_extra tx ty tz (cols_of rows)) = List.length rows.
Proof.
  unfold min_len, with_extra, cols_of. cbn [fold_right azimuths zeniths xx yy zz
    event_group_ids n_interaction vertex_times flavors energies
    interaction_type inelasticity shower_energies shower_type].
  rewrite !length_app, !length_map. lia.
Qed.

(** One pass of the insertion loop, read on rows. *)
Lemma em_step_rows (tx ty tz : list Q) (P : list row) (r : row)
    (post : list row) (i n_inserted : nat) :
  List.length P = (i + n_inserted)%nat ->
  em_step (with_extra tx ty tz (cols_of (P ++ r :: post))) i n_inserted
  = Ok (with_extra tx ty tz (cols_of (P ++ r :: em_twin r :: post))).
Proof.
  intros Hlen. unfold em_step. rewrite min_len_cols. rewrite <- Hlen.
  destruct (Nat.ltb_spec (List.length P) (List.length (P ++ r :: post)))
    as [_|Hge]; [|rewrite length_app in Hge; simpl in Hge; lia].
  unfold for_each_key, with_extra, cols_of.
  cbn [azimuths zeniths xx yy zz event_group_ids n_interaction vertex_times
       flavors energies interaction_type inelasticity shower_energies
       shower_type].
  rewrite !insert_copy_middle_map, !insert_copy_middle_map0.
  rewrite !nth_error_twin_map.
  rewrite (set_twin_map r_shower_energy P r (em_twin r) post
             (fl_mul (fl_sub (Fl 1) (r_inelasticity r)) (Fl (r_energy r)))
             eq_refl).
  rewrite (set_twin_map r_shower_type P r (em_twin r) post "em"%string eq_refl).
  f_equal. f_equal; rewrite !map_app; reflexivity.
Qed.

Lemma em_loop_rows (tx ty tz : list Q) :
  forall (post P : list row) (k n : nat),
    List.length P = (k + n)%nat ->
    em_loop (where_true k (map is_em_row post)) n
            (with_extra tx ty tz (cols_of (P ++ post)))
    = Ok (with_extra tx ty tz (cols_of (P ++ flat_map split_row post))).
Proof.
  induction post as [|r post IH]; intros P k n Hlen; [reflexivity|].
  cbn [map where_true flat_map]. unfold split_row at 1. fold (is_em_row r).
  destruct (is_em_row r).
  - cbn [em_loop rbind]. rewrite em_step_rows by assumption. cbn [rbind].
    specialize (IH (P ++ [r; em_twin r]) (S k) (S n)).
    rewrite <- !app_assoc in IH. cbn [app] in IH. cbn [app].
    apply IH. rewrite length_app. simpl. lia.
  - specialize (IH (P ++ [r]) (S k) n).
    rewrite <- !app_assoc in IH. cbn [app] in IH. cbn [app].
    apply IH. rewrite length_app. simpl. lia.
Qed.

Lemma combine_map_map {A B C : Type} (f : A -> B) (g : A -> C) (l : list A) :
  combine (map f l) (map g l) = map (fun x => (f x, g x)) l.
Proof. induction l as [|x l IH]; [reflexivity|]. simpl. now rewrite IH. Qed.

(** The insertion loop turns every row into [split_row] of it, in place. *)
Lemma add_em_showers_rows (tx ty tz : list Q) (rows : list row) (n_events : Z) :
  List.length rows = Z.to_nat n_events ->
  add_em_showers n_events (with_extra tx ty tz (cols_of rows))
  = Ok (with_extra tx ty tz (cols_of (flat_map split_row rows))).
Proof.
  intros Hlen. unfold add_em_showers, em_shower_mask, arange_masked.
  cbn [with_extra cols_of interaction_type flavors].
  rewrite !length_map, Nat.eqb_refl. cbn [rbind].
  rewrite combine_map_map, map_map, length_map, Hlen, Nat.eqb_refl.
  cbn [rbind fst snd].
  exact (em_loop_rows tx ty tz rows [] 0 0 eq_refl).
Qed.

(** ** What the vertex generation returns *)

Section VertexLengths.
Context `{Extern}.

Lemma variates_length (w : world) (n : Z) :
  List.length (variates w n) = Z.to_nat n.
Proof. unfold variates. now rewrite length_map, length_seq. Qed.

Lemma uniform_Ok (low high : Q) (size : pynum) (w w' : world) (l : list Q) :
  np_random_uniform low high size w = (Ok l, w') ->
  exists n : Z,
    size = PInt n /\ 0 <= n /\ List.length l = Z.to_nat n
    /\ w' = w ++ [Uniform low high n].
Proof.
  unfold np_random_uniform. destruct size as [n|q]; [|discriminate].
  destruct (Z.ltb_spec n 0); [discriminate|].
  intros Heq. injection Heq as <- <-. exists n.
  rewrite length_map, variates_length. auto.
Qed.

Ltac step H :=
  cbv beta iota zeta delta [bind lift ret raise fst snd negb] in H;
  match type of H with
  | context [match getitem ?d ?k with _ => _ end] =>
      destruct (getitem d k); [|discriminate H]
  | context [match py_div ?a ?b with _ => _ end] =>
      destruct (py_div a b); [|discriminate H]
  | context [match ?d !! ?k with _ => _ end] => destruct (d !! k)
  | context [if negb (contains ?d ?k) then _ else _] => destruct (contains d k)
  | context [if contains ?d ?k then _ else _] => destruct (contains d k)
  | context [match np_random_uniform ?a ?b ?c ?w with _ => _ end] =>
      let Hu := fresh "Hu" in
      destruct (np_random_uniform a b c w) as [[?|?] ?] eqn:Hu;
      [apply uniform_Ok in Hu|discriminate H]
  end.

Lemma box_lengths (volume attributes attrs' : gmap string pynum)
    (proposal : bool) (n_events : pynum) (w w' : world) (vx vy vz : list Q) :
  generate_vertex_positions_box volume proposal attributes n_events w
  = (Ok (attrs', (vx, vy, vz)), w') ->
  List.length vy = List.length vx /\ List.length vz = List.length vx
  /\ (proposal = false ->
      forall n : Z, n_events = PInt n -> List.length vx = Z.to_nat n).
Proof.
  intros Hrun. unfold generate_vertex_positions_box in Hrun.
  destruct proposal.
  - repeat step Hrun;
      cbv beta iota zeta delta [bind lift ret raise fst snd negb] in Hrun;
      try discriminate Hrun;
      injection Hrun as <- <- <- <- <-;
      repeat match goal with
             | Hu : exists _, _ |- _ => destruct Hu as (? & ? & ? & ? & ?)
             end;
      (split; [congruence|split; [congruence|discriminate]]).
  - repeat step Hrun;
      cbv beta iota zeta delta [bind lift ret raise fst snd negb] in Hrun;
      try discriminate Hrun;
      injection Hrun as <- <- <- <- <-;
      repeat match goal with
             | Hu : exists _, _ |- _ => destruct Hu as (? & ? & ? & ? & ?)
             end.
    split; [congruence|split; [congruence|]].
    intros _ n ->. congruence.
Qed.

Lemma cylinder_lengths (volume attributes attrs' : gmap string pynum)
    (proposal : bool) (n_events : pynum) (w w' : world) (vx vy vz : list Q) :
  generate_vertex_positions_cylinder volume proposal attributes n_events w
  = (Ok (attrs', (vx, vy, vz)), w') ->
  List.length vy = List.length vx /\ List.length vz = List.length vx
  /\ proposal = true.
Proof.
  intros Hrun. unfold generate_vertex_positions_cylinder in Hrun.
  destruct proposal.
  - repeat step Hrun;
      cbv beta iota zeta delta [bind lift ret raise fst snd negb] in Hrun;
      try discriminate Hrun;
      injection Hrun as <- <- <- <- <-;
      repeat match goal with
             | Hu : exists _, _ |- _ => destruct Hu as (? & ? & ? & ? & ?)
             end;
      repeat match goal with
             | H1 : ?a = PInt ?x, H2 : ?a = PInt ?y |- _ =>
                 assert (x = y) by congruence; subst y; clear H2
             end;
      rewrite !length_map, !length_combine, !length_map;
      (split; [reflexivity|split; [lia|reflexivity]]).
  - repeat step Hrun;
      cbv beta iota zeta delta [bind lift ret raise fst snd negb] in Hrun;
      discriminate Hrun.
Qed.

Lemma vertex_lengths (volume attributes attrs' : gmap string pynum)
    (proposal : bool) (w w' : world) (vx vy vz : list Q) :
  generate_vertex_positions volume proposal attributes w
  = (Ok (attrs', Some (vx, vy, vz)), w') ->
  List.length vy = List.length vx /\ List.length vz = List.length vx
  /\ (proposal = false ->
      forall n : Z, attributes !! "n_events" = Some (PInt n) ->
                    List.length vx = Z.to_nat n).
Proof.
  intros Hrun. unfold generate_vertex_positions in Hrun.
  cbv beta iota zeta delta [bind lift ret raise] in Hrun.
  unfold getitem at 1 in Hrun.
  destruct (attributes !! "n_events") as [n_events|]; [|discriminate].
  destruct (contains volume "fiducial_rmax").
  - destruct (generate_vertex_positions_cylinder _ _ _ _ _)
      as [[[a p]|e] w1] eqn:Hc; [|discriminate].
    cbv beta iota zeta delta [fst snd] in Hrun.
    injection Hrun as <- -> <-.
    apply cylinder_lengths in Hc. destruct Hc as (Hy & Hz & Hp).
    split; [exact Hy|split; [exact Hz|]]. intros Hf. congruence.
  - destruct (contains volume "fiducial_xmax"); [|discriminate].
    destruct (generate_vertex_positions_box _ _ _ _ _)
      as [[[a p]|e] w1] eqn:Hb; [|discriminate].
    cbv beta iota zeta delta [fst snd] in Hrun.
    injection Hrun as <- -> <-.
    apply box_lengths in Hb. destruct Hb as (Hy & Hz & Hn).
    split; [exact Hy|split; [exact Hz|]].
    intros Hf n Heq. injection Heq as ->. now apply Hn.
Qed.

End VertexLengths.

(** Columns of one length are the columns of a list of rows; the vertex
    columns may run on. *)
Lemma columns_are_rows :
  forall (n : nat) (az zen vx vy vz : list Q) (ids nint : list Z)
         (times : list Q) (fl : list Z) (en : list Q) (ccnc : list string)
         (inel sh : list pyfloat) (st : list string),
    List.length az = n -> List.length zen = n ->
    (n <= List.length vx)%nat -> (n <= List.length vy)%nat ->
    (n <= List.length vz)%nat ->
    List.length ids = n -> List.length nint = n -> List.length times = n ->
    List.length fl = n -> List.length en = n -> List.length ccnc = n ->
    List.length inel = n -> List.length sh = n -> List.length st = n ->
    exists (rows : list row) (tx ty tz : list Q),
      List.length rows = n
      /\ List.length tx = (List.length vx - n)%nat
      /\ List.length ty = (List.length vy - n)%nat
      /\ List.length tz = (List.length vz - n)%nat
      /\ mkData az zen vx vy vz ids nint times fl en ccnc inel sh st
         = with_extra tx ty tz (cols_of rows).
Proof.
  induction n as [|n IH]; intros az zen vx vy vz ids nint times fl en ccnc
    inel sh st Haz Hzen Hvx Hvy Hvz Hids Hnint Htimes Hfl Hen Hccnc Hinel Hsh Hst.
  - destruct az; [|discriminate]. destruct zen; [|discriminate].
    destruct ids; [|discriminate]. destruct nint; [|discriminate].
    destruct times; [|discriminate]. destruct fl; [|discriminate].
    destruct en; [|discriminate]. destruct ccnc; [|discriminate].
    destruct inel; [|discriminate]. destruct sh; [|discriminate].
    destruct st; [|discriminate].
    exists [], vx, vy, vz.
    split; [reflexivity|]. split; [lia|]. split; [lia|]. split; [lia|reflexivity].
  - destruct az as [|a0 az]; [discriminate|].
    destruct zen as [|a1 zen]; [discriminate|].
    destruct vx as [|a2 vx]; [simpl in Hvx; lia|].
    destruct vy as [|a3 vy]; [simpl in Hvy; lia|].
    destruct vz as [|a4 vz]; [simpl in Hvz; lia|].
    destruct ids as [|a5 ids]; [discriminate|].
    destruct nint as [|a6 nint]; [discriminate|].
    destruct times as [|a7 times]; [discriminate|].
    destruct fl as [|a8 fl]; [discriminate|].
    destruct en as [|a9 en]; [discriminate|].
    destruct ccnc as [|a10 ccnc]; [discriminate|].
    destruct inel as [|a11 inel]; [discriminate|].
    destruct sh as [|a12 sh]; [discriminate|].
    destruct st as [|a13 st]; [discriminate|].
    simpl in *.
    destruct (IH az zen vx vy vz ids nint times fl en ccnc inel sh st)
      as (rows & tx & ty & tz & Hlen & Htx & Hty & Htz & Heq); try lia.
    exists (mkRow a0 a1 a2 a3 a4 a5 a6 a7 a8 a9 a10 a11 a12 a13 :: rows),
           tx, ty, tz.
    split; [simpl; lia|]. split; [exact Htx|]. split; [exact Hty|].
    split; [exact Htz|].
    unfold with_extra, cols_of in Heq |- *.
    cbn [azimuths zeniths xx yy zz event_group_ids n_interaction vertex_times
         flavors energies interaction_type inelasticity shower_energies
         shower_type] in Heq |- *.
    injection Heq as E0 E1 E2 E3 E4 E5 E6 E7 E8 E9 E10 E11 E12 E13.
    cbn [map app r_azimuth r_zenith r_x r_y r_z r_event_group_id
         r_n_interaction r_vertex_time r_flavor r_energy r_interaction_type
         r_inelasticity r_shower_energy r_shower_type].
    congruence.
Qed.

Lemma Qmult_comm_eq (a b : Q) : (a * b)%Q = (b * a)%Q.
Proof.
  unfold Qmult. destruct a as [an ad], b as [bn bd]. simpl.
  now rewrite Z.mul_comm, Pos.mul_comm.
Qed.

Lemma all_some_length {A : Type} (l : list (option A)) (r : list A) :
  all_some l = Some r -> List.length r = List.length l.
Proof.
  revert r. induction l as [|[x|] l IH]; intros r Hr; simpl in Hr.
  - injection Hr as <-. reflexivity.
  - destruct (all_some l) as [t|]; [|discriminate].
    injection Hr as <-. simpl. now rewrite (IH t eq_refl).
  - discriminate.
Qed.

Lemma all_ok_length {A : Type} (l : list (res A)) (r : list A) :
  all_ok l = Ok r -> List.length r = List.length l.
Proof.
  revert r. induction l as [|[x|e] l IH]; intros r Hr; cbn in Hr.
  - now injection Hr as <-.
  - destruct (all_ok l) as [t|]; [|discriminate].
    cbn in Hr. injection Hr as <-. cbn. f_equal. now apply IH.
  - discriminate.
Qed.

Lemma all_finite_length (l : list float64) (r : list Q) :
  all_finite l = Some r -> List.length r = List.length l.
Proof.
  revert r. induction l as [|[q|] l IH]; intros r Hr; cbn in Hr.
  - now injection Hr as <-.
  - destruct (all_finite l) as [t|]; [|discriminate].
    cbn in Hr. injection Hr as <-. cbn. f_equal. now apply IH.
  - discriminate.
Qed.

(** What [primary_energies] returns, row by row. *)
Lemma primary_energies_Ok (en : list Q) (ccnc : list string) (fl : list Z)
    (inel : list Q) (r : list Q) :
  primary_energies en ccnc fl inel = Ok r ->
  exists (rows : list (option float64)) (l : list float64),
    all_ok (map (fun p => let '(Edep, c, f, y) := p in
                          primary_energy_from_deposited numpy_float64 Edep c f y)
              (combine (combine (combine en ccnc) fl) inel))
    = Ok rows
    /\ all_some rows = Some l
    /\ all_finite l = Some r.
Proof.
  unfold primary_energies. intros Hr.
  destruct (all_ok _) as [rows|] eqn:Hrows; [|discriminate].
  cbn [rbind] in Hr.
  destruct (all_some rows) as [l|] eqn:Hl; [|discriminate].
  destruct (all_finite l) as [qs|] eqn:Hq; [|discriminate].
  injection Hr as <-. now exists rows, l.
Qed.

Lemma primary_energies_length (en : list Q) (ccnc : list string)
    (fl : list Z) (inel : list Q) (r : list Q) :
  primary_energies en ccnc fl inel = Ok r ->
  List.length r
  = List.length (combine (combine (combine en ccnc) fl) inel).
Proof.
  intros Hr.
  destruct (primary_energies_Ok _ _ _ _ _ Hr) as (rows & l & Hrows & Hl & Hq).
  apply all_ok_length in Hrows. apply all_some_length in Hl.
  apply all_finite_length in Hq. rewrite length_map in Hrows. congruence.
Qed.

Section BaselineFacts.
Context `{Extern}.

Lemma get_energy_from_flux_length (Emin Emax : Q) (n : Z) (flux : flux_model)
    (w w' : world) (l : list Q) :
  get_energy_from_flux Emin Emax n flux w = (Ok l, w') ->
  List.length l = Z.to_nat n.
Proof.
  unfold get_energy_from_flux, bind, ret.
  destruct (np_random_uniform _ _ _ w) as [[u|e] w1] eqn:Hu; [|discriminate].
  intros Heq. injection Heq as <- _.
  apply uniform_Ok in Hu. destruct Hu as (m & Hm & _ & Hlen & _).
  injection Hm as <-. now rewrite length_map.
Qed.

Lemma get_energies_length (n : Z) (Emin Emax : Q) (spectrum : string)
    (w w' : world) (l : list Q) :
  get_energies n Emin Emax spectrum w = (Ok l, w') ->
  List.length l = Z.to_nat n.
Proof.
  unfold get_energies.
  destruct (String.eqb spectrum "log_uniform").
  { unfold bind, ret.
    destruct (np_random_uniform _ _ _ w) as [[u|e] w1] eqn:Hu; [|discriminate].
    intros Heq. injection Heq as <- _.
    apply uniform_Ok in Hu. destruct Hu as (m & Hm & _ & Hlen & _).
    injection Hm as <-. now rewrite length_map. }
  destruct (String.prefix "E-" spectrum).
  { destruct (py_float (str_tail spectrum)); [|discriminate].
    unfold bind, ret.
    destruct (np_random_uniform _ _ _ w) as [[u|e] w1] eqn:Hu; [|discriminate].
    intros Heq. injection Heq as <- _.
    apply uniform_Ok in Hu. destruct Hu as (m & Hm & _ & Hlen & _).
    injection Hm as <-. now rewrite length_map. }
  destruct (String.eqb spectrum "GZK-1");
    [apply get_energy_from_flux_length|].
  destruct (String.eqb spectrum "IceCube-nu-2017");
    [apply get_energy_from_flux_length|].
  destruct (String.eqb spectrum "GZK-1+IceCube-nu-2017");
    [apply get_energy_from_flux_length|].
  discriminate.
Qed.

(** The shape of the table that [baseline_table] returns. *)
Lemma baseline_table_shape (n_events : Z) (Emin Emax : Q)
    (volume : gmap string pynum) (thetamin thetamax phimin phimax : Q)
    (start_event_id : Z) (flavor : list Z) (spectrum : string)
    (deposited proposal : bool) (w w' : world)
    (attrs : gmap string pynum) (base : data_sets) :
  baseline_table n_events Emin Emax volume thetamin thetamax phimin phimax
    start_event_id flavor spectrum deposited proposal w
  = (Ok (attrs, base), w') ->
  let n := Z.to_nat n_events in
  List.length (azimuths base) = n /\ List.length (zeniths base) = n
  /\ List.length (yy base) = List.length (xx base)
  /\ List.length (zz base) = List.length (xx base)
  /\ (proposal = false -> List.length (xx base) = n)
  /\ event_group_ids base = arange start_event_id n_events
  /\ n_interaction base = map (fun _ => 1) (event_group_ids base)
  /\ vertex_times base = map (fun _ => 0%Q) (event_group_ids base)
  /\ List.length (flavors base) = n /\ List.length (energies base) = n
  /\ List.length (interaction_type base) = n
  /\ (exists inel : list Q,
         List.length inel = n
         /\ inelasticity base = map Fl inel
         /\ shower_energies base
            = map (fun p => Fl (fst p * snd p)%Q) (combine (energies base) inel))
  /\ shower_type base = map (fun _ => "had"%string) (event_group_ids base).
Proof.
  intros Hrun n. unfold baseline_table, bind in Hrun.
  destruct (np_random_uniform phimin phimax _ w) as [[az|e] w0] eqn:Haz;
    [|discriminate].
  destruct (np_random_uniform _ _ _ w0) as [[u|e] w1] eqn:Hu; [|discriminate].
  destruct (generate_vertex_positions _ _ _ w1)
    as [[[attrs' [[[vx vy] vz]|]]|e] w2] eqn:Hvp;
    cbn [fst snd] in Hrun; [| |discriminate]; [|discriminate].
  destruct (np_random_randint _ _ w2) as [[idx|e] w3] eqn:Hidx; [|discriminate].
  destruct (get_energies _ _ _ _ w3) as [[en|e] w4] eqn:Hen; [|discriminate].
  destruct (get_ccnc _ w4) as [[ccnc|e] w5] eqn:Hcc; [|discriminate].
  destruct (get_neutrino_inelasticity _ w5) as [[inel|e] w6] eqn:Hin;
    [|discriminate].
  apply uniform_Ok in Haz. destruct Haz as (m & Hm & _ & Haz & _).
  injection Hm as <-.
  apply uniform_Ok in Hu. destruct Hu as (m & Hm & _ & Hu & _).
  injection Hm as <-.
  apply vertex_lengths in Hvp. destruct Hvp as (Hvy & Hvz & Hvx).
  apply get_energies_length in Hen.
  assert (Hidx' : List.length idx = n).
  { unfold np_random_randint in Hidx.
    destruct (_ || _); [discriminate|]. injection Hidx as <- _.
    now rewrite length_map, length_seq. }
  assert (Hcc' : List.length ccnc = n).
  { unfold get_ccnc in Hcc. destruct (n_events <? 0); [discriminate|].
    injection Hcc as <- _. now rewrite length_map, variates_length. }
  assert (Hin' : List.length inel = n).
  { unfold get_neutrino_inelasticity in Hin.
    destruct (n_events <? 0); [discriminate|].
    injection Hin as <- _. now rewrite length_map, variates_length. }
  assert (Hen' : forall en' w7,
             (if deposited
              then lift (primary_energies en ccnc
                           (map (fun i => nth (Z.to_nat i) flavor 0) idx) inel)
              else ret en) w6 = (Ok en', w7) ->
             List.length en' = n).
  { intros en' w7. destruct deposited.
    - unfold lift. intros Heq. injection Heq as Heq _.
      apply primary_energies_length in Heq. rewrite Heq.
      rewrite !length_combine, length_map. lia.
    - intros Heq. injection Heq as <- _. exact Hen. }
  destruct (_ w6) as [[en'|e] w7] eqn:Hdep in Hrun; [|discriminate].
  apply Hen' in Hdep.
  unfold ret in Hrun. injection Hrun as <- <- <-.
  cbn [azimuths zeniths xx yy zz event_group_ids n_interaction vertex_times
       flavors energies interaction_type inelasticity shower_energies
       shower_type].
  repeat split; try assumption; try reflexivity.
  - now rewrite length_map.
  - intros Hp. apply (Hvx Hp n_events). vm_compute. reflexivity.
  - now rewrite length_map.
  - exists inel. repeat split; assumption.
Qed.

End BaselineFacts.

Lemma with_extra_nil (d : data_sets) : with_extra [] [] [] d = d.
Proof. destruct d. unfold with_extra. simpl. now rewrite !app_nil_r. Qed.

Lemma length_zero_nil {A : Type} (l : list A) : List.length l = 0%nat -> l = [].
Proof. destruct l; [reflexivity|discriminate]. Qed.

(** Rows of a baseline table: one hadronic shower with energy y * E each. *)
Lemma baseline_rows :
  forall (rows : list row) (inel : list Q) (ids : list Z),
    List.length ids = List.length rows ->
    map r_inelasticity rows = map Fl inel ->
    map r_shower_energy rows
    = map (fun p => Fl (fst p * snd p)%Q) (combine (map r_energy rows) inel) ->
    map r_shower_type rows = map (fun _ => "had"%string) ids ->
    Forall (fun r => exists y : Q,
                r_inelasticity r = Fl y
                /\ r_shower_type r = "had"%string
                /\ r_shower_energy r = Fl (y * r_energy r)%Q) rows.
Proof.
  induction rows as [|r rows IH]; intros inel ids Hlen Hy Hs Ht; [constructor|].
  destruct inel as [|y inel]; [discriminate|].
  destruct ids as [|i ids]; [discriminate|].
  simpl in *. injection Hy as Hy0 Hy. injection Hs as Hs0 Hs.
  injection Ht as Ht0 Ht. injection Hlen as Hlen.
  constructor; [|now apply (IH inel ids)].
  exists y. split; [assumption|]. split; [assumption|].
  rewrite Hs0. f_equal. apply Qmult_comm_eq.
Qed.

Section TableFacts.
Context `{Extern}.

(** The baseline table is a list of rows, plus the extra vertex entries. *)
Lemma baseline_table_rows (n_events : Z) (Emin Emax : Q)
    (volume : gmap string pynum) (thetamin thetamax phimin phimax : Q)
    (start_event_id : Z) (flavor : list Z) (spectrum : string)
    (deposited proposal : bool) (w w' : world)
    (attrs : gmap string pynum) (base : data_sets) :
  baseline_table n_events Emin Emax volume thetamin thetamax phimin phimax
    start_event_id flavor spectrum deposited proposal w
  = (Ok (attrs, base), w') ->
  (Z.to_nat n_events <= List.length (xx base))%nat ->
  exists (rows : list row) (tx ty tz : list Q),
    List.length rows = Z.to_nat n_events
    /\ base = with_extra tx ty tz (cols_of rows)
    /\ (proposal = false -> tx = [] /\ ty = [] /\ tz = [])
    /\ map r_event_group_id rows = arange start_event_id n_events
    /\ Forall (fun r => r_n_interaction r = 1) rows
    /\ Forall (fun r => exists y : Q,
                   r_inelasticity r = Fl y
                   /\ r_shower_type r = "had"%string
                   /\ r_shower_energy r = Fl (y * r_energy r)%Q) rows.
Proof.
  intros Hrun Hxx.
  apply baseline_table_shape in Hrun.
  destruct Hrun as (Haz & Hzen & Hyy & Hzz & Hp & Hids & Hnint & Htimes & Hfl
                    & Hen & Hcc & (inel & Hinel & Hy & Hsh) & Hst).
  assert (Hidlen : List.length (event_group_ids base) = Z.to_nat n_events).
  { rewrite Hids. unfold arange. now rewrite length_map, length_seq. }
  destruct base as [az zen vx vy vz ids nint times fl en ccnc inl sh st].
  cbn [azimuths zeniths xx yy zz event_group_ids n_interaction vertex_times
       flavors energies interaction_type inelasticity shower_energies
       shower_type] in *.
  destruct (columns_are_rows (Z.to_nat n_events) az zen vx vy vz ids nint times
              fl en ccnc inl sh st)
    as (rows & tx & ty & tz & Hlen & Htx & Hty & Htz & Heq); try assumption;
    try lia.
  { rewrite Hnint. now rewrite length_map. }
  { rewrite Htimes. now rewrite length_map. }
  { rewrite Hy. now rewrite length_map. }
  { rewrite Hsh. rewrite length_map, length_combine. lia. }
  { rewrite Hst. now rewrite length_map. }
  exists rows, tx, ty, tz.
  split; [exact Hlen|]. split; [exact Heq|].
  unfold with_extra, cols_of in Heq.
  cbn [azimuths zeniths xx yy zz event_group_ids n_interaction vertex_times
       flavors energies interaction_type inelasticity shower_energies
       shower_type] in Heq.
  injection Heq as E0 E1 E2 E3 E4 E5 E6 E7 E8 E9 E10 E11 E12 E13.
  split; [|split; [|split]].
  - intros Hf. specialize (Hp Hf).
    repeat split; apply length_zero_nil; lia.
  - congruence.
  - apply List.Forall_forall. intros r Hr.
    assert (Hin : In (r_n_interaction r) (map r_n_interaction rows))
      by (now apply in_map).
    rewrite <- E6, Hnint in Hin. apply in_map_iff in Hin.
    destruct Hin as (? & Heq1 & _). now symmetry.
  - apply (baseline_rows rows inel ids); [lia|congruence| |congruence].
    rewrite <- E12, <- E9. exact Hsh.
Qed.

End TableFacts.

(** C5: every row of the baseline table of [generate_eventlist_cylinder]
    is a hadronic shower of energy y * E, and the insertion loop replaces
    each electron charged-current row (interaction ['cc'], |flavor| 12) by
    two adjacent rows, the row itself and its twin with shower class ['em']
    and shower energy (1 - y) * E, the twin sharing position, direction,
    flavor, channel, energy and inelasticity; every other row stays, and
    the order of the rows is kept. *)
Theorem electron_cc_rows_are_split :
  forall (E : Extern) (n_events : Z) (Emin Emax : Q)
         (volume : gmap string pynum) (thetamin thetamax phimin phimax : Q)
         (start_event_id : Z) (flavor : list Z) (spectrum : string)
         (deposited proposal : bool) (w w' : world)
         (attrs : gmap string pynum) (base : data_sets),
    baseline_table n_events Emin Emax volume thetamin thetamax phimin phimax
      start_event_id flavor spectrum deposited proposal w
    = (Ok (attrs, base), w') ->
    (Z.to_nat n_events <= List.length (xx base))%nat ->
    exists (rows : list row) (tx ty tz : list Q),
      base = with_extra tx ty tz (cols_of rows)
      /\ add_em_showers n_events base
         = Ok (with_extra tx ty tz (cols_of (flat_map split_row rows)))
      /\ Forall
           (fun r =>
              exists y : Q,
                r_inelasticity r = Fl y
                /\ r_shower_type r = "had"%string
                /\ r_shower_energy r = Fl (y * r_energy r)%Q
                /\ (r_interaction_type r = "cc"%string ->
                    Z.abs (r_flavor r) = 12 ->
                    split_row r = [r; em_twin r])
                /\ (~ (r_interaction_type r = "cc"%string
                       /\ Z.abs (r_flavor r) = 12) ->
                    split_row r = [r])
                /\ r_shower_type (em_twin r) = "em"%string
                /\ r_shower_energy (em_twin r) = Fl ((1 - y) * r_energy r)%Q
                /\ (r_x (em_twin r), r_y (em_twin r), r_z (em_twin r))
                   = (r_x r, r_y r, r_z r)
                /\ (r_zenith (em_twin r), r_azimuth (em_twin r))
                   = (r_zenith r, r_azimuth r)
                /\ (r_flavor (em_twin r), r_interaction_type (em_twin r))
                   = (r_flavor r, r_interaction_type r)
                /\ (r_energy (em_twin r), r_inelasticity (em_twin r))
                   = (r_energy r, r_inelasticity r)
                /\ r_event_group_id (em_twin r) = r_event_group_id r)
           rows.
Proof.
  intros E n_events Emin Emax volume thetamin thetamax phimin phimax
         start_event_id flavor spectrum deposited proposal w w' attrs base
         Hrun Hxx.
  destruct (baseline_table_rows _ _ _ _ _ _ _ _ _ _ _ _ _ _ _ _ _ Hrun Hxx)
    as (rows & tx & ty & tz & Hlen & Heq & _ & _ & _ & Hrows).
  exists rows, tx, ty, tz. split; [exact Heq|]. split.
  - rewrite Heq. now apply add_em_showers_rows.
  - eapply List.Forall_impl; [|exact Hrows].
    intros r (y & Hy & Ht & Hs). exists y.
    split; [exact Hy|]. split; [exact Ht|]. split; [exact Hs|].
    split; [|split].
    + intros Hcc Hfl. unfold split_row, is_em_shower.
      rewrite Hcc, Hfl. reflexivity.
    + intros Hno. unfold split_row, is_em_shower.
      destruct (String.eqb_spec (r_interaction_type r) "cc") as [Hcc|Hcc];
        [|reflexivity].
      destruct (Z.eqb_spec (Z.abs (r_flavor r)) 12) as [Hfl|Hfl];
        [|reflexivity].
      exfalso. apply Hno. now split.
    + unfold em_twin. cbn [r_shower_type r_shower_energy r_x r_y r_z r_zenith
        r_azimuth r_flavor r_interaction_type r_energy r_inelasticity
        r_event_group_id].
      rewrite Hy. cbn [fl_sub fl_mul].
      repeat split.
Qed.

(** C9: with [proposal] off, the table that [generate_eventlist_cylinder]
    hands to the writer is the baseline table after the insertion of the
    electromagnetic twins and nothing else: every sampled event group
    [start_event_id .. start_event_id + n_events - 1] is there with its
    baseline row (and the twin of an electron charged-current row), no row
    is filtered by position, and the shower ids are 0 .. N-1 in table
    order. *)
Theorem no_filtering_without_proposal :
  forall (E : Extern) (filename : string) (n_events : Z) (Emin Emax : Q)
         (volume : gmap string pynum) (thetamin thetamax phimin phimax : Q)
         (start_event_id : Z) (flavor : list Z) (n_events_per_file : option Z)
         (spectrum : string) (deposited : bool) (start_file_id : Z)
         (w w' : world) (fid : data_sets) (sids : list Z),
    final_table n_events Emin Emax volume thetamin thetamax phimin phimax
      start_event_id flavor spectrum deposited false w
    = (Ok (fid, sids), w') ->
    exists (rows : list row) (attrs : gmap string pynum),
      baseline_table n_events Emin Emax volume thetamin thetamax phimin phimax
        start_event_id flavor spectrum deposited false w
      = (Ok (attrs, cols_of rows), w')
      /\ map r_event_group_id rows = arange start_event_id n_events
      /\ fid = cols_of (flat_map split_row rows)
      /\ sids = arange 0 (Z.of_nat (List.length (flat_map split_row rows)))
      /\ generate_eventlist_cylinder filename n_events Emin Emax volume
           thetamin thetamax phimin phimax start_event_id flavor
           n_events_per_file spectrum deposited false start_file_id w
         = (write_events_to_hdf5 filename
              (map r_event_group_id (flat_map split_row rows)) n_events
              (Some start_event_id) n_events_per_file start_file_id, w').
Proof.
  intros E filename n_events Emin Emax volume thetamin thetamax phimin phimax
         start_event_id flavor n_events_per_file spectrum deposited
         start_file_id w w' fid sids Hrun.
  pose proof Hrun as Hfinal.
  unfold final_table, bind, lift, ret in Hrun.
  destruct (baseline_table _ _ _ _ _ _ _ _ _ _ _ _ _ w)
    as [[[attrs base]|e] w0] eqn:Hbase; [|discriminate].
  cbn [fst snd] in Hrun.
  pose proof (baseline_table_shape _ _ _ _ _ _ _ _ _ _ _ _ _ _ _ _ _ Hbase)
    as (_ & _ & _ & _ & Hp & _).
  destruct (baseline_table_rows _ _ _ _ _ _ _ _ _ _ _ _ _ _ _ _ _ Hbase)
    as (rows & tx & ty & tz & Hlen & Heq & Hnil & Hids & _ & _).
  { rewrite (Hp eq_refl). lia. }
  destruct (Hnil eq_refl) as (-> & -> & ->).
  rewrite with_extra_nil in Heq. subst base.
  pose proof (add_em_showers_rows [] [] [] rows n_events Hlen) as Hsplit.
  rewrite !with_extra_nil in Hsplit. rewrite Hsplit in Hrun.
  injection Hrun as <- <- <-.
  exists rows, attrs. split; [reflexivity|]. split; [exact Hids|].
  split; [reflexivity|]. split.
  - cbn [cols_of shower_energies]. now rewrite length_map.
  - unfold generate_eventlist_cylinder. rewrite Hfinal. reflexivity.
Qed.

(** ** The expansion loop, read on rows *)

Lemma nth_error_combine {A B : Type} (l1 : list A) (l2 : list B) (i : nat) :
  nth_error (combine l1 l2) i
  = match nth_error l1 i, nth_error l2 i with
    | Some a, Some b => Some (a, b)
    | _, _ => None
    end.
Proof.
  revert l2 i. induction l1 as [|a l1 IH]; intros l2 i.
  - destruct i; reflexivity.
  - destruct l2 as [|b l2].
    + destruct i; simpl; [reflexivity|]. now destruct (nth_error l1 i).
    + destruct i; simpl; [reflexivity|apply IH].
Qed.

Lemma nth_error_map_app {A B : Type} (f : A -> B) (l : list A) (extra : list B)
    (i : nat) (x : A) :
  nth_error l i = Some x -> nth_error (map f l ++ extra) i = Some (f x).
Proof.
  intros Hx. rewrite nth_error_app1.
  - rewrite nth_error_map, Hx. reflexivity.
  - rewrite length_map. apply nth_error_Some. congruence.
Qed.

Lemma nth_error_map_some {A B : Type} (f : A -> B) (l : list A)
    (i : nat) (x : A) :
  nth_error l i = Some x -> nth_error (map f l) i = Some (f x).
Proof. intros Hx. rewrite nth_error_map, Hx. reflexivity. Qed.

Lemma append_entry_map {A B : Type} (f : A -> B) (l : list A) (extra : list B)
    (dst : list A) (i : nat) (x : A) :
  nth_error l i = Some x ->
  append_entry i B (map f l ++ extra) (map f dst) = map f (dst ++ [x]).
Proof.
  intros Hx. unfold append_entry. rewrite map_app. f_equal.
  pose proof (nth_error_map_app f l extra i x Hx) as Hn.
  revert Hn. generalize (map f l ++ extra). clear.
  intros l. revert l. induction i as [|i IH]; intros [|y l] Hn;
    try discriminate.
  - injection Hn as ->. reflexivity.
  - simpl in Hn. simpl. now apply IH.
Qed.

Lemma append_row_rows (tx ty tz : list Q) (rows frows : list row)
    (iE : nat) (parent : row) :
  nth_error rows iE = Some parent ->
  append_row iE (with_extra tx ty tz (cols_of rows)) (cols_of frows)
  = Ok (cols_of (frows ++ [parent])).
Proof.
  intros Hp. unfold append_row. rewrite min_len_cols.
  assert (Hlt : (iE < List.length rows)%nat)
    by (apply nth_error_Some; congruence).
  destruct (Nat.ltb_spec iE (List.length rows)); [|lia].
  f_equal. unfold for_each_key2, with_extra, cols_of.
  cbn [azimuths zeniths xx yy zz event_group_ids n_interaction vertex_times
       flavors energies interaction_type inelasticity shower_energies
       shower_type].
  rewrite !(append_entry_map _ rows _ frows iE parent Hp).
  pose proof (fun (B : Type) (f : row -> B) =>
                append_entry_map f rows [] frows iE parent Hp) as Hnil.
  setoid_rewrite app_nil_r in Hnil. rewrite !Hnil. reflexivity.
Qed.

Lemma set_last_snoc {A B : Type} (f : A -> B) (l : list A) (x : A) (v : B) :
  set_last v (map f (l ++ [x])) = map f l ++ [v].
Proof.
  rewrite map_app. cbn [map]. unfold set_last.
  destruct (map f l ++ [f x]) eqn:Hl.
  - destruct (map f l); discriminate.
  - rewrite <- Hl. now rewrite removelast_last.
Qed.


Section ExpansionFacts.
Context `{Extern}.
Variables (attributes : gmap string pynum) (rmin rmax zmin zmax : pynum).
Hypothesis Hrmin : attributes !! "fiducial_rmin" = Some rmin.
Hypothesis Hrmax : attributes !! "fiducial_rmax" = Some rmax.
Hypothesis Hzmin : attributes !! "fiducial_zmin" = Some zmin.
Hypothesis Hzmax : attributes !! "fiducial_zmax" = Some zmax.
Variables (tx ty tz : list Q) (rows : list row) (iE : nat) (parent : row).
Hypothesis Hparent : nth_error rows iE = Some parent.

Local Abbreviation d := (with_extra tx ty tz (cols_of rows)).

Lemma product_position_time_rows (p : secondary_properties) :
  get_product_position_time d p iE = Ok (product_position parent p).
Proof.
  unfold get_product_position_time, at_index, with_extra, cols_of.
  cbn [azimuths zeniths xx yy zz].
  rewrite !(nth_error_map_app _ rows _ iE parent Hparent).
  rewrite !(nth_error_map_some _ rows iE parent Hparent).
  reflexivity.
Qed.






Lemma d_xx : nth_error (xx d) iE = Some (r_x parent).
Proof. exact (nth_error_map_app r_x rows tx iE parent Hparent). Qed.

Lemma d_yy : nth_error (yy d) iE = Some (r_y parent).
Proof. exact (nth_error_map_app r_y rows ty iE parent Hparent). Qed.

Lemma d_zz : nth_error (zz d) iE = Some (r_z parent).
Proof. exact (nth_error_map_app r_z rows tz iE parent Hparent). Qed.



Lemma d_direction :
  nth_error (lepton_directions d) iE = Some (row_direction parent).
Proof.
  unfold lepton_directions, with_extra, cols_of. cbn [zeniths azimuths].
  rewrite combine_map_map, map_map.
  now rewrite (nth_error_map_some _ rows iE parent Hparent).
Qed.


Lemma d_position :
  nth_error (lepton_positions d) iE
  = Some (r_x parent, r_y parent, r_z parent).
Proof.
  unfold lepton_positions. rewrite nth_error_map, !nth_error_combine.
  now rewrite d_xx, d_yy, d_zz.
Qed.


End ExpansionFacts.



(** C3: [generate_eventlist_cylinder] has no placeholder row. The end of
    [generate_surface_muons] replaces an empty fiducial table by the first
    input row with flavor 14, so that one row is written and the file
    carries the requested total (here one file, total 5). The end of
    [generate_eventlist_cylinder] hands the empty table to the writer, which
    raises [IndexError] on [data_sets["event_group_ids"][0]]: no file is
    written. The expansion does leave the table empty when neither the
    vertex nor a product is in the fiducial cylinder. *)
Theorem no_placeholder_in_eventlist_cylinder :
  (forall (filename : string) (n_events start_event_id : Z)
          (n_events_per_file : option Z) (start_file_id : Z),
      eventlist_finish filename empty_data_sets n_events start_event_id
        n_events_per_file start_file_id = Some (Raise IndexError))
  /\ @expand_secondaries sample_extern cylinder_attributes
       (cols_of [outside_row]) = Ok empty_data_sets
  /\ surface_muons_finish "muons.hdf5" sample_muons no_muons 5 1 None 0
     = (Ok (placeholder sample_muons, [0]),
        Some (Ok [mkShard "muons.hdf5" 5 5 1 1 0 1]))
  /\ flavors (md_columns (placeholder sample_muons)) = [14]
  /\ shower_energies (md_columns (placeholder sample_muons)) = [Fl 0].
Proof.
  split; [|split; [|split; [|split]]].
  - reflexivity.
  - vm_compute. reflexivity.
  - vm_compute. reflexivity.
  - reflexivity.
  - reflexivity.
Qed.

Lemma sample_baseline_run :
  sample_baseline = (Ok (sample_attributes, sample_base), sample_world).
Proof. vm_compute. reflexivity. Qed.

Lemma electron_cc_rows_are_split_witness :
  exists (rows : list row) (tx ty tz : list Q),
    sample_base = with_extra tx ty tz (cols_of rows)
    /\ add_em_showers 3 sample_base
       = Ok (with_extra tx ty tz (cols_of (flat_map split_row rows))).
Proof.
  assert (Hxx : (Z.to_nat 3 <= List.length (xx sample_base))%nat)
    by (vm_compute; lia).
  destruct (electron_cc_rows_are_split sample_extern 3 1 2 sample_box 0 1 0 1 1
              [12; -12; 14] "log_uniform" false false [] sample_world
              sample_attributes sample_base sample_baseline_run Hxx)
    as (rows & tx & ty & tz & Heq & Hsplit & _).
  exists rows, tx, ty, tz. split; [exact Heq|exact Hsplit].
Defined.

Lemma no_filtering_without_proposal_witness :
  exists rows : list row,
    List.length rows = 3%nat
    /\ @generate_eventlist_cylinder sample_extern "out.hdf5" 3 1 2 sample_box
         0 1 0 1 1 [12; -12; 14] None "log_uniform" false false 0 []
       = (write_events_to_hdf5 "out.hdf5"
            (map r_event_group_id (flat_map split_row rows)) 3 (Some 1) None 0,
          [Uniform 0 1 3; Uniform 1 1 3; Uniform 0 1 3; Uniform 0 1 3;
           Uniform (-1) 0 3; Randint 3 3; Uniform 18 18 3; Ccnc 3;
           Inelasticity 3]).
Proof.
  destruct (@final_table sample_extern 3 1 2 sample_box 0 1 0 1 1
              [12; -12; 14] "log_uniform" false false [])
    as [[[fid sids]|e] w'] eqn:Hrun;
    [|exfalso; vm_compute in Hrun; discriminate Hrun].
  destruct (no_filtering_without_proposal sample_extern "out.hdf5" 3 1 2
              sample_box 0 1 0 1 1 [12; -12; 14] None "log_uniform" false 0
              [] w' fid sids Hrun)
    as (rows & attrs & Hbase & Hids & _ & _ & Hgen).
  exists rows. split.
  - apply (f_equal (@List.length Z)) in Hids.
    rewrite length_map in Hids. exact Hids.
  - rewrite Hgen. f_equal.
    vm_compute in Hrun. injection Hrun as _ _ <-. reflexivity.
Defined.

(** ** More on the writer: row ranges, totals and the end of the loop *)

Lemma argwhere_from_last (v : Z) (l : list Z) :
  forall (i t0 : Z) (ts : list Z),
    argwhere_from i v l = t0 :: ts ->
    let m := List.last (t0 :: ts) t0 in
    i <= m < i + Z.of_nat (List.length l)
    /\ nth_error l (Z.to_nat (m - i)) = Some v
    /\ (forall k : nat, (Z.to_nat (m - i) < k)%nat -> nth_error l k <> Some v).
Proof.
  induction l as [|x t IH]; intros i t0 ts Hw; [discriminate|].
  cbn [argwhere_from] in Hw.
  assert (Hrec : forall t1 ts1, argwhere_from (i + 1) v t = t1 :: ts1 ->
            let m := List.last (t1 :: ts1) t1 in
            i <= m < i + Z.of_nat (List.length (x :: t))
            /\ nth_error (x :: t) (Z.to_nat (m - i)) = Some v
            /\ (forall k : nat, (Z.to_nat (m - i) < k)%nat ->
                                nth_error (x :: t) k <> Some v)).
  { intros t1 ts1 H1 m. destruct (IH _ _ _ H1) as (Hb & Hn & Hk). fold m in Hb, Hn, Hk.
    cbn [List.length]. split; [lia|].
    replace (Z.to_nat (m - i)) with (S (Z.to_nat (m - (i + 1)))) by lia.
    split; [exact Hn|].
    intros k Hlt. destruct k as [|k]; [lia|]. cbn [nth_error]. apply Hk. lia. }
  destruct (Z.eqb_spec x v) as [->|Hne].
  - injection Hw as <- Hts.
    destruct (argwhere_from (i + 1) v t) as [|t1 ts1] eqn:Hrest.
    + subst ts. cbn [List.last List.length]. rewrite Z.sub_diag.
      split; [lia|]. split; [reflexivity|].
      intros k Hk. destruct k as [|k]; [simpl in Hk; lia|]. cbn [nth_error].
      clear - Hrest. revert Hrest. generalize (i + 1). revert k.
      induction t as [|y t IH]; intros k j Hrest; [destruct k; discriminate|].
      cbn [argwhere_from] in Hrest.
      destruct (Z.eqb_spec y v); [discriminate|].
      destruct k as [|k]; cbn [nth_error]; [congruence|]. eapply IH. exact Hrest.
    + subst ts.
      replace (List.last (i :: t1 :: ts1) i) with (List.last (t1 :: ts1) t1)
        by (change (List.last (i :: t1 :: ts1) i) with (List.last (t1 :: ts1) i);
            apply last_indep; discriminate).
      now apply Hrec.
  - specialize (Hrec _ _ Hw). exact Hrec.
Qed.

(** The stop index of both branches on [tmp.size]. *)
Lemma stop_index_last (t0 : Z) (ts : list Z) :
  (if (List.length (t0 :: ts) =? 1)%nat then t0 + 1
   else List.last (t0 :: ts) t0 + 1)
  = List.last (t0 :: ts) t0 + 1.
Proof. destruct ts; reflexivity. Qed.

(** Row range and event ids of every file the loop writes. *)
Lemma write_loop_ranges (filename : string) (ids uniq : list Z)
    (n_events K start_event_id start_file_id : Z) :
  forall (fuel : nat) (i prev start : Z) (shards : list shard),
    write_loop fuel filename ids uniq n_events K start_event_id start_file_id
               i prev start = Some (Ok shards) ->
    forall (j : nat) (sh : shard),
      nth_error shards j = Some sh ->
      shard_start_index sh
        = match j with
          | O => start
          | S j' => match nth_error shards j' with
                    | Some sh' => shard_stop_index sh'
                    | None => 0
                    end
          end
      /\ shard_evt_id_last sh = last_id uniq K (i + Z.of_nat j)
      /\ List.hd_error (evt_ids_of_file uniq K (i + Z.of_nat j))
         = Some (shard_evt_id_first sh)
      /\ 1 <= shard_stop_index sh <= Z.of_nat (List.length ids)
      /\ nth_error ids (Z.to_nat (shard_stop_index sh - 1))
         = Some (shard_evt_id_last sh)
      /\ (forall k : nat, (Z.to_nat (shard_stop_index sh - 1) < k)%nat ->
                          nth_error ids k <> Some (shard_evt_id_last sh))
      /\ ((S j < List.length shards)%nat -> shard_evt_id_last sh <> n_events).
Proof.
  induction fuel as [|fuel IH]; intros i prev start shards Hrun j sh Hj;
    [discriminate|].
  simpl in Hrun.
  destruct (evt_ids_of_file uniq K i) as [|first rest] eqn:Hthis.
  { injection Hrun as <-. destruct j; discriminate. }
  assert (Hlast : List.last (first :: rest) first = last_id uniq K i).
  { unfold last_id. rewrite Hthis. apply last_indep. discriminate. }
  rewrite Hlast in Hrun.
  destruct (argwhere (last_id uniq K i) ids) as [|t0 ts] eqn:Htmp; [discriminate|].
  rewrite stop_index_last in Hrun.
  destruct (argwhere_from_last _ _ _ _ _ Htmp) as (Hb & Hn & Hk).
  set (m := List.last (t0 :: ts) t0) in *.
  rewrite Z.sub_0_r in Hn, Hk.
  set (sh0 := mkShard _ _ _ _ _ _ _) in Hrun.
  assert (H0 : shard_start_index sh0 = start
               /\ shard_evt_id_last sh0 = last_id uniq K i
               /\ List.hd_error (evt_ids_of_file uniq K i)
                  = Some (shard_evt_id_first sh0)
               /\ 1 <= shard_stop_index sh0 <= Z.of_nat (List.length ids)
               /\ nth_error ids (Z.to_nat (shard_stop_index sh0 - 1))
                  = Some (shard_evt_id_last sh0)
               /\ (forall k : nat,
                      (Z.to_nat (shard_stop_index sh0 - 1) < k)%nat ->
                      nth_error ids k <> Some (shard_evt_id_last sh0))).
  { unfold sh0; cbn [shard_start_index shard_evt_id_last shard_evt_id_first
                     shard_stop_index].
    replace (m + 1 - 1) with m by lia.
    split; [reflexivity|]. split; [reflexivity|].
    split; [rewrite Hthis; reflexivity|].
    split; [lia|]. split; [exact Hn|exact Hk]. }
  destruct (Z.eqb_spec (last_id uniq K i) n_events) as [Heq|Hneq].
  { injection Hrun as <-. destruct j as [|[|j]]; try discriminate.
    injection Hj as <-. rewrite Z.add_0_r.
    destruct H0 as (A & B & C & D & E & F).
    repeat (split; [assumption|]). cbn [List.length]. lia. }
  destruct (write_loop fuel filename ids uniq n_events K start_event_id
              start_file_id (i + 1) _ _) as [[rest'|?]|] eqn:Hrec;
    try discriminate.
  injection Hrun as <-.
  destruct j as [|j].
  - injection Hj as <-. rewrite Z.add_0_r.
    destruct H0 as (A & B & C & D & E & F).
    repeat (split; [assumption|]). intros _. rewrite B. exact Hneq.
  - cbn [nth_error] in Hj.
    destruct (IH _ _ _ _ Hrec j sh Hj) as (A & B & C & D & E & F & G).
    replace (i + Z.of_nat (S j)) with (i + 1 + Z.of_nat j) by lia.
    split.
    { rewrite A. destruct j as [|j']; [reflexivity|reflexivity]. }
    repeat (split; [assumption|]).
    intros Hlt. apply G. cbn [List.length] in Hlt. lia.
Qed.

(** ** Sorted ids and the slices of [np.unique] *)

Lemma nondecreasing_cons (x : Z) (t : list Z) :
  nondecreasing (x :: t) = true ->
  nondecreasing t = true /\ (forall y : Z, In y t -> x <= y).
Proof.
  revert x. induction t as [|y t IH]; intros x Hs.
  - split; [reflexivity|intros ? []].
  - change ((x <=? y) && nondecreasing (y :: t) = true) in Hs.
    apply andb_prop in Hs. destruct Hs as [Hxy Ht].
    apply Z.leb_le in Hxy. split; [exact Ht|].
    destruct (IH y Ht) as [_ Hall].
    intros z [<-|Hz]; [exact Hxy|]. specialize (Hall z Hz). lia.
Qed.

Lemma nondecreasing_nth (l : list Z) :
  nondecreasing l = true ->
  forall (p q : nat) (x y : Z),
    (p <= q)%nat -> nth_error l p = Some x -> nth_error l q = Some y -> x <= y.
Proof.
  induction l as [|a t IH]; intros Hs p q x y Hpq Hp Hq;
    [destruct p; discriminate|].
  destruct (nondecreasing_cons _ _ Hs) as [Ht Hall].
  destruct p as [|p]; destruct q as [|q]; cbn [nth_error] in *.
  - assert (x = y) by congruence. lia.
  - injection Hp as <-. apply Hall. eapply nth_error_In. exact Hq.
  - lia.
  - apply (IH Ht p q); [lia|assumption|assumption].
Qed.

Lemma insert_unique_In_iff (x v : Z) (l : list Z) :
  In v (insert_unique x l) <-> v = x \/ In v l.
Proof.
  split; [apply insert_unique_In|].
  induction l as [|y t IH]; simpl.
  - intros [->|[]]. now left.
  - destruct (Z.ltb_spec x y).
    + simpl. intros [->|[->|Hin]]; auto.
    + destruct (Z.eqb_spec x y) as [->|Hne].
      * simpl. intros [->|[->|Hin]]; auto.
      * simpl. intros [->|[->|Hin]]; auto.
Qed.

Lemma np_unique_In_iff (v : Z) (l : list Z) : In v (np_unique l) <-> In v l.
Proof.
  induction l as [|x t IH]; simpl; [tauto|].
  rewrite insert_unique_In_iff. rewrite IH. split; intros [|]; auto.
Qed.

Lemma insert_unique_sorted (x : Z) (l : list Z) :
  StronglySorted Z.lt l -> StronglySorted Z.lt (insert_unique x l).
Proof.
  induction l as [|y t IH]; intros Hs; simpl.
  - repeat constructor.
  - apply StronglySorted_inv in Hs. destruct Hs as [Ht Hall].
    destruct (Z.ltb_spec x y).
    + constructor; [constructor; assumption|].
      constructor; [assumption|].
      eapply List.Forall_impl; [|exact Hall]. simpl. intros; lia.
    + destruct (Z.eqb_spec x y) as [->|Hne]; [constructor; assumption|].
      constructor; [auto|].
      apply List.Forall_forall. intros z Hz.
      apply insert_unique_In in Hz. destruct Hz as [->|Hz]; [lia|].
      rewrite List.Forall_forall in Hall. now apply Hall.
Qed.

Lemma np_unique_sorted (l : list Z) : StronglySorted Z.lt (np_unique l).
Proof.
  induction l as [|x t IH]; simpl; [constructor|].
  now apply insert_unique_sorted.
Qed.

Lemma sorted_nth (l : list Z) :
  StronglySorted Z.lt l ->
  forall (p q : nat) (x y : Z),
    (p < q)%nat -> nth_error l p = Some x -> nth_error l q = Some y -> x < y.
Proof.
  induction 1 as [|a t Ht IH Hall]; intros p q x y Hpq Hp Hq;
    [destruct p; discriminate|].
  destruct q as [|q]; [lia|]. cbn [nth_error] in Hq.
  destruct p as [|p]; cbn [nth_error] in Hp.
  - injection Hp as <-. rewrite List.Forall_forall in Hall. apply Hall.
    eapply nth_error_In. exact Hq.
  - apply (IH p q); [lia|assumption|assumption].
Qed.

(** Position of a value in [np.unique]: ordered as the values are. *)
Lemma np_unique_nth_order (l : list Z) (p q : nat) (x y : Z) :
  nth_error (np_unique l) p = Some x -> nth_error (np_unique l) q = Some y ->
  (x <= y <-> (p <= q)%nat) /\ (x < y <-> (p < q)%nat).
Proof.
  intros Hp Hq. pose proof (sorted_nth _ (np_unique_sorted l)) as Hs.
  assert (Heq : p = q -> x = y) by (intros ->; congruence).
  destruct (Nat.lt_trichotomy p q) as [Hlt|[->|Hgt]].
  - specialize (Hs p q x y Hlt Hp Hq). lia.
  - specialize (Heq eq_refl). lia.
  - specialize (Hs q p y x Hgt Hq Hp). lia.
Qed.

(** Entry [p] of a slice with bounds that are not negative. *)
Lemma py_slice_nth {A : Type} (l : list A) (a b : Z) (p : nat) :
  0 <= a -> 0 <= b ->
  nth_error (py_slice l a b) p
  = if Z.of_nat p <? b - a then nth_error l (Z.to_nat a + p) else None.
Proof.
  intros Ha Hb. unfold py_slice, py_bound.
  destruct (Z.ltb_spec a 0); [lia|]. destruct (Z.ltb_spec b 0); [lia|].
  set (len := Z.of_nat (List.length l)).
  rewrite nth_error_firstn, nth_error_skipn.
  destruct (Nat.ltb_spec p (Z.to_nat (Z.min b len - Z.min a len)));
    destruct (Z.ltb_spec (Z.of_nat p) (b - a)); try reflexivity.
  - f_equal. lia.
  - exfalso. lia.
  - symmetry. apply nth_error_None. unfold len in *. lia.
Qed.

Section Slices.
Variables (uniq : list Z) (K : Z).
Hypothesis HK : 1 <= K.

Lemma evt_ids_nth (j : Z) (p : nat) :
  0 <= j ->
  nth_error (evt_ids_of_file uniq K j) p
  = if Z.of_nat p <? K then nth_error uniq (Z.to_nat (j * K) + p) else None.
Proof.
  intros Hj. unfold evt_ids_of_file. rewrite py_slice_nth by nia.
  replace ((j + 1) * K - j * K) with K by lia. reflexivity.
Qed.

Lemma evt_ids_nonempty_iff (j : Z) :
  0 <= j ->
  (evt_ids_of_file uniq K j <> [] <-> j * K < Z.of_nat (List.length uniq)).
Proof.
  intros Hj. pose proof (evt_ids_nth j 0 Hj) as H0.
  destruct (Z.ltb_spec (Z.of_nat 0) K); [|lia].
  rewrite Nat.add_0_r in H0. split.
  - intros Hne. destruct (evt_ids_of_file uniq K j) as [|x t]; [congruence|].
    cbn [nth_error] in H0. symmetry in H0.
    assert (Hlt : (Z.to_nat (j * K) < List.length uniq)%nat)
      by (apply nth_error_Some; congruence).
    nia.
  - intros Hlt Hnil. rewrite Hnil in H0. cbn [nth_error] in H0. symmetry in H0.
    apply nth_error_None in H0. nia.
Qed.

Lemma last_nth_error {A : Type} (l : list A) (d : A) :
  l <> [] -> nth_error l (List.length l - 1) = Some (List.last l d).
Proof.
  induction l as [|x t IH]; [congruence|]. intros _.
  destruct t as [|y t']; [reflexivity|].
  change (List.last (x :: y :: t') d) with (List.last (y :: t') d).
  rewrite <- IH by discriminate. cbn [List.length].
  replace (S (S (List.length t')) - 1)%nat with (S (S (List.length t') - 1))
    by lia.
  reflexivity.
Qed.

Lemma evt_ids_length (j : Z) :
  0 <= j ->
  Z.of_nat (List.length (evt_ids_of_file uniq K j))
  = Z.max 0 (Z.min K (Z.of_nat (List.length uniq) - j * K)).
Proof.
  intros Hj. unfold evt_ids_of_file, py_slice, py_bound.
  destruct (Z.ltb_spec (j * K) 0); [nia|].
  destruct (Z.ltb_spec ((j + 1) * K) 0); [nia|].
  rewrite length_firstn, length_skipn. nia.
Qed.

(** The last id of a file, by its position in [np.unique]. *)
Lemma last_id_nth (j : Z) :
  0 <= j -> j * K < Z.of_nat (List.length uniq) ->
  nth_error uniq
    (Z.to_nat (Z.min ((j + 1) * K) (Z.of_nat (List.length uniq)) - 1))
  = Some (last_id uniq K j).
Proof.
  intros Hj Hlt. unfold last_id.
  assert (Hne : evt_ids_of_file uniq K j <> [])
    by (apply evt_ids_nonempty_iff; assumption).
  rewrite <- (last_nth_error _ 0 Hne).
  pose proof (evt_ids_length j Hj) as Hlen.
  rewrite evt_ids_nth by assumption.
  destruct (Z.ltb_spec
              (Z.of_nat (List.length (evt_ids_of_file uniq K j) - 1)) K);
    [|lia].
  f_equal. lia.
Qed.

End Slices.

(** The ids a file claims are the values of [np.unique] between the last
    id of the file before (excluded) and its own last id (included). *)
Lemma claimed_by_value (ids : list Z) (K j : Z) (v : Z) :
  1 <= K -> 0 <= j -> j * K < Z.of_nat (List.length (np_unique ids)) ->
  In v ids ->
  (In v (evt_ids_of_file (np_unique ids) K j)
   <-> (j = 0 \/ last_id (np_unique ids) K (j - 1) < v)
       /\ v <= last_id (np_unique ids) K j).
Proof.
  intros HK Hj Hlt Hin.
  set (uniq := np_unique ids) in *. set (U := Z.of_nat (List.length uniq)) in *.
  apply np_unique_In_iff in Hin. fold uniq in Hin.
  apply In_nth_error in Hin. destruct Hin as [p Hp].
  assert (HpU : Z.of_nat p < U)
    by (unfold U; apply Nat2Z.inj_lt; apply nth_error_Some; congruence).
  pose proof (last_id_nth uniq K HK j Hj Hlt) as Hlast. fold U in Hlast.
  assert (Hmem : In v (evt_ids_of_file uniq K j)
                 <-> j * K <= Z.of_nat p < (j + 1) * K).
  { split.
    - intros Hc. apply In_nth_error in Hc. destruct Hc as [p' Hp'].
      rewrite (evt_ids_nth uniq K HK j p' Hj) in Hp'.
      destruct (Z.ltb_spec (Z.of_nat p') K); [|discriminate].
      destruct (np_unique_nth_order ids _ _ _ _ Hp Hp') as [Hle _].
      destruct (np_unique_nth_order ids _ _ _ _ Hp' Hp) as [Hle' _].
      assert (p = (Z.to_nat (j * K) + p')%nat) by lia. nia.
    - intros Hr. apply (nth_error_In _ (p - Z.to_nat (j * K))).
      rewrite (evt_ids_nth uniq K HK j _ Hj).
      destruct (Z.ltb_spec (Z.of_nat (p - Z.to_nat (j * K))) K); [|nia].
      replace (Z.to_nat (j * K) + (p - Z.to_nat (j * K)))%nat with p by nia.
      exact Hp. }
  rewrite Hmem.
  destruct (np_unique_nth_order ids _ _ _ _ Hp Hlast) as [Hle _].
  rewrite Hle.
  destruct (Z.eq_dec j 0) as [->|Hj0].
  - split; [intros; split; [now left|nia]|]. intros [_ Hb]. nia.
  - assert (Hprev : (j - 1) * K < U) by nia.
    pose proof (last_id_nth uniq K HK (j - 1) ltac:(lia) Hprev) as Hlp.
    fold U in Hlp.
    destruct (np_unique_nth_order ids _ _ _ _ Hlp Hp) as [_ Hlt'].
    rewrite Hlt'. split.
    + intros Hr. split; [right; nia|nia].
    + intros [[?|Hb] Hc]; [contradiction|]. nia.
Qed.

(** When no id exceeds [n_events], a file that ends with the id [n_events]
    leaves nothing for a next file. *)
Lemma nothing_after_n_events (ids : list Z) (n_events K j : Z) :
  1 <= K -> 0 <= j -> j * K < Z.of_nat (List.length (np_unique ids)) ->
  (forall id : Z, In id ids -> id <= n_events) ->
  last_id (np_unique ids) K j = n_events ->
  evt_ids_of_file (np_unique ids) K (j + 1) = [].
Proof.
  intros HK Hj Hlt Hmax Hlast.
  destruct (evt_ids_of_file (np_unique ids) K (j + 1)) as [|x t] eqn:Hnext;
    [reflexivity|exfalso].
  assert (Hne : evt_ids_of_file (np_unique ids) K (j + 1) <> [])
    by (rewrite Hnext; discriminate).
  apply (evt_ids_nonempty_iff _ K HK) in Hne; [|lia].
  pose proof (last_id_nth _ K HK j Hj Hlt) as Hl.
  pose proof (evt_ids_nth (np_unique ids) K HK (j + 1) 0 ltac:(lia)) as H0.
  rewrite Hnext in H0. cbn [nth_error] in H0.
  destruct (Z.ltb_spec (Z.of_nat 0) K); [|lia]. symmetry in H0.
  destruct (np_unique_nth_order ids _ _ _ _ Hl H0) as [_ Hord].
  assert (Hx : x <= n_events).
  { apply Hmax. apply np_unique_In_iff. eapply nth_error_In. exact H0. }
  assert (last_id (np_unique ids) K j < x) by (apply Hord; lia).
  lia.
Qed.

(** The per-file counts telescope. *)
Lemma write_loop_total_events (filename : string) (ids uniq : list Z)
    (n_events K start_event_id start_file_id : Z) :
  forall (fuel : nat) (i prev start : Z) (shards : list shard),
    0 <= i ->
    write_loop fuel filename ids uniq n_events K start_event_id start_file_id
               i prev start = Some (Ok shards) ->
    shards <> [] ->
    evt_ids_of_file uniq K (i + Z.of_nat (List.length shards)) = [] ->
    n_events_total shards
    = if i =? 0 then n_events else n_events - (prev + 1) + start_event_id.
Proof.
  induction fuel as [|fuel IH]; intros i prev start shards Hi Hrun Hne Hend;
    [discriminate|].
  pose proof Hrun as Hrun0.
  simpl in Hrun.
  destruct (evt_ids_of_file uniq K i) as [|first rest] eqn:Hthis.
  { injection Hrun as <-. congruence. }
  destruct (argwhere (List.last (first :: rest) first) ids) as [|t0 ts];
    [discriminate|].
  set (last := List.last (first :: rest) first) in *.
  destruct (last =? n_events).
  { injection Hrun as <-. cbn [List.length] in Hend.
    replace (i + Z.of_nat 1) with (i + 1) in Hend by lia.
    rewrite Hend. unfold n_events_total. cbn.
    destruct (i =? 0); cbn; lia. }
  destruct (write_loop fuel filename ids uniq n_events K start_event_id
              start_file_id (i + 1) _ _) as [[rest'|?]|] eqn:Hrec;
    try discriminate.
  injection Hrun as <-.
  cbn [List.length] in Hend.
  replace (i + Z.of_nat (S (List.length rest')))
    with (i + 1 + Z.of_nat (List.length rest')) in Hend by lia.
  destruct rest' as [|sh1 rest''].
  - cbn [List.length] in Hend. rewrite Z.add_0_r in Hend. rewrite Hend.
    unfold n_events_total. cbn. destruct (i =? 0); cbn; lia.
  - assert (Hnext : evt_ids_of_file uniq K (i + 1) <> []).
    { destruct (write_loop_shards _ _ _ _ _ _ _ _ _ _ _ _ Hrec 0%nat sh1 eq_refl)
        as (_ & _ & _ & Hn). now rewrite Z.add_0_r in Hn. }
    assert (Hi1 : 0 <= i + 1) by lia.
    assert (Hne1 : sh1 :: rest'' <> []) by discriminate.
    specialize (IH _ _ _ _ Hi1 Hrec Hne1 Hend).
    destruct (Z.eqb_spec (i + 1) 0); [lia|].
    unfold n_events_total in *. cbn [map fold_right] in *.
    cbn [shard_n_events]. rewrite IH.
    destruct (evt_ids_of_file uniq K (i + 1)); [congruence|].
    cbn [is_empty]. rewrite andb_false_r.
    destruct (i =? 0); lia.
Qed.

(** ** Reading a part number back *)

Lemma read_digits_zeros (k : nat) (s : string) :
  read_digits (zeros k ++ s) = read_digits s.
Proof.
  induction k as [|k IH]; [reflexivity|].
  change (zeros (S k) ++ s)%string with (String "0" (zeros k ++ s)).
  rewrite <- IH. unfold read_digits. cbn [NilEmpty.uint_of_string].
  destruct (NilEmpty.uint_of_string (zeros k ++ s)) as [d|]; reflexivity.
Qed.

Lemma read_digits_decimal (n : N) : read_digits (decimal n) = Some n.
Proof.
  unfold read_digits, decimal.
  assert (Hnil : N.to_uint n <> Decimal.Nil).
  { destruct n as [|p]; [discriminate|]. apply DecimalPos.Unsigned.to_uint_nonnil. }
  pose proof (NilZero.usu _ Hnil) as Hu.
  unfold NilZero.uint_of_string in Hu.
  destruct (NilZero.string_of_uint (N.to_uint n)) as [|c t]; [discriminate|].
  rewrite Hu. cbn [option_map]. f_equal. apply DecimalN.Unsigned.of_to.
Qed.

Lemma read_format_04 (z : Z) : read_04 (format_04 z) = Some z.
Proof.
  unfold format_04, zfill. destruct (Z.ltb_spec z 0).
  - cbn [read_04]. rewrite read_digits_zeros, read_digits_decimal.
    cbn [option_map]. f_equal. lia.
  - pose proof (read_digits_zeros (4 - String.length (decimal (Z.to_N z)))
                  (decimal (Z.to_N z))) as Hr.
    rewrite read_digits_decimal in Hr.
    destruct (zeros _ ++ decimal (Z.to_N z))%string as [|c t] eqn:Hs.
    { unfold read_04. rewrite Hr. cbn [option_map]. f_equal. lia. }
    unfold read_04.
    destruct (Ascii.eqb_spec c "-") as [->|Hc].
    + unfold read_digits in Hr. cbn [NilEmpty.uint_of_string] in Hr.
      destruct (NilEmpty.uint_of_string t); discriminate.
    + replace (match c with
               | "-"%char => option_map (fun n : N => - Z.of_N n) (read_digits t)
               | _ => option_map Z.of_N (read_digits (String c t))
               end)
        with (option_map Z.of_N (read_digits (String c t))).
      * rewrite Hr. cbn [option_map]. f_equal. lia.
      * destruct c as [[] [] [] [] [] [] [] []]; try reflexivity.
        exfalso. apply Hc. reflexivity.
Qed.

Lemma format_04_inj (a b : Z) : format_04 a = format_04 b -> a = b.
Proof.
  intros Heq. pose proof (read_format_04 a) as Ha.
  rewrite Heq, read_format_04 in Ha. congruence.
Qed.

Lemma append_inj_r (p a b : string) : (p ++ a = p ++ b)%string -> a = b.
Proof.
  induction p as [|c p IH]; [trivial|]. cbn. intros Heq.
  injection Heq as Heq. auto.
Qed.

Lemma append_length_ne (p c : string) (s : string) :
  (p ++ String "." s)%string <> p.
Proof.
  intros Heq. assert (Hlen : String.length (p ++ String "." s) = String.length p)
    by now rewrite Heq.
  clear Heq. induction p as [|c0 p IH]; [discriminate|].
  apply IH. change (S (String.length (p ++ String "." s)) = S (String.length p))
    in Hlen. now injection Hlen.
Qed.

Lemma part_name_inj (filename : string) (n_events K start_file_id i j : Z) :
  0 <= i -> 0 <= j ->
  part_name filename n_events K start_file_id i
  = part_name filename n_events K start_file_id j ->
  i = j.
Proof.
  intros Hi Hj. unfold part_name.
  destruct (K <? n_events).
  - rewrite !orb_true_r. intros Heq. apply append_inj_r in Heq.
    apply (append_inj_r ".part") in Heq. apply format_04_inj in Heq. lia.
  - rewrite !orb_false_r.
    destruct (Z.ltb_spec 0 i); destruct (Z.ltb_spec 0 j).
    + intros Heq. apply append_inj_r in Heq.
      apply (append_inj_r ".part") in Heq. apply format_04_inj in Heq. lia.
    + intros Heq. exfalso. revert Heq. apply (append_length_ne filename filename).
    + intros Heq. exfalso. symmetry in Heq. revert Heq.
      apply (append_length_ne filename filename).
    + intros _. lia.
Qed.

Lemma claimed_by_position (ids : list Z) (K j : Z) (p : nat) (v : Z) :
  1 <= K -> 0 <= j ->
  nth_error (np_unique ids) p = Some v ->
  (In v (evt_ids_of_file (np_unique ids) K j)
   <-> j * K <= Z.of_nat p < (j + 1) * K).
Proof.
  intros HK Hj Hp. split.
  - intros Hc. apply In_nth_error in Hc. destruct Hc as [p' Hp'].
    rewrite (evt_ids_nth _ K HK j p' Hj) in Hp'.
    destruct (Z.ltb_spec (Z.of_nat p') K); [|discriminate].
    destruct (np_unique_nth_order ids _ _ _ _ Hp Hp') as [Hle _].
    destruct (np_unique_nth_order ids _ _ _ _ Hp' Hp) as [Hle' _].
    assert (p = (Z.to_nat (j * K) + p')%nat) by lia. nia.
  - intros Hr. apply (nth_error_In _ (p - Z.to_nat (j * K))).
    rewrite (evt_ids_nth _ K HK j _ Hj).
    destruct (Z.ltb_spec (Z.of_nat (p - Z.to_nat (j * K))) K); [|nia].
    replace (Z.to_nat (j * K) + (p - Z.to_nat (j * K)))%nat with p by nia.
    exact Hp.
Qed.

Lemma np_unique_nonempty (l : list Z) : l <> [] -> np_unique l <> [].
Proof.
  destruct l as [|x t]; [congruence|]. intros _ Hnil.
  assert (Hin : In x (np_unique (x :: t))) by (apply np_unique_In_iff; now left).
  rewrite Hnil in Hin. contradiction.
Qed.

Section WriterRuns.
Variables (filename : string) (ids : list Z) (n_events : Z)
          (start_event_id n_events_per_file : option Z) (start_file_id : Z)
          (shards : list shard).

Local Abbreviation K :=
  (match n_events_per_file with Some k => k | None => n_events end).
Local Abbreviation s0 :=
  (match start_event_id with Some s => s | None => 0 end).
Local Abbreviation uniq := (np_unique ids).

Hypothesis Hrun :
  write_events_to_hdf5 filename ids n_events start_event_id
    n_events_per_file start_file_id = Some (Ok shards).

Lemma writer_loop_run :
  ids <> []
  /\ write_loop (S (List.length ids)) filename ids uniq n_events K s0
       start_file_id 0 0 0 = Some (Ok shards).
Proof.
  unfold write_events_to_hdf5 in Hrun.
  destruct ids as [|x t]; [discriminate|]. split; [discriminate|exact Hrun].
Qed.

Lemma writer_shard (j : nat) (sh : shard) :
  nth_error shards j = Some sh ->
  evt_ids_of_file uniq K (Z.of_nat j) <> []
  /\ shard_filename sh = part_name filename n_events K start_file_id (Z.of_nat j)
  /\ shard_evt_id_last sh = last_id uniq K (Z.of_nat j)
  /\ shard_start_index sh
     = match j with
       | O => 0
       | S j' => match nth_error shards j' with
                 | Some sh' => shard_stop_index sh'
                 | None => 0
                 end
       end
  /\ 1 <= shard_stop_index sh <= Z.of_nat (List.length ids)
  /\ nth_error ids (Z.to_nat (shard_stop_index sh - 1))
     = Some (shard_evt_id_last sh)
  /\ (forall k : nat, (Z.to_nat (shard_stop_index sh - 1) < k)%nat ->
                      nth_error ids k <> Some (shard_evt_id_last sh))
  /\ ((S j < List.length shards)%nat -> shard_evt_id_last sh <> n_events).
Proof.
  intros Hj. destruct writer_loop_run as [_ Hloop].
  destruct (write_loop_shards _ _ _ _ _ _ _ _ _ _ _ _ Hloop j sh Hj)
    as (Hn & _ & _ & Hne).
  destruct (write_loop_ranges _ _ _ _ _ _ _ _ _ _ _ _ Hloop j sh Hj)
    as (A & B & _ & D & E & F & G).
  rewrite Z.add_0_l in *. repeat (split; [assumption|]). exact G.
Qed.

Lemma writer_stop :
  evt_ids_of_file uniq K (Z.of_nat (List.length shards)) = []
  \/ (exists j : nat,
         List.length shards = S j /\ last_id uniq K (Z.of_nat j) = n_events).
Proof.
  destruct writer_loop_run as [_ Hloop].
  destruct (write_loop_stop _ _ _ _ _ _ _ _ _ _ _ _ Hloop) as [H|(j & H1 & H2)].
  - left. now rewrite Z.add_0_l in H.
  - right. exists j. now rewrite Z.add_0_l in H2.
Qed.

Hypothesis HK : 1 <= K.

Lemma writer_shard_position (j : nat) (sh : shard) :
  nth_error shards j = Some sh ->
  Z.of_nat j * K < Z.of_nat (List.length uniq).
Proof.
  intros Hj. destruct (writer_shard j sh Hj) as (Hne & _).
  apply (evt_ids_nonempty_iff uniq K HK); [lia|exact Hne].
Qed.

(** With ordered rows, the rows of a file are those of the ids it claims. *)
Lemma writer_rows_by_id (j : nat) (sh : shard) (k : nat) (id : Z) :
  nondecreasing ids = true ->
  nth_error shards j = Some sh ->
  nth_error ids k = Some id ->
  (shard_start_index sh <= Z.of_nat k < shard_stop_index sh
   <-> In id (evt_ids_of_file uniq K (Z.of_nat j))).
Proof.
  intros Hsorted Hj Hk.
  pose proof (nondecreasing_nth ids Hsorted) as Hord.
  destruct (writer_shard j sh Hj) as (_ & _ & B & A & D & E & F & _).
  pose proof (writer_shard_position j sh Hj) as Hpos.
  rewrite (claimed_by_value ids K (Z.of_nat j) id HK ltac:(lia) Hpos
             (nth_error_In _ _ Hk)).
  rewrite <- B.
  assert (Hhigh : Z.of_nat k < shard_stop_index sh <-> id <= shard_evt_id_last sh).
  { split.
    - intros Hlt. apply (Hord k (Z.to_nat (shard_stop_index sh - 1))); [lia|exact Hk|exact E].
    - intros Hle. destruct (Z_lt_le_dec (Z.of_nat k) (shard_stop_index sh)) as [|Hge];
        [assumption|exfalso].
      assert (Hge' : shard_evt_id_last sh <= id)
        by (apply (Hord (Z.to_nat (shard_stop_index sh - 1)) k); [lia|exact E|exact Hk]).
      apply (F k); [lia|]. rewrite Hk. f_equal. lia. }
  destruct j as [|j'].
  - rewrite A. split.
    + intros [_ Hlt]. split; [now left|now apply Hhigh].
    + intros [_ Hle]. split; [lia|now apply Hhigh].
  - destruct (nth_error shards j') as [sh'|] eqn:Hj'.
    2:{ apply nth_error_None in Hj'.
        assert (S j' < List.length shards)%nat
          by (apply nth_error_Some; congruence). lia. }
    destruct (writer_shard j' sh' Hj') as (_ & _ & B' & _ & D' & E' & F' & _).
    replace (Z.of_nat (S j') - 1) with (Z.of_nat j') by lia.
    rewrite <- B'. rewrite A.
    assert (Hlow : shard_stop_index sh' <= Z.of_nat k
                   <-> shard_evt_id_last sh' < id).
    { split.
      - intros Hge.
        assert (shard_evt_id_last sh' <= id)
          by (apply (Hord (Z.to_nat (shard_stop_index sh' - 1)) k);
              [lia|exact E'|exact Hk]).
        assert (shard_evt_id_last sh' <> id).
        { intros Heq. apply (F' k); [lia|]. now rewrite Hk, Heq. }
        lia.
      - intros Hlt. destruct (Z_lt_le_dec (Z.of_nat k) (shard_stop_index sh'))
          as [Hk'|]; [exfalso|assumption].
        assert (id <= shard_evt_id_last sh')
          by (apply (Hord k (Z.to_nat (shard_stop_index sh' - 1)));
              [lia|exact Hk|exact E']).
        lia. }
    split.
    + intros [H1 H2]. split; [right; now apply Hlow|now apply Hhigh].
    + intros [[H1|H1] H2]; [lia|]. split; [now apply Hlow|now apply Hhigh].
Qed.

Hypothesis Hmax : forall id : Z, In id ids -> id <= n_events.

(** When no id exceeds [n_events] the loop ends because the ids ran out. *)
Lemma writer_exhausts :
  shards <> []
  /\ evt_ids_of_file uniq K (Z.of_nat (List.length shards)) = [].
Proof.
  assert (Hend : evt_ids_of_file uniq K (Z.of_nat (List.length shards)) = []).
  { destruct writer_stop as [H|(j & Hlen & Hlast)]; [exact H|].
    rewrite Hlen. replace (Z.of_nat (S j)) with (Z.of_nat j + 1) by lia.
    destruct (nth_error shards j) as [sh|] eqn:Hj.
    2:{ apply nth_error_None in Hj. lia. }
    apply (nothing_after_n_events ids n_events K (Z.of_nat j) HK); try lia;
      try assumption.
    exact (writer_shard_position j sh Hj). }
  split; [|exact Hend].
  destruct writer_loop_run as [Hne _].
  pose proof (np_unique_nonempty ids Hne) as Hu.
  intros Hnil. rewrite Hnil in Hend. cbn [List.length] in Hend.
  change (Z.of_nat 0) with 0 in Hend.
  assert (H0 : 0 * K < Z.of_nat (List.length uniq)).
  { destruct uniq; [congruence|]. cbn [List.length]. lia. }
  apply (evt_ids_nonempty_iff uniq K HK 0) in H0; [|lia].
  contradiction.
Qed.

End WriterRuns.

Lemma sample_shards_run :
  write_events_to_hdf5 "f" sample_ids 3 (Some 1) (Some 2) 0
  = Some (Ok sample_shards).
Proof. vm_compute. reflexivity. Qed.

(** X1: the files of one call of [write_events_to_hdf5] cut the table into
    consecutive row ranges. The first file starts at row 0 and every later
    file starts at the stop index of the file before it. The stop index of
    a file is one past the last row that holds the last event group id of
    the file: it lies between 1 and the number of rows, the row before it
    holds that id and no later row does. *)
Theorem shard_rows_are_consecutive :
  forall (filename : string) (ids : list Z) (n_events : Z)
         (start_event_id n_events_per_file : option Z) (start_file_id : Z)
         (shards : list shard),
    write_events_to_hdf5 filename ids n_events start_event_id
      n_events_per_file start_file_id = Some (Ok shards) ->
    (forall sh : shard, nth_error shards 0 = Some sh -> shard_start_index sh = 0)
    /\ (forall (j : nat) (sh sh' : shard),
           nth_error shards j = Some sh -> nth_error shards (S j) = Some sh' ->
           shard_start_index sh' = shard_stop_index sh)
    /\ (forall (j : nat) (sh : shard),
           nth_error shards j = Some sh ->
           1 <= shard_stop_index sh <= Z.of_nat (List.length ids)
           /\ nth_error ids (Z.to_nat (shard_stop_index sh - 1))
              = Some (shard_evt_id_last sh)
           /\ (forall k : nat,
                  (Z.to_nat (shard_stop_index sh - 1) < k)%nat ->
                  nth_error ids k <> Some (shard_evt_id_last sh))).
Proof.
  intros filename ids n_events start_event_id n_events_per_file start_file_id
         shards Hrun.
  split; [|split].
  - intros sh H0.
    destruct (writer_shard _ _ _ _ _ _ _ Hrun 0%nat sh H0) as (_ & _ & _ & A & _).
    exact A.
  - intros j sh sh' Hj Hj'.
    destruct (writer_shard _ _ _ _ _ _ _ Hrun (S j) sh' Hj')
      as (_ & _ & _ & A & _).
    rewrite Hj in A. exact A.
  - intros j sh Hj.
    destruct (writer_shard _ _ _ _ _ _ _ Hrun j sh Hj)
      as (_ & _ & _ & _ & D & E & F & _).
    split; [exact D|split; [exact E|exact F]].
Qed.

Lemma shard_rows_are_consecutive_witness :
  shard_start_index (mkShard "f.part0001" 1 3 3 3 3 5)
  = shard_stop_index (mkShard "f.part0000" 2 3 1 2 0 3).
Proof.
  exact (proj1 (proj2 (shard_rows_are_consecutive "f" sample_ids 3 (Some 1)
                         (Some 2) 0 sample_shards eq_refl))
           0%nat _ _ eq_refl eq_refl).
Defined.

(** X2: when the rows are ordered by event group id and at least one event
    goes into a file, the row range of every file written holds exactly the
    rows whose event group id is among the ids the file claims (its slice
    of [np.unique]); so no event group is split between two files. *)
Theorem shard_rows_are_the_claimed_groups :
  forall (filename : string) (ids : list Z) (n_events : Z)
         (start_event_id n_events_per_file : option Z) (start_file_id : Z)
         (shards : list shard) (j : nat) (sh : shard) (k : nat) (id : Z),
    let K := match n_events_per_file with Some k => k | None => n_events end in
    write_events_to_hdf5 filename ids n_events start_event_id
      n_events_per_file start_file_id = Some (Ok shards) ->
    1 <= K ->
    nondecreasing ids = true ->
    nth_error shards j = Some sh ->
    nth_error ids k = Some id ->
    (shard_start_index sh <= Z.of_nat k < shard_stop_index sh
     <-> In id (evt_ids_of_file (np_unique ids) K (Z.of_nat j))).
Proof.
  intros filename ids n_events start_event_id n_events_per_file start_file_id
         shards j sh k id K Hrun HK Hsorted Hj Hk.
  exact (writer_rows_by_id _ _ _ _ _ _ _ Hrun HK j sh k id Hsorted Hj Hk).
Qed.

Lemma shard_rows_are_the_claimed_groups_witness :
  0 <= 2 < 3 <-> In 2 (evt_ids_of_file (np_unique sample_ids) 2 0).
Proof.
  exact (shard_rows_are_the_claimed_groups "f" sample_ids 3 (Some 1) (Some 2) 0
           sample_shards 0%nat (mkShard "f.part0000" 2 3 1 2 0 3) 2%nat 2
           eq_refl ltac:(lia) eq_refl eq_refl eq_refl).
Defined.

(** X3: when, in addition, no event group id exceeds
    [attributes['n_events']], every row of the table is written to exactly
    one file. *)
Theorem every_row_is_written_once :
  forall (filename : string) (ids : list Z) (n_events : Z)
         (start_event_id n_events_per_file : option Z) (start_file_id : Z)
         (shards : list shard) (k : nat) (id : Z),
    let K := match n_events_per_file with Some k => k | None => n_events end in
    write_events_to_hdf5 filename ids n_events start_event_id
      n_events_per_file start_file_id = Some (Ok shards) ->
    1 <= K ->
    nondecreasing ids = true ->
    (forall id' : Z, In id' ids -> id' <= n_events) ->
    nth_error ids k = Some id ->
    exists (j : nat) (sh : shard),
      nth_error shards j = Some sh
      /\ shard_start_index sh <= Z.of_nat k < shard_stop_index sh
      /\ (forall (j' : nat) (sh' : shard),
             nth_error shards j' = Some sh' ->
             shard_start_index sh' <= Z.of_nat k < shard_stop_index sh' ->
             j' = j).
Proof.
  intros filename ids n_events start_event_id n_events_per_file start_file_id
         shards k id K Hrun HK Hsorted Hmax Hk.
  destruct (writer_exhausts _ _ _ _ _ _ _ Hrun HK Hmax) as [_ Hend].
  fold K in Hend.
  assert (Hin : In id (np_unique ids))
    by (apply np_unique_In_iff; eapply nth_error_In; exact Hk).
  apply In_nth_error in Hin. destruct Hin as [p Hp].
  assert (HpU : (p < List.length (np_unique ids))%nat)
    by (apply nth_error_Some; congruence).
  set (j := Z.to_nat (Z.of_nat p / K)).
  assert (Hdiv : Z.of_nat j * K <= Z.of_nat p < (Z.of_nat j + 1) * K).
  { unfold j. rewrite Z2Nat.id by (apply Z.div_pos; lia).
    pose proof (Z.div_mod (Z.of_nat p) K ltac:(lia)).
    pose proof (Z.mod_pos_bound (Z.of_nat p) K ltac:(lia)). nia. }
  assert (Hjlen : (j < List.length shards)%nat).
  { destruct (Nat.lt_ge_cases j (List.length shards)) as [|Hge]; [assumption|].
    exfalso.
    assert (Hno : ~ Z.of_nat (List.length shards) * K
                    < Z.of_nat (List.length (np_unique ids))).
    { intros Hlt.
      apply (evt_ids_nonempty_iff (np_unique ids) K HK) in Hlt; [|lia].
      contradiction. }
    nia. }
  destruct (nth_error shards j) as [sh|] eqn:Hj.
  2:{ apply nth_error_None in Hj. lia. }
  exists j, sh. split; [exact Hj|]. split.
  - apply (writer_rows_by_id _ _ _ _ _ _ _ Hrun HK j sh k id Hsorted Hj Hk).
    apply (claimed_by_position ids K (Z.of_nat j) p id HK); [lia|exact Hp|exact Hdiv].
  - intros j' sh' Hj' Hrange.
    apply (writer_rows_by_id _ _ _ _ _ _ _ Hrun HK j' sh' k id Hsorted Hj' Hk)
      in Hrange.
    apply (claimed_by_position ids K (Z.of_nat j') p id HK) in Hrange;
      [|lia|exact Hp].
    nia.
Qed.

Lemma every_row_is_written_once_witness :
  exists (j : nat) (sh : shard),
    nth_error sample_shards j = Some sh
    /\ shard_start_index sh <= 4 < shard_stop_index sh
    /\ (forall (j' : nat) (sh' : shard),
           nth_error sample_shards j' = Some sh' ->
           shard_start_index sh' <= 4 < shard_stop_index sh' ->
           j' = j).
Proof.
  refine (every_row_is_written_once "f" sample_ids 3 (Some 1) (Some 2) 0
            sample_shards 4%nat 3 eq_refl _ eq_refl _ eq_refl).
  - lia.
  - intros id' Hin. simpl in Hin. lia.
Defined.

(** X4: when at least one event goes into a file and no event group id
    exceeds [attributes['n_events']], the [n_events] attributes of the
    files of one call add up to [attributes['n_events']]. *)
Theorem shard_counts_add_up :
  forall (filename : string) (ids : list Z) (n_events : Z)
         (start_event_id n_events_per_file : option Z) (start_file_id : Z)
         (shards : list shard),
    let K := match n_events_per_file with Some k => k | None => n_events end in
    write_events_to_hdf5 filename ids n_events start_event_id
      n_events_per_file start_file_id = Some (Ok shards) ->
    1 <= K ->
    (forall id : Z, In id ids -> id <= n_events) ->
    n_events_total shards = n_events.
Proof.
  intros filename ids n_events start_event_id n_events_per_file start_file_id
         shards K Hrun HK Hmax.
  destruct (writer_exhausts _ _ _ _ _ _ _ Hrun HK Hmax) as [Hne Hend].
  destruct (writer_loop_run _ _ _ _ _ _ _ Hrun) as [_ Hloop].
  exact (write_loop_total_events _ _ _ _ _ _ _ _ _ _ _ _ (Z.le_refl 0) Hloop
           Hne Hend).
Qed.

Lemma shard_counts_add_up_witness : n_events_total sample_shards = 3.
Proof.
  refine (shard_counts_add_up "f" sample_ids 3 (Some 1) (Some 2) 0
            sample_shards eq_refl _ _).
  - lia.
  - intros id Hin. simpl in Hin. lia.
Defined.

(** X5: under the same two conditions the number of files written is the
    number of distinct event group ids divided by [n_events_per_file],
    rounded up. *)
Theorem number_of_files :
  forall (filename : string) (ids : list Z) (n_events : Z)
         (start_event_id n_events_per_file : option Z) (start_file_id : Z)
         (shards : list shard),
    let K := match n_events_per_file with Some k => k | None => n_events end in
    write_events_to_hdf5 filename ids n_events start_event_id
      n_events_per_file start_file_id = Some (Ok shards) ->
    1 <= K ->
    (forall id : Z, In id ids -> id <= n_events) ->
    Z.of_nat (List.length shards)
    = (Z.of_nat (List.length (np_unique ids)) + K - 1) / K.
Proof.
  intros filename ids n_events start_event_id n_events_per_file start_file_id
         shards K Hrun HK Hmax.
  destruct (writer_exhausts _ _ _ _ _ _ _ Hrun HK Hmax) as [Hne Hend].
  fold K in Hend.
  set (U := Z.of_nat (List.length (np_unique ids))).
  set (n := List.length shards) in *.
  assert (Hup : U <= Z.of_nat n * K).
  { destruct (Z_lt_le_dec (Z.of_nat n * K) U) as [Hlt|]; [exfalso|assumption].
    apply (evt_ids_nonempty_iff (np_unique ids) K HK) in Hlt; [|lia].
    contradiction. }
  assert (Hn : (0 < n)%nat) by (unfold n; destruct shards; [congruence|simpl; lia]).
  destruct (nth_error shards (n - 1)) as [sh|] eqn:Hj.
  2:{ apply nth_error_None in Hj. fold n in Hj. lia. }
  pose proof (writer_shard_position _ _ _ _ _ _ _ Hrun HK (n - 1)%nat sh Hj)
    as Hlow.
  fold K U in Hlow.
  apply (Z.div_unique_pos _ _ _ (U + K - 1 - Z.of_nat n * K)); nia.
Qed.

Lemma number_of_files_witness :
  Z.of_nat (List.length sample_shards)
  = (Z.of_nat (List.length (np_unique sample_ids)) + 2 - 1) / 2.
Proof.
  refine (number_of_files "f" sample_ids 3 (Some 1) (Some 2) 0
            sample_shards eq_refl _ _).
  - lia.
  - intros id Hin. simpl in Hin. lia.
Defined.

(** X6: no two files of one call of [write_events_to_hdf5] have the same
    name: the part numbers printed by ["{:04}".format] differ whenever the
    file indices differ, and the unsuffixed name is not a suffixed one. *)
Theorem shard_names_are_distinct :
  forall (filename : string) (ids : list Z) (n_events : Z)
         (start_event_id n_events_per_file : option Z) (start_file_id : Z)
         (shards : list shard) (i j : nat) (sh sh' : shard),
    write_events_to_hdf5 filename ids n_events start_event_id
      n_events_per_file start_file_id = Some (Ok shards) ->
    nth_error shards i = Some sh ->
    nth_error shards j = Some sh' ->
    shard_filename sh = shard_filename sh' ->
    i = j.
Proof.
  intros filename ids n_events start_event_id n_events_per_file start_file_id
         shards i j sh sh' Hrun Hi Hj Heq.
  destruct (writer_shard _ _ _ _ _ _ _ Hrun i sh Hi) as (_ & Hn & _).
  destruct (writer_shard _ _ _ _ _ _ _ Hrun j sh' Hj) as (_ & Hn' & _).
  rewrite Hn, Hn' in Heq. apply part_name_inj in Heq; lia.
Qed.

Lemma shard_names_are_distinct_witness : 1%nat = 1%nat.
Proof.
  exact (shard_names_are_distinct "f" sample_ids 3 (Some 1) (Some 2) 0
           sample_shards 1%nat 1%nat _ _ eq_refl eq_refl eq_refl eq_refl).
Defined.

(** X7: [write_events_to_hdf5] stops after the first file whose last event
    group id equals [attributes['n_events']]: a file is followed by another
    exactly when its last id differs from that number and ids are left for
    the next file. *)
Theorem writer_stops_at_n_events :
  forall (filename : string) (ids : list Z) (n_events : Z)
         (start_event_id n_events_per_file : option Z) (start_file_id : Z)
         (shards : list shard) (j : nat) (sh : shard),
    let K := match n_events_per_file with Some k => k | None => n_events end in
    write_events_to_hdf5 filename ids n_events start_event_id
      n_events_per_file start_file_id = Some (Ok shards) ->
    nth_error shards j = Some sh ->
    ((S j < List.length shards)%nat
     <-> shard_evt_id_last sh <> n_events
         /\ evt_ids_of_file (np_unique ids) K (Z.of_nat j + 1) <> []).
Proof.
  intros filename ids n_events start_event_id n_events_per_file start_file_id
         shards j sh K Hrun Hj.
  destruct (writer_shard _ _ _ _ _ _ _ Hrun j sh Hj)
    as (_ & _ & B & _ & _ & _ & _ & G).
  split.
  - intros Hlt. split; [now apply G|].
    destruct (nth_error shards (S j)) as [sh'|] eqn:Hj'.
    2:{ apply nth_error_None in Hj'. lia. }
    destruct (writer_shard _ _ _ _ _ _ _ Hrun (S j) sh' Hj') as (Hne & _).
    replace (Z.of_nat j + 1) with (Z.of_nat (S j)) by lia. exact Hne.
  - intros [Hlast Hnext].
    assert (Hjlt : (j < List.length shards)%nat)
      by (apply nth_error_Some; congruence).
    destruct (Nat.lt_ge_cases (S j) (List.length shards)) as [|Hge];
      [assumption|exfalso].
    assert (Hlen : List.length shards = S j) by lia.
    destruct (writer_stop _ _ _ _ _ _ _ Hrun) as [Hnil|(j0 & Hl & Hn)].
    + rewrite Hlen in Hnil.
      replace (Z.of_nat (S j)) with (Z.of_nat j + 1) in Hnil by lia.
      contradiction.
    + assert (j0 = j) by lia. subst j0. rewrite <- B in Hn. contradiction.
Qed.

Lemma writer_stops_at_n_events_witness :
  (2 < List.length sample_shards)%nat
  <-> 3 <> 3 /\ evt_ids_of_file (np_unique sample_ids) 2 (Z.of_nat 1 + 1) <> [].
Proof.
  exact (writer_stops_at_n_events "f" sample_ids 3 (Some 1) (Some 2) 0
           sample_shards 1%nat (mkShard "f.part0001" 1 3 3 3 3 5)
           eq_refl eq_refl).
Defined.

(** ** More on the vertex generation *)

Lemma getitem_Some (d : gmap string pynum) (k : string) (v : pynum) :
  d !! k = Some v -> getitem d k = Ok v.
Proof. unfold getitem. now intros ->. Qed.

Lemma getitem_None (d : gmap string pynum) (k : string) :
  d !! k = None -> getitem d k = Raise (KeyError k).
Proof. unfold getitem. now intros ->. Qed.

Lemma contains_true (d : gmap string pynum) (k : string) :
  contains d k = true -> exists v : pynum, d !! k = Some v.
Proof. unfold contains. destruct (d !! k) as [v|]; [now exists v|discriminate]. Qed.

Lemma contains_false (d : gmap string pynum) (k : string) :
  contains d k = false -> d !! k = None.
Proof. unfold contains. destruct (d !! k); [discriminate|reflexivity]. Qed.

Section VertexRuns.
Context `{Extern}.

Lemma uniform_range (low high : Q) (n : Z) (w : world) :
  (forall k : nat, 0 <= rand_unit k <= 1)%Q ->
  (low <= high)%Q ->
  Forall (fun x => low <= x <= high)%Q
         (map (fun u => low + (high - low) * u)%Q (variates w n)).
Proof.
  intros Hu Hle. apply List.Forall_forall. intros x Hx.
  apply in_map_iff in Hx. destruct Hx as (u & <- & Hin).
  unfold variates in Hin. apply in_map_iff in Hin.
  destruct Hin as (k & <- & _). specialize (Hu (drawn w + k)%nat).
  set (u := rand_unit (drawn w + k)) in *. nra.
Qed.

(** The box branch without secondary interactions. *)
Lemma box_run (volume attributes : gmap string pynum) (n : Z) (w : world)
    (xmin xmax ymin ymax zmin zmax : pynum) :
  volume !! "fiducial_xmin" = Some xmin ->
  volume !! "fiducial_xmax" = Some xmax ->
  volume !! "fiducial_ymin" = Some ymin ->
  volume !! "fiducial_ymax" = Some ymax ->
  volume !! "fiducial_zmin" = Some zmin ->
  volume !! "fiducial_zmax" = Some zmax ->
  0 <= n ->
  let fiducial :=
    <["fiducial_zmax" := zmax]> (<["fiducial_zmin" := zmin]>
    (<["fiducial_ymin" := ymin]> (<["fiducial_ymax" := ymax]>
    (<["fiducial_xmin" := xmin]> (<["fiducial_xmax" := xmax]> attributes))))) in
  let V := ((float_of xmax - float_of xmin) * (float_of ymax - float_of ymin)
            * (float_of zmax - float_of zmin))%Q in
  let w1 := w ++ [Uniform (float_of xmin) (float_of xmax) n] in
  let w2 := w1 ++ [Uniform (float_of ymin) (float_of ymax) n] in
  generate_vertex_positions_box volume false attributes (PInt n) w
  = (Ok (<["volume" := PFloat V]> (<["zmax" := zmax]> (<["zmin" := zmin]>
         (<["ymax" := ymax]> (<["ymin" := ymin]> (<["xmax" := xmax]>
         (<["xmin" := xmin]> fiducial)))))),
         (map (fun u => float_of xmin + (float_of xmax - float_of xmin) * u)%Q
              (variates w n),
          map (fun u => float_of ymin + (float_of ymax - float_of ymin) * u)%Q
              (variates w1 n),
          map (fun u => float_of zmin + (float_of zmax - float_of zmin) * u)%Q
              (variates w2 n))),
     w2 ++ [Uniform (float_of zmin) (float_of zmax) n]).
Proof.
  intros Hxmin Hxmax Hymin Hymax Hzmin Hzmax Hn fiducial V w1 w2.
  unfold generate_vertex_positions_box.
  cbv beta iota zeta delta [bind lift ret].
  rewrite (getitem_Some _ _ _ Hxmax), (getitem_Some _ _ _ Hxmin),
    (getitem_Some _ _ _ Hymax), (getitem_Some _ _ _ Hymin),
    (getitem_Some _ _ _ Hzmin), (getitem_Some _ _ _ Hzmax).
  fold fiducial.
  rewrite (getitem_Some fiducial "fiducial_xmin" xmin)
    by (unfold fiducial; rewrite !lookup_insert_ne by discriminate;
        apply lookup_insert_eq).
  rewrite (getitem_Some fiducial "fiducial_xmax" xmax)
    by (unfold fiducial; rewrite !lookup_insert_ne by discriminate;
        apply lookup_insert_eq).
  rewrite (getitem_Some fiducial "fiducial_ymin" ymin)
    by (unfold fiducial; rewrite !lookup_insert_ne by discriminate;
        apply lookup_insert_eq).
  rewrite (getitem_Some fiducial "fiducial_ymax" ymax)
    by (unfold fiducial; rewrite !lookup_insert_ne by discriminate;
        apply lookup_insert_eq).
  rewrite (getitem_Some fiducial "fiducial_zmin" zmin)
    by (unfold fiducial; rewrite !lookup_insert_ne by discriminate;
        apply lookup_insert_eq).
  rewrite (getitem_Some fiducial "fiducial_zmax" zmax)
    by (unfold fiducial; apply lookup_insert_eq).
  rewrite (uniform_int_ok _ _ n w Hn). fold w1.
  rewrite (uniform_int_ok _ _ n w1 Hn). fold w2.
  rewrite (uniform_int_ok _ _ n w2 Hn).
  reflexivity.
Qed.

End VertexRuns.

(** X8: for a box volume and no secondary interactions,
    [generate_vertex_positions] returns [n_events] vertices, every one of
    them inside the fiducial box when the bounds are ordered (the uniform
    variates lie between 0 and 1). It makes three draws of [n_events]
    variates, stores the fiducial bounds as [xmin] ... [zmax] and their
    product as [volume], and leaves [n_events] as it was. *)
Theorem box_vertices_lie_in_the_box :
  forall (E : Extern) (volume attributes : gmap string pynum) (n : Z)
         (w : world) (xmin xmax ymin ymax zmin zmax : pynum),
    (forall k : nat, 0 <= rand_unit k <= 1)%Q ->
    contains volume "fiducial_rmax" = false ->
    volume !! "fiducial_xmin" = Some xmin ->
    volume !! "fiducial_xmax" = Some xmax ->
    volume !! "fiducial_ymin" = Some ymin ->
    volume !! "fiducial_ymax" = Some ymax ->
    volume !! "fiducial_zmin" = Some zmin ->
    volume !! "fiducial_zmax" = Some zmax ->
    (float_of xmin <= float_of xmax)%Q ->
    (float_of ymin <= float_of ymax)%Q ->
    (float_of zmin <= float_of zmax)%Q ->
    attributes !! "n_events" = Some (PInt n) ->
    0 <= n ->
    exists (attrs' : gmap string pynum) (vx vy vz : list Q),
      generate_vertex_positions volume false attributes w
      = (Ok (attrs', Some (vx, vy, vz)),
         w ++ [ Uniform (float_of xmin) (float_of xmax) n;
                Uniform (float_of ymin) (float_of ymax) n;
                Uniform (float_of zmin) (float_of zmax) n ])
      /\ List.length vx = Z.to_nat n
      /\ List.length vy = Z.to_nat n
      /\ List.length vz = Z.to_nat n
      /\ Forall (fun x => float_of xmin <= x <= float_of xmax)%Q vx
      /\ Forall (fun y => float_of ymin <= y <= float_of ymax)%Q vy
      /\ Forall (fun z => float_of zmin <= z <= float_of zmax)%Q vz
      /\ attrs' !! "xmin" = Some xmin /\ attrs' !! "xmax" = Some xmax
      /\ attrs' !! "ymin" = Some ymin /\ attrs' !! "ymax" = Some ymax
      /\ attrs' !! "zmin" = Some zmin /\ attrs' !! "zmax" = Some zmax
      /\ attrs' !! "volume"
         = Some (PFloat ((float_of xmax - float_of xmin)
                         * (float_of ymax - float_of ymin)
                         * (float_of zmax - float_of zmin)))
      /\ attrs' !! "n_events" = Some (PInt n).
Proof.
  intros E volume attributes n w xmin xmax ymin ymax zmin zmax Hu Hcyl
         Hxmin Hxmax Hymin Hymax Hzmin Hzmax Hx Hy Hz Hn_events Hn.
  pose proof (box_run volume attributes n w xmin xmax ymin ymax zmin zmax
                Hxmin Hxmax Hymin Hymax Hzmin Hzmax Hn) as Hrun.
  cbv zeta in Hrun.
  unfold generate_vertex_positions. cbv beta iota zeta delta [bind lift ret].
  rewrite (getitem_Some _ _ _ Hn_events), Hcyl.
  assert (Hbox : contains volume "fiducial_xmax" = true)
    by (unfold contains; now rewrite Hxmax).
  rewrite Hbox, Hrun. cbn [fst snd].
  eexists _, _, _, _. split.
  { rewrite <- !app_assoc. reflexivity. }
  split; [now rewrite length_map, variates_length|].
  split; [now rewrite length_map, variates_length|].
  split; [now rewrite length_map, variates_length|].
  split; [now apply uniform_range|].
  split; [now apply uniform_range|].
  split; [now apply uniform_range|].
  split; [rewrite !lookup_insert_ne by discriminate; apply lookup_insert_eq|].
  split; [rewrite !lookup_insert_ne by discriminate; apply lookup_insert_eq|].
  split; [rewrite !lookup_insert_ne by discriminate; apply lookup_insert_eq|].
  split; [rewrite !lookup_insert_ne by discriminate; apply lookup_insert_eq|].
  split; [rewrite !lookup_insert_ne by discriminate; apply lookup_insert_eq|].
  split; [rewrite !lookup_insert_ne by discriminate; apply lookup_insert_eq|].
  split; [apply lookup_insert_eq|].
  rewrite !lookup_insert_ne by discriminate. exact Hn_events.
Qed.

Lemma box_vertices_lie_in_the_box_witness :
  exists (attrs' : gmap string pynum) (vx vy vz : list Q),
    @generate_vertex_positions sample_extern sample_box false three_events []
    = (Ok (attrs', Some (vx, vy, vz)),
       [Uniform 0 1 3; Uniform 0 1 3; Uniform (-1) 0 3])
    /\ Forall (fun z => -1 <= z <= 0)%Q vz.
Proof.
  destruct (box_vertices_lie_in_the_box sample_extern sample_box three_events
              3 [] (PInt 0) (PInt 1) (PInt 0) (PInt 1) (PInt (-1)) (PInt 0))
    as (attrs' & vx & vy & vz & Hrun & _ & _ & _ & _ & _ & Hz & _);
    try reflexivity; try lia; try (unfold Qle; simpl; lia).
  exists attrs', vx, vy, vz. split; [exact Hrun|exact Hz].
Defined.

Ltac vstep H :=
  cbv beta iota zeta delta [bind lift ret raise fst snd negb] in H;
  match type of H with
  | context [match getitem ?d ?k with _ => _ end] =>
      destruct (getitem d k); [|discriminate H]
  | context [match py_div ?a ?b with _ => _ end] =>
      destruct (py_div a b); [|discriminate H]
  | context [match ?d !! ?k with _ => _ end] => destruct (d !! k)
  | context [match np_random_uniform ?a ?b ?c ?w with _ => _ end] =>
      destruct (np_random_uniform a b c w) as [[?|?] ?]; [|discriminate H]
  end.

Lemma initial_attributes_keys (n_events start_event_id : Z)
    (Emin Emax thetamin thetamax phimin phimax : Q) (k : string) :
  k <> "phimax"%string -> k <> "phimin"%string -> k <> "thetamax"%string ->
  k <> "thetamin"%string -> k <> "Emax"%string -> k <> "Emin"%string ->
  k <> "n_events"%string -> k <> "start_event_id"%string ->
  initial_attributes n_events start_event_id Emin Emax thetamin thetamax
    phimin phimax !! k = None.
Proof.
  intros. unfold initial_attributes.
  rewrite !lookup_insert_ne by congruence. apply lookup_empty.
Qed.

Lemma initial_attributes_n_events (n_events start_event_id : Z)
    (Emin Emax thetamin thetamax phimin phimax : Q) :
  initial_attributes n_events start_event_id Emin Emax thetamin thetamax
    phimin phimax !! "n_events" = Some (PInt n_events).
Proof.
  unfold initial_attributes.
  rewrite !lookup_insert_ne by discriminate. apply lookup_insert_eq.
Qed.

Section VertexErrors.
Context `{Extern}.

(** The cylinder branch returns only with secondary interactions on, no
    [full_rmax] in the volume and a [zmax] entry already in the attributes. *)
Lemma cylinder_returns_only_if (volume attributes : gmap string pynum)
    (proposal : bool) (w w' : world)
    (r : gmap string pynum * option (list Q * list Q * list Q)) :
  contains volume "fiducial_rmax" = true ->
  generate_vertex_positions volume proposal attributes w = (Ok r, w') ->
  proposal = true /\ volume !! "full_rmax" = None
  /\ attributes !! "zmax" <> None.
Proof.
  intros Hc Hrun. destruct r as [attrs' pos].
  destruct (contains_true _ _ Hc) as [rmax Hr].
  assert (Hp : proposal = true /\ volume !! "full_rmax" = None).
  { unfold generate_vertex_positions in Hrun.
    cbv beta iota zeta delta [bind lift ret raise] in Hrun.
    destruct (getitem attributes "n_events") as [n_events|]; [|discriminate].
    rewrite Hc in Hrun.
    destruct (generate_vertex_positions_cylinder _ _ _ _ _)
      as [[[a [[vx vy] vz]]|e] w1] eqn:Hcyl; [|discriminate].
    pose proof (cylinder_lengths _ _ _ _ _ _ _ _ _ _ Hcyl) as (_ & _ & ->).
    split; [reflexivity|].
    destruct (volume !! "full_rmax") as [v|] eqn:Hfull; [exfalso|reflexivity].
    unfold generate_vertex_positions_cylinder in Hcyl. rewrite Hfull in Hcyl.
    repeat vstep Hcyl;
      cbv beta iota zeta delta [bind lift ret raise fst snd negb] in Hcyl;
      discriminate Hcyl. }
  destruct Hp as [-> Hfull]. split; [reflexivity|]. split; [exact Hfull|].
  exact (proj2 (cylinder_rmax_stays_fiducial _ _ _ _ _ _ _ Hr Hfull Hrun)).
Qed.

(** Without secondary interactions the cylinder branch ends at the read of
    [full_rmax], before any draw. *)
Lemma cylinder_without_proposal (volume attributes : gmap string pynum)
    (n_events : pynum) (w : world) (rmax zmin zmax : pynum) :
  volume !! "fiducial_rmax" = Some rmax ->
  volume !! "fiducial_zmin" = Some zmin ->
  volume !! "fiducial_zmax" = Some zmax ->
  generate_vertex_positions_cylinder volume false attributes n_events w
  = (Raise (UnboundLocalError "full_rmax"), w).
Proof.
  intros Hrmax Hzmin Hzmax. unfold generate_vertex_positions_cylinder.
  cbv beta iota zeta delta [bind lift ret raise].
  rewrite (getitem_Some _ _ _ Hrmax), (getitem_Some _ _ _ Hzmin),
    (getitem_Some _ _ _ Hzmax).
  set (a0 := match volume !! "fiducial_rmin" with
             | Some v => <["fiducial_rmin" := v]> attributes
             | None => <["fiducial_rmin" := PInt 0]> attributes
             end).
  set (a3 := <["fiducial_zmax" := zmax]> _).
  assert (Hrmin : exists v, a3 !! "fiducial_rmin" = Some v).
  { unfold a3, a0. destruct (volume !! "fiducial_rmin"); eexists;
      rewrite !lookup_insert_ne by discriminate; apply lookup_insert_eq. }
  destruct Hrmin as [rmin Hrmin].
  rewrite (getitem_Some _ _ _ Hrmin).
  rewrite (getitem_Some a3 "fiducial_rmax" rmax)
    by (unfold a3; rewrite !lookup_insert_ne by discriminate;
        apply lookup_insert_eq).
  rewrite (getitem_Some a3 "fiducial_zmin" zmin)
    by (unfold a3; rewrite !lookup_insert_ne by discriminate;
        apply lookup_insert_eq).
  rewrite (getitem_Some a3 "fiducial_zmax" zmax)
    by (unfold a3; apply lookup_insert_eq).
  reflexivity.
Qed.

(** What the entry point does when the vertex generation fails or returns
    nothing, after its two direction draws. *)
Lemma eventlist_vertex_failure (filename : string) (n_events : Z)
    (Emin Emax : Q) (volume : gmap string pynum)
    (thetamin thetamax phimin phimax : Q) (start_event_id : Z)
    (flavor : list Z) (n_events_per_file : option Z) (spectrum : string)
    (deposited proposal : bool) (start_file_id : Z) (w w' : world)
    (r : res (gmap string pynum * option (list Q * list Q * list Q))) :
  0 <= n_events ->
  generate_vertex_positions volume proposal
    (initial_attributes n_events start_event_id Emin Emax thetamin thetamax
       phimin phimax)
    (w ++ [ Uniform phimin phimax n_events;
            Uniform (np_cos thetamax) (np_cos thetamin) n_events ])
  = (r, w') ->
  match r with
  | Ok (_, Some _) => True
  | Ok (_, None) =>
      generate_eventlist_cylinder filename n_events Emin Emax volume thetamin
        thetamax phimin phimax start_event_id flavor n_events_per_file
        spectrum deposited proposal start_file_id w
      = (Some (Raise TypeError), w')
  | Raise e =>
      generate_eventlist_cylinder filename n_events Emin Emax volume thetamin
        thetamax phimin phimax start_event_id flavor n_events_per_file
        spectrum deposited proposal start_file_id w
      = (Some (Raise e), w')
  end.
Proof.
  intros Hn Hvp.
  unfold generate_eventlist_cylinder, final_table, baseline_table.
  cbv beta iota zeta delta [bind lift ret raise].
  rewrite (uniform_int_ok _ _ n_events w Hn).
  rewrite (uniform_int_ok _ _ n_events _ Hn).
  rewrite <- app_assoc. cbn [app]. rewrite Hvp.
  destruct r as [[a [p|]]|e]; cbn [fst snd]; [exact I|reflexivity|reflexivity].
Qed.

End VertexErrors.

(** X9: with a cylinder volume (key [fiducial_rmax])
    [generate_vertex_positions] returns only when secondary interactions
    are on, the volume has no [full_rmax] and the attributes already hold
    [zmax]; the radius draw reads [full_rmax], assigned on that path only,
    and the log line reads [attributes['zmax']]. The attributes of
    [generate_eventlist_cylinder] have no [zmax] at that point, so every
    call with a cylinder volume ends with an exception and writes no file;
    without secondary interactions, a non-negative [n_events] and the keys
    [fiducial_zmin] and [fiducial_zmax] it is the unbound local
    [full_rmax], after the two direction draws. *)
Theorem cylinder_volume_never_returns :
  forall (E : Extern) (volume : gmap string pynum),
    contains volume "fiducial_rmax" = true ->
    (forall (proposal : bool) (attributes : gmap string pynum) (w w' : world)
            (r : gmap string pynum * option (list Q * list Q * list Q)),
        generate_vertex_positions volume proposal attributes w = (Ok r, w') ->
        proposal = true /\ volume !! "full_rmax" = None
        /\ attributes !! "zmax" <> None)
    /\ (forall (filename : string) (n_events : Z) (Emin Emax : Q)
               (thetamin thetamax phimin phimax : Q) (start_event_id : Z)
               (flavor : list Z) (n_events_per_file : option Z)
               (spectrum : string) (deposited proposal : bool)
               (start_file_id : Z) (w : world),
           exists (e : exn) (w' : world),
             generate_eventlist_cylinder filename n_events Emin Emax volume
               thetamin thetamax phimin phimax start_event_id flavor
               n_events_per_file spectrum deposited proposal start_file_id w
             = (Some (Raise e), w'))
    /\ (forall (filename : string) (n_events : Z) (Emin Emax : Q)
               (thetamin thetamax phimin phimax : Q) (start_event_id : Z)
               (flavor : list Z) (n_events_per_file : option Z)
               (spectrum : string) (deposited : bool)
               (start_file_id : Z) (w : world),
           0 <= n_events ->
           contains volume "fiducial_zmin" = true ->
           contains volume "fiducial_zmax" = true ->
           generate_eventlist_cylinder filename n_events Emin Emax volume
             thetamin thetamax phimin phimax start_event_id flavor
             n_events_per_file spectrum deposited false start_file_id w
           = (Some (Raise (UnboundLocalError "full_rmax")),
              w ++ [ Uniform phimin phimax n_events;
                     Uniform (np_cos thetamax) (np_cos thetamin) n_events ])).
Proof.
  intros E volume Hc. split; [|split].
  - intros proposal attributes w w' r Hrun.
    exact (cylinder_returns_only_if _ _ _ _ _ _ Hc Hrun).
  - intros. unfold generate_eventlist_cylinder, final_table, baseline_table.
    cbv beta iota zeta delta [bind lift ret raise].
    destruct (np_random_uniform phimin phimax _ w) as [[az|e] w0];
      [|eexists _, _; reflexivity].
    destruct (np_random_uniform _ _ _ w0) as [[u|e] w1];
      [|eexists _, _; reflexivity].
    destruct (generate_vertex_positions _ _ _ w1) as [[r|e] w2] eqn:Hvp;
      [exfalso|eexists _, _; reflexivity].
    destruct (cylinder_returns_only_if _ _ _ _ _ _ Hc Hvp) as (_ & _ & Hz).
    apply Hz. apply initial_attributes_keys; discriminate.
  - intros filename n_events Emin Emax thetamin thetamax phimin phimax
           start_event_id flavor n_events_per_file spectrum deposited
           start_file_id w Hn Hzmin Hzmax.
    destruct (contains_true _ _ Hc) as [rmax Hr].
    destruct (contains_true _ _ Hzmin) as [zmin Hzmin'].
    destruct (contains_true _ _ Hzmax) as [zmax Hzmax'].
    refine (eventlist_vertex_failure filename n_events Emin Emax volume
              thetamin thetamax phimin phimax start_event_id flavor
              n_events_per_file spectrum deposited false start_file_id w _
              (Raise (UnboundLocalError "full_rmax")) Hn _).
    unfold generate_vertex_positions.
    cbv beta iota zeta delta [bind lift ret raise].
    rewrite (getitem_Some _ _ _ (initial_attributes_n_events _ _ _ _ _ _ _ _)).
    rewrite Hc.
    now rewrite (cylinder_without_proposal _ _ _ _ _ _ _ Hr Hzmin' Hzmax').
Qed.

Lemma cylinder_volume_never_returns_witness :
  @generate_eventlist_cylinder sample_extern "out.hdf5" 3 1 2 sample_cylinder
    0 1 0 1 1 [12; -12; 14] None "log_uniform" false false 0 []
  = (Some (Raise (UnboundLocalError "full_rmax")),
     [Uniform 0 1 3; Uniform 1 1 3]).
Proof.
  exact (proj2 (proj2 (cylinder_volume_never_returns sample_extern
                         sample_cylinder eq_refl))
           "out.hdf5"%string 3 1%Q 2%Q 0%Q 1%Q 0%Q 1%Q 1 [12; -12; 14] None
           "log_uniform"%string false 0 [] ltac:(lia) eq_refl eq_refl).
Defined.

Lemma py_int_ge_1 (x : Q) : (1 <= x)%Q -> 1 <= py_int x.
Proof.
  intros Hx. unfold py_int.
  assert (H0 : Qle_bool 0 x = true) by (apply Qle_bool_iff; lra).
  rewrite H0. change 1 with (Qfloor 1). now apply Qfloor_resp_le.
Qed.

Lemma Qdiv_ge_1 (a b : Q) : (0 < b)%Q -> (b <= a)%Q -> (1 <= a / b)%Q.
Proof.
  intros Hb Hab. apply Qle_shift_div_l; [exact Hb|]. now rewrite Qmult_1_l.
Qed.

Lemma py_div_nonzero (a b : Q) : (0 < b)%Q -> py_div a b = Ok (a / b)%Q.
Proof.
  intros Hb. unfold py_div.
  destruct (Qeq_bool b 0) eqn:Heq; [|reflexivity].
  apply Qeq_bool_iff in Heq. lra.
Qed.

Section BoxRuns.
Context `{Extern}.
Variables (volume attributes : gmap string pynum)
          (xmin xmax ymin ymax zmin zmax : pynum).
Hypothesis Hxmin : volume !! "fiducial_xmin" = Some xmin.
Hypothesis Hxmax : volume !! "fiducial_xmax" = Some xmax.
Hypothesis Hymin : volume !! "fiducial_ymin" = Some ymin.
Hypothesis Hymax : volume !! "fiducial_ymax" = Some ymax.
Hypothesis Hzmin : volume !! "fiducial_zmin" = Some zmin.
Hypothesis Hzmax : volume !! "fiducial_zmax" = Some zmax.

Local Abbreviation fiducial :=
  (<["fiducial_zmax" := zmax]> (<["fiducial_zmin" := zmin]>
   (<["fiducial_ymin" := ymin]> (<["fiducial_ymax" := ymax]>
   (<["fiducial_xmin" := xmin]> (<["fiducial_xmax" := xmax]> attributes)))))).

Lemma fiducial_other (k : string) :
  k <> "fiducial_zmax"%string -> k <> "fiducial_zmin"%string ->
  k <> "fiducial_ymin"%string -> k <> "fiducial_ymax"%string ->
  k <> "fiducial_xmin"%string -> k <> "fiducial_xmax"%string ->
  fiducial !! k = attributes !! k.
Proof. intros. now rewrite !lookup_insert_ne by congruence. Qed.

(** The first part of the box branch: the fiducial bounds are stored and
    read back. *)
Lemma box_prefix (proposal : bool) (n_events : pynum) (w : world) :
  generate_vertex_positions_box volume proposal attributes n_events w
  = bind
      (if proposal then
         bind
           (if negb (contains volume "full_xmax") then
              bind (lift (getitem fiducial "Emax")) (fun Emax =>
                let tau_95_length := get_tau_95_length (float_of Emax) in
                ret (PFloat (float_of xmin - tau_95_length)%Q,
                     PFloat (float_of xmax + tau_95_length)%Q,
                     PFloat (float_of ymin - tau_95_length)%Q,
                     PFloat (float_of ymax + tau_95_length)%Q,
                     PFloat (float_of zmin - tau_95_length)%Q,
                     zmax))
            else
              bind (lift (getitem fiducial "full_xmin")) (fun xmin' =>
              bind (lift (getitem fiducial "full_xmax")) (fun xmax' =>
              bind (lift (getitem fiducial "full_ymin")) (fun ymin' =>
              bind (lift (getitem fiducial "full_ymax")) (fun ymax' =>
              bind (lift (getitem fiducial "full_zmin")) (fun zmin' =>
              bind (lift (getitem fiducial "full_zmax")) (fun zmax' =>
              ret (xmin', xmax', ymin', ymax', zmin', zmax'))))))))
           (fun b =>
              let '(xmin', xmax', ymin', ymax', zmin', zmax') := b in
              let volume_full :=
                ((float_of xmax' - float_of xmin')
                 * (float_of ymax' - float_of ymin')
                 * (float_of zmax' - float_of zmin'))%Q in
              bind (lift (py_div volume_full
                            ((float_of xmax - float_of xmin)
                             * (float_of ymax - float_of ymin)
                             * (float_of zmax - float_of zmin))%Q))
                   (fun factor => ret (b, pynum_scale n_events (py_int factor))))
       else ret ((xmin, xmax, ymin, ymax, zmin, zmax), n_events))
      (fun st =>
         let '((xmin, xmax, ymin, ymax, zmin, zmax), n_events) := st in
         let attributes := <["xmin" := xmin]> fiducial in
         let attributes := <["xmax" := xmax]> attributes in
         let attributes := <["ymin" := ymin]> attributes in
         let attributes := <["ymax" := ymax]> attributes in
         let attributes := <["zmin" := zmin]> attributes in
         let attributes := <["zmax" := zmax]> attributes in
         let V :=
           ((float_of xmax - float_of xmin) * (float_of ymax - float_of ymin)
            * (float_of zmax - float_of zmin))%Q in
         let attributes := <["volume" := PFloat V]> attributes in
         bind (np_random_uniform (float_of xmin) (float_of xmax) n_events)
           (fun xx =>
         bind (np_random_uniform (float_of ymin) (float_of ymax) n_events)
           (fun yy =>
         bind (np_random_uniform (float_of zmin) (float_of zmax) n_events)
           (fun zz => ret (attributes, (xx, yy, zz))))))
      w.
Proof.
  unfold generate_vertex_positions_box.
  cbv beta iota zeta delta [bind lift ret].
  rewrite (getitem_Some _ _ _ Hxmax), (getitem_Some _ _ _ Hxmin),
    (getitem_Some _ _ _ Hymax), (getitem_Some _ _ _ Hymin),
    (getitem_Some _ _ _ Hzmin), (getitem_Some _ _ _ Hzmax).
  rewrite (getitem_Some fiducial "fiducial_xmin" xmin)
    by (rewrite !lookup_insert_ne by discriminate; apply lookup_insert_eq).
  rewrite (getitem_Some fiducial "fiducial_xmax" xmax)
    by (rewrite !lookup_insert_ne by discriminate; apply lookup_insert_eq).
  rewrite (getitem_Some fiducial "fiducial_ymin" ymin)
    by (rewrite !lookup_insert_ne by discriminate; apply lookup_insert_eq).
  rewrite (getitem_Some fiducial "fiducial_ymax" ymax)
    by (rewrite !lookup_insert_ne by discriminate; apply lookup_insert_eq).
  rewrite (getitem_Some fiducial "fiducial_zmin" zmin)
    by (rewrite !lookup_insert_ne by discriminate; apply lookup_insert_eq).
  rewrite (getitem_Some fiducial "fiducial_zmax" zmax)
    by (apply lookup_insert_eq).
  reflexivity.
Qed.

End BoxRuns.

(** X10: for a box volume without [full_xmax] and with secondary
    interactions on, [generate_vertex_positions] extends the fiducial box by
    the tau range on every side except the upper one in z, stores the
    extended bounds, and draws [n_events] times the integer part of
    (extended volume / fiducial volume) vertices; for a non-degenerate
    fiducial box and a tau range that is not negative this factor is at
    least 1. The attribute [n_events] keeps the requested number. *)
Theorem box_is_extended_for_secondaries :
  forall (E : Extern) (volume attributes : gmap string pynum) (n : Z)
         (w : world) (xmin xmax ymin ymax zmin zmax Emax : pynum),
    contains volume "fiducial_rmax" = false ->
    volume !! "fiducial_xmin" = Some xmin ->
    volume !! "fiducial_xmax" = Some xmax ->
    volume !! "fiducial_ymin" = Some ymin ->
    volume !! "fiducial_ymax" = Some ymax ->
    volume !! "fiducial_zmin" = Some zmin ->
    volume !! "fiducial_zmax" = Some zmax ->
    contains volume "full_xmax" = false ->
    attributes !! "n_events" = Some (PInt n) ->
    attributes !! "Emax" = Some Emax ->
    0 <= n ->
    (0 <= get_tau_95_length (float_of Emax))%Q ->
    (float_of xmin < float_of xmax)%Q ->
    (float_of ymin < float_of ymax)%Q ->
    (float_of zmin < float_of zmax)%Q ->
    let t := get_tau_95_length (float_of Emax) in
    let V_fiducial :=
      ((float_of xmax - float_of xmin) * (float_of ymax - float_of ymin)
       * (float_of zmax - float_of zmin))%Q in
    let V_full :=
      ((float_of xmax + t - (float_of xmin - t))
       * (float_of ymax + t - (float_of ymin - t))
       * (float_of zmax - (float_of zmin - t)))%Q in
    let k := py_int (V_full / V_fiducial) in
    1 <= k
    /\ exists (attrs' : gmap string pynum) (vx vy vz : list Q),
         generate_vertex_positions volume true attributes w
         = (Ok (attrs', Some (vx, vy, vz)),
            w ++ [ Uniform (float_of xmin - t) (float_of xmax + t) (n * k);
                   Uniform (float_of ymin - t) (float_of ymax + t) (n * k);
                   Uniform (float_of zmin - t) (float_of zmax) (n * k) ])
         /\ List.length vx = Z.to_nat (n * k)
         /\ List.length vy = Z.to_nat (n * k)
         /\ List.length vz = Z.to_nat (n * k)
         /\ attrs' !! "xmin" = Some (PFloat (float_of xmin - t))
         /\ attrs' !! "xmax" = Some (PFloat (float_of xmax + t))
         /\ attrs' !! "ymin" = Some (PFloat (float_of ymin - t))
         /\ attrs' !! "ymax" = Some (PFloat (float_of ymax + t))
         /\ attrs' !! "zmin" = Some (PFloat (float_of zmin - t))
         /\ attrs' !! "zmax" = Some zmax
         /\ attrs' !! "volume" = Some (PFloat V_full)
         /\ attrs' !! "n_events" = Some (PInt n).
Proof.
  intros E volume attributes n w xmin xmax ymin ymax zmin zmax Emax Hcyl
         Hxmin Hxmax Hymin Hymax Hzmin Hzmax Hfull Hn_events HEmax Hn Ht
         Hx Hy Hz t V_fiducial V_full k.
  fold t in Ht.
  assert (Hfid : (0 < V_fiducial)%Q).
  { unfold V_fiducial.
    apply Qmult_lt_0_compat; [apply Qmult_lt_0_compat|]; lra. }
  assert (Hxy : ((float_of xmax - float_of xmin) * (float_of ymax - float_of ymin)
                 <= (float_of xmax + t - (float_of xmin - t))
                    * (float_of ymax + t - (float_of ymin - t)))%Q) by nra.
  assert (Hxy0 : (0 < (float_of xmax - float_of xmin)
                      * (float_of ymax - float_of ymin))%Q)
    by (apply Qmult_lt_0_compat; lra).
  assert (Hge : (V_fiducial <= V_full)%Q) by (unfold V_fiducial, V_full; nra).
  assert (Hk : 1 <= k) by (apply py_int_ge_1, Qdiv_ge_1; assumption).
  split; [exact Hk|].
  assert (Hnk : 0 <= n * k) by nia.
  unfold generate_vertex_positions. cbv beta iota zeta delta [bind lift ret].
  rewrite (getitem_Some _ _ _ Hn_events), Hcyl.
  assert (Hbox : contains volume "fiducial_xmax" = true)
    by (unfold contains; now rewrite Hxmax).
  rewrite Hbox.
  rewrite (box_prefix volume attributes xmin xmax ymin ymax zmin zmax
             Hxmin Hxmax Hymin Hymax Hzmin Hzmax true (PInt n) w).
  rewrite Hfull. cbv beta iota zeta delta [bind lift ret negb].
  rewrite (getitem_Some _ "Emax" Emax)
    by (rewrite !lookup_insert_ne by discriminate; exact HEmax).
  fold t. cbn [float_of].
  fold V_fiducial. fold V_full.
  rewrite (py_div_nonzero _ _ Hfid). fold k. cbn [pynum_scale].
  rewrite (uniform_int_ok _ _ (n * k) w Hnk).
  rewrite (uniform_int_ok _ _ (n * k) _ Hnk).
  rewrite (uniform_int_ok _ _ (n * k) _ Hnk).
  cbn [fst snd].
  eexists _, _, _, _. split.
  { rewrite <- !app_assoc. reflexivity. }
  split; [now rewrite length_map, variates_length|].
  split; [now rewrite length_map, variates_length|].
  split; [now rewrite length_map, variates_length|].
  split; [rewrite !lookup_insert_ne by discriminate; apply lookup_insert_eq|].
  split; [rewrite !lookup_insert_ne by discriminate; apply lookup_insert_eq|].
  split; [rewrite !lookup_insert_ne by discriminate; apply lookup_insert_eq|].
  split; [rewrite !lookup_insert_ne by discriminate; apply lookup_insert_eq|].
  split; [rewrite !lookup_insert_ne by discriminate; apply lookup_insert_eq|].
  split; [rewrite !lookup_insert_ne by discriminate; apply lookup_insert_eq|].
  split; [apply lookup_insert_eq|].
  rewrite !lookup_insert_ne by discriminate. exact Hn_events.
Qed.

Lemma box_is_extended_for_secondaries_witness :
  1 <= py_int (((1 + 10 - (0 - 10)) * (1 + 10 - (0 - 10)) * (0 - (-1 - 10)))
               / ((1 - 0) * (1 - 0) * (0 - -1)))%Q.
Proof.
  refine (proj1 (box_is_extended_for_secondaries sample_extern sample_box
                   three_events_Emax 3 [] (PInt 0) (PInt 1) (PInt 0) (PInt 1)
                   (PInt (-1)) (PInt 0) (PFloat 2)
                   eq_refl eq_refl eq_refl eq_refl eq_refl eq_refl eq_refl
                   eq_refl eq_refl eq_refl _ _ _ _ _));
    try lia; try (unfold Qle; simpl; lia); try (unfold Qlt; simpl; lia).
Defined.

(** X11: a box volume that names [full_xmax] makes
    [generate_vertex_positions] read the full bounds from the attributes,
    not from the volume: with secondary interactions on and no [full_xmin]
    entry in the attributes it raises [KeyError('full_xmin')] before any
    draw. The attributes of [generate_eventlist_cylinder] never hold that
    entry, so such a call raises it after the two direction draws. *)
Theorem box_full_bounds_are_read_from_attributes :
  forall (E : Extern) (volume : gmap string pynum)
         (xmin xmax ymin ymax zmin zmax : pynum),
    contains volume "fiducial_rmax" = false ->
    volume !! "fiducial_xmin" = Some xmin ->
    volume !! "fiducial_xmax" = Some xmax ->
    volume !! "fiducial_ymin" = Some ymin ->
    volume !! "fiducial_ymax" = Some ymax ->
    volume !! "fiducial_zmin" = Some zmin ->
    volume !! "fiducial_zmax" = Some zmax ->
    contains volume "full_xmax" = true ->
    (forall (attributes : gmap string pynum) (n_events : pynum) (w : world),
        attributes !! "n_events" = Some n_events ->
        attributes !! "full_xmin" = None ->
        generate_vertex_positions volume true attributes w
        = (Raise (KeyError "full_xmin"), w))
    /\ (forall (filename : string) (n_events : Z) (Emin Emax : Q)
               (thetamin thetamax phimin phimax : Q) (start_event_id : Z)
               (flavor : list Z) (n_events_per_file : option Z)
               (spectrum : string) (deposited : bool)
               (start_file_id : Z) (w : world),
           0 <= n_events ->
           generate_eventlist_cylinder filename n_events Emin Emax volume
             thetamin thetamax phimin phimax start_event_id flavor
             n_events_per_file spectrum deposited true start_file_id w
           = (Some (Raise (KeyError "full_xmin")),
              w ++ [ Uniform phimin phimax n_events;
                     Uniform (np_cos thetamax) (np_cos thetamin) n_events ])).
Proof.
  intros E volume xmin xmax ymin ymax zmin zmax Hcyl Hxmin Hxmax Hymin Hymax
         Hzmin Hzmax Hfull.
  assert (Hvertex :
            forall (attributes : gmap string pynum) (n_events : pynum)
                   (w : world),
              attributes !! "n_events" = Some n_events ->
              attributes !! "full_xmin" = None ->
              generate_vertex_positions volume true attributes w
              = (Raise (KeyError "full_xmin"), w)).
  { intros attributes n_events w Hn Hnone.
    unfold generate_vertex_positions. cbv beta iota zeta delta [bind lift ret].
    rewrite (getitem_Some _ _ _ Hn), Hcyl.
    assert (Hbox : contains volume "fiducial_xmax" = true)
      by (unfold contains; now rewrite Hxmax).
    rewrite Hbox.
    rewrite (box_prefix volume attributes xmin xmax ymin ymax zmin zmax
               Hxmin Hxmax Hymin Hymax Hzmin Hzmax true n_events w).
    rewrite Hfull. cbv beta iota zeta delta [bind lift ret negb].
    rewrite (getitem_None _ "full_xmin")
      by (rewrite !lookup_insert_ne by discriminate; exact Hnone).
    reflexivity. }
  split; [exact Hvertex|].
  intros filename n_events Emin Emax thetamin thetamax phimin phimax
         start_event_id flavor n_events_per_file spectrum deposited
         start_file_id w Hn.
  refine (eventlist_vertex_failure filename n_events Emin Emax volume
            thetamin thetamax phimin phimax start_event_id flavor
            n_events_per_file spectrum deposited true start_file_id w _
            (Raise (KeyError "full_xmin")) Hn _).
  apply (Hvertex _ (PInt n_events)).
  - apply initial_attributes_n_events.
  - apply initial_attributes_keys; discriminate.
Qed.

Lemma box_full_bounds_are_read_from_attributes_witness :
  @generate_eventlist_cylinder sample_extern "out.hdf5" 3 1 2 sample_box_full
    0 1 0 1 1 [12; -12; 14] None "log_uniform" false true 0 []
  = (Some (Raise (KeyError "full_xmin")), [Uniform 0 1 3; Uniform 1 1 3]).
Proof.
  exact (proj2 (box_full_bounds_are_read_from_attributes sample_extern
                  sample_box_full (PInt 0) (PInt 1) (PInt 0) (PInt 1)
                  (PInt (-1)) (PInt 0)
                  eq_refl eq_refl eq_refl eq_refl eq_refl eq_refl eq_refl
                  eq_refl)
           "out.hdf5"%string 3 1%Q 2%Q 0%Q 1%Q 0%Q 1%Q 1 [12; -12; 14] None
           "log_uniform"%string false 0 [] ltac:(lia)).
Defined.

(** X12: for a volume dict that names neither [fiducial_rmax] nor
    [fiducial_xmax], [generate_vertex_positions] falls off its end: it
    returns nothing, draws nothing and leaves the attributes as they were.
    [generate_eventlist_cylinder] then fails to unpack the result: it
    raises a type error after the two direction draws and writes no
    file. *)
Theorem unknown_volume_is_a_type_error :
  forall (E : Extern) (volume : gmap string pynum),
    contains volume "fiducial_rmax" = false ->
    contains volume "fiducial_xmax" = false ->
    (forall (proposal : bool) (attributes : gmap string pynum)
            (n_events : pynum) (w : world),
        attributes !! "n_events" = Some n_events ->
        generate_vertex_positions volume proposal attributes w
        = (Ok (attributes, None), w))
    /\ (forall (filename : string) (n_events : Z) (Emin Emax : Q)
               (thetamin thetamax phimin phimax : Q) (start_event_id : Z)
               (flavor : list Z) (n_events_per_file : option Z)
               (spectrum : string) (deposited proposal : bool)
               (start_file_id : Z) (w : world),
           0 <= n_events ->
           generate_eventlist_cylinder filename n_events Emin Emax volume
             thetamin thetamax phimin phimax start_event_id flavor
             n_events_per_file spectrum deposited proposal start_file_id w
           = (Some (Raise TypeError),
              w ++ [ Uniform phimin phimax n_events;
                     Uniform (np_cos thetamax) (np_cos thetamin) n_events ])).
Proof.
  intros E volume Hcyl Hbox.
  assert (Hvertex :
            forall (proposal : bool) (attributes : gmap string pynum)
                   (n_events : pynum) (w : world),
              attributes !! "n_events" = Some n_events ->
              generate_vertex_positions volume proposal attributes w
              = (Ok (attributes, None), w)).
  { intros proposal attributes n_events w Hn.
    unfold generate_vertex_positions. cbv beta iota zeta delta [bind lift ret].
    now rewrite (getitem_Some _ _ _ Hn), Hcyl, Hbox. }
  split; [exact Hvertex|].
  intros filename n_events Emin Emax thetamin thetamax phimin phimax
         start_event_id flavor n_events_per_file spectrum deposited proposal
         start_file_id w Hn.
  refine (eventlist_vertex_failure filename n_events Emin Emax volume
            thetamin thetamax phimin phimax start_event_id flavor
            n_events_per_file spectrum deposited proposal start_file_id w _
            (Ok (_, None)) Hn _).
  apply (Hvertex _ _ (PInt n_events)). apply initial_attributes_n_events.
Qed.

Lemma unknown_volume_is_a_type_error_witness :
  @generate_eventlist_cylinder sample_extern "out.hdf5" 3 1 2 sample_sphere
    0 1 0 1 1 [12; -12; 14] None "log_uniform" false false 0 []
  = (Some (Raise TypeError), [Uniform 0 1 3; Uniform 1 1 3]).
Proof.
  exact (proj2 (unknown_volume_is_a_type_error sample_extern sample_sphere
                  eq_refl eq_refl)
           "out.hdf5"%string 3 1%Q 2%Q 0%Q 1%Q 0%Q 1%Q 1 [12; -12; 14] None
           "log_uniform"%string false false 0 [] ltac:(lia)).
Defined.

(** ** Energies and product positions *)

Section EnergyRuns.
Context `{Extern}.


End EnergyRuns.



(** X14: the position [get_product_position_time] gives a product lies on
    the track of the lepton: it is the vertex ([lepton_positions]) moved by
    the distance of the product along the direction handed to the
    propagator ([lepton_directions]), and the time is that distance over
    the speed of light. *)
Theorem product_lies_on_the_lepton_track :
  forall (E : Extern) (d : data_sets) (product : secondary_properties)
         (iE : nat) (pos dir : vec3),
    nth_error (lepton_positions d) iE = Some pos ->
    nth_error (lepton_directions d) iE = Some dir ->
    exists x y z : Q,
      get_product_position_time d product iE
      = Ok (x, y, z, (product_distance product / cspeed)%Q)
      /\ (x == vget pos 0 + product_distance product * vget dir 0)%Q
      /\ (y == vget pos 1 + product_distance product * vget dir 1)%Q
      /\ (z == vget pos 2 + product_distance product * vget dir 2)%Q.
Proof.
  intros E d product iE pos dir Hpos Hdir.
  unfold lepton_positions in Hpos. unfold lepton_directions in Hdir.
  rewrite nth_error_map, !nth_error_combine in Hpos.
  rewrite nth_error_map, nth_error_combine in Hdir.
  destruct (nth_error (xx d) iE) as [x0|] eqn:Hx; [|discriminate].
  destruct (nth_error (yy d) iE) as [y0|] eqn:Hy; [|discriminate].
  destruct (nth_error (zz d) iE) as [z0|] eqn:Hz; [|discriminate].
  destruct (nth_error (zeniths d) iE) as [zen|] eqn:Hzen; [|discriminate].
  destruct (nth_error (azimuths d) iE) as [az|] eqn:Haz; [|discriminate].
  cbn in Hpos, Hdir. injection Hpos as <-. injection Hdir as <-.
  unfold get_product_position_time, at_index.
  rewrite Hx, Hy, Hz, Hzen, Haz. cbn [rbind vget].
  eexists _, _, _. split; [reflexivity|].
  split; [ring|]. split; ring.
Qed.

Lemma product_lies_on_the_lepton_track_witness :
  exists x y z : Q,
    @get_product_position_time sample_extern (cols_of [outside_row])
      (mkProduct 1 5 "had" 86) 0
    = Ok (x, y, z, (1 / (299792458 # 1000000000))%Q)
    /\ (z == (1 # 2) + 1 * (- (1)))%Q.
Proof.
  destruct (product_lies_on_the_lepton_track sample_extern
              (cols_of [outside_row]) (mkProduct 1 5 "had" 86) 0
              (1 # 2, 1 # 2, 1 # 2)%Q (- 0 * 1, - 0 * 0, - (1))%Q
              eq_refl eq_refl)
    as (x & y & z & Hrun & _ & _ & Hz).
  exists x, y, z. split; [exact Hrun|exact Hz].
Defined.

(** ** From the table to the files *)

Lemma nondecreasing_intro (x : Z) (t : list Z) :
  (forall y : Z, In y t -> x <= y) -> nondecreasing t = true ->
  nondecreasing (x :: t) = true.
Proof.
  intros Hall Ht. destruct t as [|y t']; [reflexivity|].
  change ((x <=? y) && nondecreasing (y :: t') = true).
  rewrite Ht, andb_true_r. apply Z.leb_le. apply Hall. now left.
Qed.

Lemma split_row_ids (r : row) (v : Z) :
  In v (map r_event_group_id (split_row r)) -> v = r_event_group_id r.
Proof.
  unfold split_row. destruct (is_em_shower _ _); cbn; intuition congruence.
Qed.

Lemma split_rows_ids (rows : list row) (v : Z) :
  In v (map r_event_group_id (flat_map split_row rows))
  <-> In v (map r_event_group_id rows).
Proof.
  induction rows as [|r rows IH]; [reflexivity|].
  cbn [flat_map map]. rewrite map_app, in_app_iff, IH. cbn [In]. split.
  - intros [Hv|Hv]; [left; symmetry; now apply split_row_ids|now right].
  - intros [Hv|Hv]; [left|now right].
    unfold split_row. destruct (is_em_shower _ _); cbn; auto.
Qed.

Lemma split_rows_nondecreasing (rows : list row) :
  nondecreasing (map r_event_group_id rows) = true ->
  nondecreasing (map r_event_group_id (flat_map split_row rows)) = true.
Proof.
  induction rows as [|r rows IH]; [reflexivity|].
  cbn [map flat_map]. intros Hs.
  destruct (nondecreasing_cons _ _ Hs) as [Ht Hall]. specialize (IH Ht).
  assert (Hall' : forall y : Z,
             In y (map r_event_group_id (flat_map split_row rows)) ->
             r_event_group_id r <= y).
  { intros y Hy. apply Hall. now apply split_rows_ids. }
  rewrite map_app. unfold split_row. destruct (is_em_shower _ _); cbn [map app].
  - apply nondecreasing_intro.
    + cbn [em_twin r_event_group_id]. intros y [<-|Hy]; [lia|now apply Hall'].
    + apply nondecreasing_intro; assumption.
  - apply nondecreasing_intro; assumption.
Qed.

Lemma split_rows_length (rows : list row) :
  (List.length rows <= List.length (flat_map split_row rows)
   <= 2 * List.length rows)%nat.
Proof.
  induction rows as [|r rows IH]; [simpl; lia|].
  cbn [flat_map]. rewrite length_app.
  set (m := List.length (flat_map split_row rows)) in *.
  set (k := List.length rows) in *.
  change (List.length (r :: rows)) with (S k).
  unfold split_row. destruct (is_em_shower _ _); cbn [List.length]; lia.
Qed.

Lemma arange_nth (lo n : Z) (k : nat) :
  nth_error (arange lo n) k
  = if (k <? Z.to_nat n)%nat then Some (lo + Z.of_nat k) else None.
Proof.
  unfold arange. rewrite nth_error_map.
  destruct (Nat.ltb_spec k (Z.to_nat n)).
  - rewrite (nth_error_nth' _ 0%nat) by (now rewrite length_seq).
    rewrite seq_nth by assumption. reflexivity.
  - rewrite (proj2 (nth_error_None _ _)); [reflexivity|].
    now rewrite length_seq.
Qed.

Lemma arange_length (lo n : Z) : List.length (arange lo n) = Z.to_nat n.
Proof. unfold arange. now rewrite length_map, length_seq. Qed.

Lemma arange_In (lo n v : Z) :
  In v (arange lo n) <-> lo <= v < lo + Z.max 0 n.
Proof.
  unfold arange. rewrite in_map_iff. split.
  - intros (k & <- & Hk). apply in_seq in Hk. lia.
  - intros Hv. exists (Z.to_nat (v - lo)). split; [lia|]. apply in_seq. lia.
Qed.

Lemma arange_sorted (lo n : Z) : StronglySorted Z.lt (arange lo n).
Proof.
  unfold arange. generalize (Z.to_nat n) as m. intros m.
  assert (Hgen : forall start : nat,
             StronglySorted Z.lt
               (map (fun k => lo + Z.of_nat k) (seq start m))).
  { induction m as [|m IH]; intros start; [constructor|].
    cbn [seq map]. constructor; [apply IH|].
    apply List.Forall_forall. intros v Hv. apply in_map_iff in Hv.
    destruct Hv as (k & <- & Hk). apply in_seq in Hk. lia. }
  apply Hgen.
Qed.

Lemma arange_nondecreasing (lo n : Z) : nondecreasing (arange lo n) = true.
Proof.
  pose proof (arange_sorted lo n) as Hs.
  induction Hs as [|x t Ht IH Hall]; [reflexivity|].
  apply nondecreasing_intro; [|exact IH].
  rewrite List.Forall_forall in Hall. intros y Hy. specialize (Hall y Hy). lia.
Qed.

(** Two increasing lists with the same members are equal. *)
Lemma sorted_same_members (l1 l2 : list Z) :
  StronglySorted Z.lt l1 -> StronglySorted Z.lt l2 ->
  (forall v : Z, In v l1 <-> In v l2) -> l1 = l2.
Proof.
  intros H1. revert l2. induction H1 as [|x t Ht IH Hall]; intros l2 H2 Hmem.
  - destruct l2 as [|y t2]; [reflexivity|].
    exfalso. apply (proj2 (Hmem y)). now left.
  - destruct H2 as [|y t2 Ht2 Hall2].
    { exfalso. apply (proj1 (Hmem x)). now left. }
    rewrite List.Forall_forall in Hall, Hall2.
    assert (Hxy : x = y).
    { destruct (proj1 (Hmem x) (or_introl eq_refl)) as [Heq|Hin];
        [now symmetry|].
      destruct (proj2 (Hmem y) (or_introl eq_refl)) as [Heq|Hin'];
        [assumption|].
      specialize (Hall _ Hin'). specialize (Hall2 _ Hin). lia. }
    subst y. f_equal. apply IH; [exact Ht2|].
    intros v. split; intros Hv.
    + destruct (proj1 (Hmem v) (or_intror Hv)) as [Heq|Hin]; [|exact Hin].
      specialize (Hall _ Hv). lia.
    + destruct (proj2 (Hmem v) (or_intror Hv)) as [Heq|Hin]; [|exact Hin].
      specialize (Hall2 _ Hv). lia.
Qed.

(** The distinct ids of a table built from rows numbered by [np.arange]. *)
Lemma split_rows_unique (rows : list row) (lo n : Z) :
  map r_event_group_id rows = arange lo n ->
  np_unique (map r_event_group_id (flat_map split_row rows)) = arange lo n.
Proof.
  intros Hids. apply sorted_same_members.
  - apply np_unique_sorted.
  - apply arange_sorted.
  - intros v. rewrite np_unique_In_iff, split_rows_ids, Hids. reflexivity.
Qed.

Section FinalTable.
Context `{Extern}.

(** Without secondary interactions the table handed to the writer is the
    baseline table with the electromagnetic twins inserted. *)
Lemma final_table_without_proposal (n_events : Z) (Emin Emax : Q)
    (volume : gmap string pynum) (thetamin thetamax phimin phimax : Q)
    (start_event_id : Z) (flavor : list Z) (spectrum : string)
    (deposited : bool) (w w' : world)
    (attrs : gmap string pynum) (base : data_sets) :
  baseline_table n_events Emin Emax volume thetamin thetamax phimin phimax
    start_event_id flavor spectrum deposited false w
  = (Ok (attrs, base), w') ->
  exists rows : list row,
    List.length rows = Z.to_nat n_events
    /\ map r_event_group_id rows = arange start_event_id n_events
    /\ final_table n_events Emin Emax volume thetamin thetamax phimin phimax
         start_event_id flavor spectrum deposited false w
       = (Ok (cols_of (flat_map split_row rows),
              arange 0 (Z.of_nat (List.length (flat_map split_row rows)))),
          w').
Proof.
  intros Hbase.
  pose proof (baseline_table_shape _ _ _ _ _ _ _ _ _ _ _ _ _ _ _ _ _ Hbase)
    as (_ & _ & _ & _ & Hp & _).
  destruct (baseline_table_rows _ _ _ _ _ _ _ _ _ _ _ _ _ _ _ _ _ Hbase)
    as (rows & tx & ty & tz & Hlen & Heq & Hnil & Hids & _ & _).
  { rewrite (Hp eq_refl). lia. }
  destruct (Hnil eq_refl) as (-> & -> & ->).
  rewrite with_extra_nil in Heq. subst base.
  exists rows. split; [exact Hlen|]. split; [exact Hids|].
  unfold final_table, bind, lift, ret. rewrite Hbase. cbn [fst snd].
  pose proof (add_em_showers_rows [] [] [] rows n_events Hlen) as Hsplit.
  rewrite !with_extra_nil in Hsplit. rewrite Hsplit.
  cbn [cols_of shower_energies]. now rewrite length_map.
Qed.

Lemma final_table_baseline (n_events : Z) (Emin Emax : Q)
    (volume : gmap string pynum) (thetamin thetamax phimin phimax : Q)
    (start_event_id : Z) (flavor : list Z) (spectrum : string)
    (deposited proposal : bool) (w w' : world) (r : data_sets * list Z) :
  final_table n_events Emin Emax volume thetamin thetamax phimin phimax
    start_event_id flavor spectrum deposited proposal w = (Ok r, w') ->
  exists (attrs : gmap string pynum) (base : data_sets) (w0 : world),
    baseline_table n_events Emin Emax volume thetamin thetamax phimin phimax
      start_event_id flavor spectrum deposited proposal w
    = (Ok (attrs, base), w0).
Proof.
  unfold final_table, bind. intros Hrun.
  destruct (baseline_table _ _ _ _ _ _ _ _ _ _ _ _ _ w) as [[[attrs base]|e] w0];
    [|discriminate].
  now exists attrs, base, w0.
Qed.

End FinalTable.

Section TableRuns.
Context `{Extern}.





(** Every pass of the loop over event groups reads
    [attributes['fiducial_rmin']]. *)
Lemma event_step_needs_rmin (attributes : gmap string pynum) (d : data_sets)
    (mask : list bool) (E_all : list pyfloat) (fid : data_sets) (iE : nat) :
  attributes !! "fiducial_rmin" = None ->
  exists e : exn, event_step attributes d mask E_all fid iE = Raise e.
Proof.
  intros Hnone. unfold event_step, at_index.
  destruct (nth_error (xx d) iE); [|cbn; eauto].
  destruct (nth_error (yy d) iE); [|cbn; eauto].
  destruct (nth_error (zz d) iE); [|cbn; eauto].
  cbn [rbind]. unfold in_fiducial.
  rewrite (getitem_None _ _ Hnone). cbn [rbind]. eauto.
Qed.

Lemma expand_secondaries_needs_rmin (attributes : gmap string pynum)
    (d : data_sets) :
  attributes !! "fiducial_rmin" = None ->
  exists e : exn, expand_secondaries attributes d = Raise e.
Proof.
  intros Hnone. unfold expand_secondaries.
  destruct (mask_leptons d) as [mask|e]; [|cbn; eauto].
  destruct (E_all_leptons d) as [E_all|e]; [|cbn; eauto].
  cbn [rbind].
  destruct (event_group_ids d) as [|i ids] eqn:Hids.
  - cbn. eauto.
  - cbn [List.length seq event_loop].
    destruct (event_step_needs_rmin attributes d mask E_all empty_data_sets 0
                Hnone) as [e He].
    rewrite He. cbn [rbind]. eauto.
Qed.

(** The box branch stores no cylinder bound. *)
Lemma box_keeps_other_keys (volume attributes attrs' : gmap string pynum)
    (proposal : bool) (n_events : pynum) (w w' : world)
    (pos : list Q * list Q * list Q) :
  generate_vertex_positions_box volume proposal attributes n_events w
  = (Ok (attrs', pos), w') ->
  attrs' !! "fiducial_rmin" = attributes !! "fiducial_rmin".
Proof.
  intros Hrun. unfold generate_vertex_positions_box in Hrun.
  destruct proposal;
    repeat vstep Hrun;
    cbv beta iota zeta delta [bind lift ret raise fst snd negb] in Hrun;
    try discriminate Hrun;
    repeat match type of Hrun with
           | context [if contains ?d ?k then _ else _] => destruct (contains d k)
           end;
    repeat vstep Hrun;
    cbv beta iota zeta delta [bind lift ret raise fst snd negb] in Hrun;
    try discriminate Hrun;
    injection Hrun as <- _ _;
    now rewrite !lookup_insert_ne by discriminate.
Qed.

End TableRuns.

Section EntryPoint.
Context `{Extern}.

(** The attributes of the baseline table are those the vertex generation
    returns for the initial attributes. *)
Lemma baseline_table_attributes (n_events : Z) (Emin Emax : Q)
    (volume : gmap string pynum) (thetamin thetamax phimin phimax : Q)
    (start_event_id : Z) (flavor : list Z) (spectrum : string)
    (deposited proposal : bool) (w w' : world)
    (attrs : gmap string pynum) (base : data_sets) :
  baseline_table n_events Emin Emax volume thetamin thetamax phimin phimax
    start_event_id flavor spectrum deposited proposal w
  = (Ok (attrs, base), w') ->
  exists (w1 w2 : world) (pos : list Q * list Q * list Q),
    generate_vertex_positions volume proposal
      (initial_attributes n_events start_event_id Emin Emax thetamin thetamax
         phimin phimax) w1
    = (Ok (attrs, Some pos), w2).
Proof.
  intros Hrun. unfold baseline_table, bind in Hrun.
  destruct (np_random_uniform phimin phimax _ w) as [[az|e] w0];
    [|discriminate].
  destruct (np_random_uniform _ _ _ w0) as [[u|e] w1]; [|discriminate].
  destruct (generate_vertex_positions _ _ _ w1)
    as [[[attrs' [[[vx vy] vz]|]]|e] w2] eqn:Hvp;
    cbn [fst snd] in Hrun; [| |discriminate]; [|discriminate].
  destruct (np_random_randint _ _ w2) as [[idx|e] w3]; [|discriminate].
  destruct (get_energies _ _ _ _ w3) as [[en|e] w4]; [|discriminate].
  destruct (get_ccnc _ w4) as [[ccnc|e] w5]; [|discriminate].
  destruct (get_neutrino_inelasticity _ w5) as [[inel|e] w6]; [|discriminate].
  destruct (_ w6) as [[en'|e] w7] in Hrun; [|discriminate].
  unfold ret in Hrun. injection Hrun as <- _ _.
  now exists w1, w2, (vx, vy, vz).
Qed.

(** With secondary interactions on, the table is never finished. *)
Lemma final_table_with_proposal (n_events : Z) (Emin Emax : Q)
    (volume : gmap string pynum) (thetamin thetamax phimin phimax : Q)
    (start_event_id : Z) (flavor : list Z) (spectrum : string)
    (deposited : bool) (w : world) :
  exists (e : exn) (w' : world),
    final_table n_events Emin Emax volume thetamin thetamax phimin phimax
      start_event_id flavor spectrum deposited true w = (Raise e, w').
Proof.
  unfold final_table, bind, lift, ret.
  destruct (baseline_table _ _ _ _ _ _ _ _ _ _ _ _ _ w)
    as [[[attrs base]|e] w0] eqn:Hbase; [|eauto].
  cbn [fst snd].
  destruct (add_em_showers n_events base) as [d|e]; [|eauto].
  assert (Hnone : attrs !! "fiducial_rmin" = None).
  { destruct (baseline_table_attributes _ _ _ _ _ _ _ _ _ _ _ _ _ _ _ _ _
                Hbase) as (w1 & w2 & pos & Hvp).
    destruct (contains volume "fiducial_rmax") eqn:Hcyl.
    { destruct (cylinder_returns_only_if _ _ _ _ _ _ Hcyl Hvp) as (_ & _ & Hz).
      exfalso. apply Hz. apply initial_attributes_keys; discriminate. }
    unfold generate_vertex_positions in Hvp.
    cbv beta iota zeta delta [bind lift ret] in Hvp.
    rewrite (getitem_Some _ _ _ (initial_attributes_n_events _ _ _ _ _ _ _ _))
      in Hvp.
    rewrite Hcyl in Hvp.
    destruct (contains volume "fiducial_xmax"); [|discriminate].
    destruct (generate_vertex_positions_box _ _ _ _ _)
      as [[[a p]|e] w3] eqn:Hb; [|discriminate].
    cbn [fst snd] in Hvp. injection Hvp as <- _ _.
    rewrite (box_keeps_other_keys _ _ _ _ _ _ _ _ Hb).
    apply initial_attributes_keys; discriminate. }
  destruct (expand_secondaries_needs_rmin attrs d Hnone) as [e He].
  rewrite He. eauto.
Qed.

End EntryPoint.

(** X15: without secondary interactions, the table that
    [generate_eventlist_cylinder] hands to [write_events_to_hdf5] meets the
    conditions under which the writer keeps event groups whole and writes
    every row: its event group ids never decrease along the rows, their
    distinct values are [start_event_id .. start_event_id + n_events - 1],
    none exceeds [n_events] when [start_event_id] is at most 1, and there
    are between [n_events] and [2 n_events] rows. With at least one event
    the call returns the list of files. *)
Theorem eventlist_table_meets_writer_conditions :
  forall (E : Extern) (filename : string) (n_events : Z) (Emin Emax : Q)
         (volume : gmap string pynum) (thetamin thetamax phimin phimax : Q)
         (start_event_id : Z) (flavor : list Z) (n_events_per_file : option Z)
         (spectrum : string) (deposited : bool) (start_file_id : Z)
         (w w' : world) (fid : data_sets) (sids : list Z),
    final_table n_events Emin Emax volume thetamin thetamax phimin phimax
      start_event_id flavor spectrum deposited false w
    = (Ok (fid, sids), w') ->
    nondecreasing (event_group_ids fid) = true
    /\ np_unique (event_group_ids fid) = arange start_event_id n_events
    /\ (start_event_id <= 1 ->
        forall id : Z, In id (event_group_ids fid) -> id <= n_events)
    /\ (Z.to_nat n_events <= List.length (event_group_ids fid)
        <= 2 * Z.to_nat n_events)%nat
    /\ generate_eventlist_cylinder filename n_events Emin Emax volume
         thetamin thetamax phimin phimax start_event_id flavor
         n_events_per_file spectrum deposited false start_file_id w
       = (write_events_to_hdf5 filename (event_group_ids fid) n_events
            (Some start_event_id) n_events_per_file start_file_id, w')
    /\ (1 <= n_events ->
        exists shards : list shard,
          generate_eventlist_cylinder filename n_events Emin Emax volume
            thetamin thetamax phimin phimax start_event_id flavor
            n_events_per_file spectrum deposited false start_file_id w
          = (Some (Ok shards), w')).
Proof.
  intros E filename n_events Emin Emax volume thetamin thetamax phimin phimax
         start_event_id flavor n_events_per_file spectrum deposited
         start_file_id w w' fid sids Hrun.
  destruct (final_table_baseline _ _ _ _ _ _ _ _ _ _ _ _ _ _ _ _ Hrun)
    as (attrs & base & w0 & Hbase).
  destruct (final_table_without_proposal _ _ _ _ _ _ _ _ _ _ _ _ _ _ _ _ Hbase)
    as (rows & Hlen & Hids & Hfinal).
  rewrite Hfinal in Hrun. injection Hrun as <- <- <-.
  cbn [cols_of event_group_ids].
  assert (Hgen : generate_eventlist_cylinder filename n_events Emin Emax volume
                   thetamin thetamax phimin phimax start_event_id flavor
                   n_events_per_file spectrum deposited false start_file_id w
                 = (write_events_to_hdf5 filename
                      (map r_event_group_id (flat_map split_row rows)) n_events
                      (Some start_event_id) n_events_per_file start_file_id,
                    w0)).
  { unfold generate_eventlist_cylinder. rewrite Hfinal. reflexivity. }
  pose proof (split_rows_length rows) as Hrows.
  split; [|split; [|split; [|split; [|split]]]].
  - apply split_rows_nondecreasing. rewrite Hids. apply arange_nondecreasing.
  - now apply split_rows_unique.
  - intros Hstart id Hin. apply (proj1 (split_rows_ids _ _)) in Hin.
    rewrite Hids in Hin.
    apply arange_In in Hin. lia.
  - rewrite length_map. lia.
  - exact Hgen.
  - intros Hn. rewrite Hgen.
    destruct (write_events_returns filename
                (map r_event_group_id (flat_map split_row rows)) n_events
                (Some start_event_id) n_events_per_file start_file_id)
      as [shards Hw].
    + intros Hnil. apply (f_equal (@List.length Z)) in Hnil.
      rewrite length_map in Hnil. cbn [List.length] in Hnil. lia.
    + exists shards. now rewrite Hw.
Qed.

Lemma sample_table_run :
  @final_table sample_extern 3 1 2 sample_box 0 1 0 1 1 [12; -12; 14]
    "log_uniform" false false []
  = (Ok (sample_table, sample_shower_ids), sample_world).
Proof. vm_compute. reflexivity. Qed.

Lemma eventlist_table_meets_writer_conditions_witness :
  nondecreasing (event_group_ids sample_table) = true
  /\ np_unique (event_group_ids sample_table) = arange 1 3.
Proof.
  pose proof (eventlist_table_meets_writer_conditions sample_extern "out.hdf5"
                3 1 2 sample_box 0 1 0 1 1 [12; -12; 14] None "log_uniform"
                false 0 [] sample_world sample_table sample_shower_ids
                sample_table_run) as (Hsorted & Huniq & _).
  split; [exact Hsorted|exact Huniq].
Defined.

(** X16: a call of [generate_eventlist_cylinder] with secondary
    interactions on never returns and writes no file. A cylinder volume
    stops in [generate_vertex_positions]; for a box volume the loop over
    event groups reads [attributes['fiducial_rmin']], which the box branch
    never stores, and an empty table leaves the loop variable unbound. *)
Theorem secondaries_never_return :
  forall (E : Extern) (filename : string) (n_events : Z) (Emin Emax : Q)
         (volume : gmap string pynum) (thetamin thetamax phimin phimax : Q)
         (start_event_id : Z) (flavor : list Z) (n_events_per_file : option Z)
         (spectrum : string) (deposited : bool) (start_file_id : Z)
         (w : world),
    (exists (e : exn) (w' : world),
        generate_eventlist_cylinder filename n_events Emin Emax volume
          thetamin thetamax phimin phimax start_event_id flavor
          n_events_per_file spectrum deposited true start_file_id w
        = (Some (Raise e), w'))
    /\ (forall (attributes : gmap string pynum) (d : data_sets),
           attributes !! "fiducial_rmin" = None ->
           exists e : exn, expand_secondaries attributes d = Raise e)
    /\ (forall (proposal : bool) (attributes attrs' : gmap string pynum)
               (n : pynum) (w0 w1 : world) (pos : list Q * list Q * list Q),
           generate_vertex_positions_box volume proposal attributes n w0
           = (Ok (attrs', pos), w1) ->
           attrs' !! "fiducial_rmin" = attributes !! "fiducial_rmin").
Proof.
  intros E filename n_events Emin Emax volume thetamin thetamax phimin phimax
         start_event_id flavor n_events_per_file spectrum deposited
         start_file_id w.
  split; [|split].
  - destruct (final_table_with_proposal n_events Emin Emax volume thetamin
                thetamax phimin phimax start_event_id flavor spectrum
                deposited w) as (e & w' & Hraise).
    exists e, w'. unfold generate_eventlist_cylinder. now rewrite Hraise.
  - intros attributes d Hnone.
    exact (expand_secondaries_needs_rmin attributes d Hnone).
  - intros proposal attributes attrs' n w0 w1 pos Hrun.
    exact (box_keeps_other_keys _ _ _ _ _ _ _ _ Hrun).
Qed.

Lemma secondaries_never_return_witness :
  exists (e : exn) (w' : world),
    @generate_eventlist_cylinder sample_extern "out.hdf5" 3 1 2 sample_box
      0 1 0 1 1 [12; -12; 14] None "log_uniform" false true 0 []
    = (Some (Raise e), w').
Proof.
  exact (proj1 (secondaries_never_return sample_extern "out.hdf5" 3 1 2
                  sample_box 0 1 0 1 1 [12; -12; 14] None "log_uniform" false
                  0 [])).
Defined.

(** X17: a call of [generate_eventlist_cylinder] for no events
    ([n_events] zero or negative) writes no file. When the table is built
    (secondary interactions off, [n_events] zero) it is empty and the
    writer raises [IndexError] at [data_sets["event_group_ids"][0]]. *)
Theorem no_events_no_file :
  forall (E : Extern) (filename : string) (n_events : Z) (Emin Emax : Q)
         (volume : gmap string pynum) (thetamin thetamax phimin phimax : Q)
         (start_event_id : Z) (flavor : list Z) (n_events_per_file : option Z)
         (spectrum : string) (deposited proposal : bool) (start_file_id : Z)
         (w : world),
    n_events <= 0 ->
    (exists (e : exn) (w' : world),
        generate_eventlist_cylinder filename n_events Emin Emax volume
          thetamin thetamax phimin phimax start_event_id flavor
          n_events_per_file spectrum deposited proposal start_file_id w
        = (Some (Raise e), w'))
    /\ (forall (fid : data_sets) (sids : list Z) (w' : world),
           final_table n_events Emin Emax volume thetamin thetamax phimin
             phimax start_event_id flavor spectrum deposited proposal w
           = (Ok (fid, sids), w') ->
           proposal = false /\ n_events = 0 /\ event_group_ids fid = []
           /\ generate_eventlist_cylinder filename n_events Emin Emax volume
                thetamin thetamax phimin phimax start_event_id flavor
                n_events_per_file spectrum deposited proposal start_file_id w
              = (Some (Raise IndexError), w')).
Proof.
  intros E filename n_events Emin Emax volume thetamin thetamax phimin phimax
         start_event_id flavor n_events_per_file spectrum deposited proposal
         start_file_id w Hn.
  assert (Hok : forall (fid : data_sets) (sids : list Z) (w' : world),
             final_table n_events Emin Emax volume thetamin thetamax phimin
               phimax start_event_id flavor spectrum deposited proposal w
             = (Ok (fid, sids), w') ->
             proposal = false /\ n_events = 0 /\ event_group_ids fid = []
             /\ generate_eventlist_cylinder filename n_events Emin Emax volume
                  thetamin thetamax phimin phimax start_event_id flavor
                  n_events_per_file spectrum deposited proposal start_file_id w
                = (Some (Raise IndexError), w')).
  { intros fid sids w' Hrun. destruct proposal.
    { destruct (final_table_with_proposal n_events Emin Emax volume thetamin
                  thetamax phimin phimax start_event_id flavor spectrum
                  deposited w) as (e & w1 & Hraise).
      rewrite Hraise in Hrun. discriminate. }
    split; [reflexivity|].
    destruct (final_table_baseline _ _ _ _ _ _ _ _ _ _ _ _ _ _ _ _ Hrun)
      as (attrs & base & w0 & Hbase).
    assert (Hzero : n_events = 0).
    { unfold baseline_table, bind in Hbase.
      destruct (np_random_uniform phimin phimax _ w) as [[az|e] w1] eqn:Hu;
        [|discriminate].
      apply uniform_Ok in Hu. destruct Hu as (m & Hm & Hpos & _).
      injection Hm as <-. lia. }
    split; [exact Hzero|].
    destruct (final_table_without_proposal _ _ _ _ _ _ _ _ _ _ _ _ _ _ _ _
                Hbase) as (rows & Hlen & Hids & Hfinal).
    rewrite Hfinal in Hrun. injection Hrun as <- <- <-.
    assert (Hrows : rows = []).
    { destruct rows; [reflexivity|]. rewrite Hzero in Hlen. discriminate. }
    subst rows. split; [reflexivity|].
    unfold generate_eventlist_cylinder. rewrite Hfinal. reflexivity. }
  split; [|exact Hok].
  destruct (final_table n_events Emin Emax volume thetamin thetamax phimin
              phimax start_event_id flavor spectrum deposited proposal w)
    as [[[fid sids]|e] w'] eqn:Hrun.
  - destruct (Hok fid sids w' eq_refl) as (_ & _ & _ & Hgen).
    exists IndexError, w'. exact Hgen.
  - exists e, w'. unfold generate_eventlist_cylinder. now rewrite Hrun.
Qed.

Lemma no_events_no_file_witness :
  exists (e : exn) (w' : world),
    @generate_eventlist_cylinder sample_extern "out.hdf5" 0 1 2 sample_box
      0 1 0 1 1 [12; -12; 14] None "log_uniform" false false 0 []
    = (Some (Raise e), w').
Proof.
  exact (proj1 (no_events_no_file sample_extern "out.hdf5" 0 1 2 sample_box
                  0 1 0 1 1 [12; -12; 14] None "log_uniform" false false 0 []
                  ltac:(lia))).
Defined.



(** ** The loop of [generate_surface_muons], read on rows *)

(** On an array the test is the ray test of [generate_eventlist_cylinder]. *)
Lemma array_test_is_the_ray_test (attributes : gmap string pynum)
    (vertex direction : vec3) :
  get_intersection_volume_neutrino_py attributes vertex (nd_array direction)
  = get_intersection_volume_neutrino attributes vertex direction.
Proof.
  unfold get_intersection_volume_neutrino_py, get_intersection_volume_neutrino.
  destruct (contains attributes "xmax"); [|reflexivity].
  repeat match goal with
         | |- context [getitem ?d ?k] => destruct (getitem d k); cbn [rbind]
         end;
    reflexivity.
Qed.

(** Without the key [xmax] the test is skipped and answers [True]. *)
Lemma tuple_test_without_xmax (attributes : gmap string pynum)
    (vertex : vec3) (direction : py_vector) :
  contains attributes "xmax" = false ->
  get_intersection_volume_neutrino_py attributes vertex direction = Ok true.
Proof.
  intros Hc. unfold get_intersection_volume_neutrino_py. now rewrite Hc.
Qed.

(** With the key [xmax] and the six fiducial bounds of a box in the
    attributes, the test of a tuple raises [TypeError]. *)
Lemma tuple_test_on_box (attributes : gmap string pynum)
    (xmin xmax ymin ymax zmin zmax : pynum) (vertex direction : vec3) :
  contains attributes "xmax" = true ->
  attributes !! "fiducial_xmin" = Some xmin ->
  attributes !! "fiducial_xmax" = Some xmax ->
  attributes !! "fiducial_ymin" = Some ymin ->
  attributes !! "fiducial_ymax" = Some ymax ->
  attributes !! "fiducial_zmin" = Some zmin ->
  attributes !! "fiducial_zmax" = Some zmax ->
  get_intersection_volume_neutrino_py attributes vertex (py_tuple direction)
  = Raise TypeError.
Proof.
  intros Hc H1 H2 H3 H4 H5 H6. unfold get_intersection_volume_neutrino_py.
  rewrite Hc.
  rewrite (getitem_Some _ _ _ H1), (getitem_Some _ _ _ H2),
    (getitem_Some _ _ _ H3), (getitem_Some _ _ _ H4),
    (getitem_Some _ _ _ H5), (getitem_Some _ _ _ H6).
  reflexivity.
Qed.

Lemma muon_append_row_rows (mrows frows : list (row * Q)) (iE : nat)
    (parent : row) (m : Q) :
  nth_error mrows iE = Some (parent, m) ->
  muon_append_row iE (mcols_of mrows) (mcols_of frows)
  = Ok (mcols_of (frows ++ [(parent, m)])).
Proof.
  intros Hp. unfold muon_append_row, mcols_of. cbn [md_columns muon_energies].
  pose proof (append_row_rows [] [] [] (map fst mrows) (map fst frows) iE parent
                (nth_error_map_some fst mrows iE (parent, m) Hp)) as Ha.
  rewrite with_extra_nil in Ha. rewrite Ha. cbn [rbind].
  unfold at_index. rewrite (nth_error_map_some snd mrows iE (parent, m) Hp).
  cbn [rbind snd]. now rewrite !map_app.
Qed.

Section MuonFacts.
Context `{Extern}.

Lemma mark_muon_product_rows (frows : list (row * Q)) (parent : row) (m : Q)
    (n : Z) (p : secondary_properties) :
  mark_muon_product n p (fst (fst (fst (product_position parent p))))
    (snd (fst (fst (product_position parent p))))
    (snd (fst (product_position parent p)))
    (snd (product_position parent p)) (mcols_of (frows ++ [(parent, m)]))
  = mcols_of (frows ++ [(muon_secondary_row parent n p, m)]).
Proof.
  unfold mark_muon_product, mcols_of, cols_of, muon_secondary_row.
  destruct (product_position parent p) as [[[x y] z] t].
  cbn [md_columns muon_energies azimuths zeniths xx yy zz event_group_ids
       n_interaction vertex_times flavors energies interaction_type
       inelasticity shower_energies shower_type fst snd].
  rewrite !(map_app fst), !(map_app snd). cbn [map fst snd].
  rewrite !set_last_snoc. rewrite !map_app. reflexivity.
Qed.

Variables (mrows : list (row * Q)) (iE : nat) (parent : row) (m : Q).
Hypothesis Hparent : nth_error mrows iE = Some (parent, m).

Lemma muon_row : nth_error (map fst mrows) iE = Some parent.
Proof. exact (nth_error_map_some fst mrows iE (parent, m) Hparent). Qed.

Lemma muon_position_time (p : secondary_properties) :
  get_product_position_time (md_columns (mcols_of mrows)) p iE
  = Ok (product_position parent p).
Proof.
  pose proof (product_position_time_rows [] [] [] (map fst mrows) iE parent
                muon_row p) as Hp.
  now rewrite with_extra_nil in Hp.
Qed.

Lemma muon_product_step_rows (frows : list (row * Q)) (n : Z)
    (p : secondary_properties) :
  muon_product_step (mcols_of mrows) iE (n, mcols_of frows) p
  = Ok (n + 1, mcols_of (frows ++ [(muon_secondary_row parent n p, m)])).
Proof.
  unfold muon_product_step. rewrite muon_position_time. cbn [rbind fst snd].
  pose proof (mark_muon_product_rows frows parent m n p) as Hm.
  destruct (product_position parent p) as [[[x y] z] t].
  cbn [fst snd] in Hm.
  rewrite (muon_append_row_rows mrows frows iE parent m Hparent).
  cbn [rbind]. now rewrite Hm.
Qed.

Lemma muon_product_loop_rows :
  forall (products : list secondary_properties) (frows : list (row * Q))
         (n : Z),
    muon_product_loop (mcols_of mrows) iE products (n, mcols_of frows)
    = Ok (n + Z.of_nat (List.length products),
          mcols_of (frows ++ muon_secondaries parent m n products)).
Proof.
  induction products as [|p rest IH]; intros frows n.
  - cbn [muon_product_loop muon_secondaries List.length].
    now rewrite app_nil_r, Z.add_0_r.
  - cbn [muon_product_loop muon_secondaries]. rewrite muon_product_step_rows.
    cbn [rbind]. rewrite IH. rewrite <- app_assoc. cbn [app List.length].
    f_equal. f_equal. lia.
Qed.

Lemma muon_event_step_rows (attributes : gmap string pynum)
    (frows : list (row * Q)) (selected : bool) :
  muon_selected attributes parent = Ok selected ->
  muon_event_step attributes (mcols_of mrows) (mcols_of frows) iE
  = Ok (mcols_of (frows ++ muon_group_rows attributes (parent, m))).
Proof.
  intros Hsel. unfold muon_event_step, at_index, muon_group_rows.
  change (md_columns (mcols_of mrows)) with (cols_of (map fst mrows)).
  change (fst (parent, m)) with parent. change (snd (parent, m)) with m.
  rewrite Hsel. unfold muon_selected in Hsel.
  pose proof (d_xx [] [] [] (map fst mrows) iE parent muon_row) as Hx.
  pose proof (d_yy [] [] [] (map fst mrows) iE parent muon_row) as Hy.
  pose proof (d_zz [] [] [] (map fst mrows) iE parent muon_row) as Hz.
  pose proof (d_direction [] [] [] (map fst mrows) iE parent muon_row) as Hd.
  pose proof (d_position [] [] [] (map fst mrows) iE parent muon_row) as Hpos.
  rewrite with_extra_nil in Hx, Hy, Hz, Hd, Hpos.
  rewrite Hx, Hy, Hz, Hd. cbn [rbind]. rewrite Hsel. cbn [rbind].
  destruct selected; [|now rewrite app_nil_r].
  assert (HE : nth_error (energies (cols_of (map fst mrows))) iE
               = Some (r_energy parent))
    by (cbn [cols_of energies]; apply nth_error_map_some, muon_row).
  assert (Hfl : nth_error (flavors (cols_of (map fst mrows))) iE
                = Some (r_flavor parent))
    by (cbn [cols_of flavors]; apply nth_error_map_some, muon_row).
  rewrite HE, Hfl, Hpos. cbn [rbind].
  fold (muon_products parent).
  rewrite (muon_product_loop_rows (muon_products parent) frows 1).
  reflexivity.
Qed.

(** An exception of the ray test ends the step. *)
Lemma muon_event_step_raises (attributes : gmap string pynum)
    (fid : muon_data_sets) (e : exn) :
  muon_selected attributes parent = Raise e ->
  muon_event_step attributes (mcols_of mrows) fid iE = Raise e.
Proof.
  intros Hsel. unfold muon_event_step, at_index.
  change (md_columns (mcols_of mrows)) with (cols_of (map fst mrows)).
  unfold muon_selected in Hsel.
  pose proof (d_xx [] [] [] (map fst mrows) iE parent muon_row) as Hx.
  pose proof (d_yy [] [] [] (map fst mrows) iE parent muon_row) as Hy.
  pose proof (d_zz [] [] [] (map fst mrows) iE parent muon_row) as Hz.
  pose proof (d_direction [] [] [] (map fst mrows) iE parent muon_row) as Hd.
  rewrite with_extra_nil in Hx, Hy, Hz, Hd.
  rewrite Hx, Hy, Hz, Hd. cbn [rbind]. rewrite Hsel. reflexivity.
Qed.

End MuonFacts.

Section MuonLoop.
Context `{Extern}.

Lemma muon_event_loop_rows (attributes : gmap string pynum) :
  forall (post pre frows : list (row * Q)),
    (forall mrow : row * Q,
        In mrow post ->
        exists b : bool, muon_selected attributes (fst mrow) = Ok b) ->
    muon_event_loop attributes (mcols_of (pre ++ post))
      (seq (List.length pre) (List.length post)) (mcols_of frows)
    = Ok (mcols_of (frows ++ flat_map (muon_group_rows attributes) post)).
Proof.
  induction post as [|[parent m] post IH]; intros pre frows Hsel.
  - cbn [List.length seq muon_event_loop flat_map]. now rewrite app_nil_r.
  - cbn [List.length seq muon_event_loop flat_map].
    destruct (Hsel (parent, m) (or_introl eq_refl)) as [b Hb].
    rewrite (muon_event_step_rows (pre ++ (parent, m) :: post)
               (List.length pre) parent m) with (selected := b).
    + cbn [rbind].
      specialize (IH (pre ++ [(parent, m)])
                    (frows ++ muon_group_rows attributes (parent, m))).
      rewrite <- app_assoc in IH. cbn [app] in IH.
      rewrite length_app in IH. cbn [List.length] in IH.
      rewrite Nat.add_1_r in IH. rewrite IH.
      * now rewrite <- app_assoc.
      * intros mrow Hin. apply Hsel. now right.
    + rewrite nth_error_app2 by lia. now rewrite Nat.sub_diag.
    + exact Hb.
Qed.

(** Without the key [xmax] every muon is propagated. *)
Lemma muon_event_loop_products (attributes : gmap string pynum)
    (mrows : list (row * Q)) :
  contains attributes "xmax" = false ->
  muon_event_loop attributes (mcols_of mrows)
    (seq 0 (List.length (event_group_ids (md_columns (mcols_of mrows)))))
    empty_muon_data_sets
  = Ok (mcols_of (flat_map muon_product_rows mrows)).
Proof.
  intros Hc.
  assert (Hsel : forall parent : row, muon_selected attributes parent = Ok true)
    by (intros parent; now apply tuple_test_without_xmax).
  cbn [mcols_of md_columns cols_of event_group_ids]. rewrite !length_map.
  assert (Hall : forall mrow : row * Q,
             In mrow mrows ->
             exists b : bool, muon_selected attributes (fst mrow) = Ok b)
    by (intros mrow _; exists true; apply Hsel).
  etransitivity; [exact (muon_event_loop_rows attributes mrows [] [] Hall)|].
  cbn [app]. f_equal. f_equal. apply flat_map_ext. intros mrow.
  unfold muon_group_rows, muon_product_rows. now rewrite Hsel.
Qed.

(** With the key [xmax] and the bounds of a box the first muon ends the
    loop. *)
Lemma muon_event_loop_on_box (attributes : gmap string pynum)
    (xmin xmax ymin ymax zmin zmax : pynum) (mrows : list (row * Q)) :
  contains attributes "xmax" = true ->
  attributes !! "fiducial_xmin" = Some xmin ->
  attributes !! "fiducial_xmax" = Some xmax ->
  attributes !! "fiducial_ymin" = Some ymin ->
  attributes !! "fiducial_ymax" = Some ymax ->
  attributes !! "fiducial_zmin" = Some zmin ->
  attributes !! "fiducial_zmax" = Some zmax ->
  mrows <> [] ->
  muon_event_loop attributes (mcols_of mrows)
    (seq 0 (List.length (event_group_ids (md_columns (mcols_of mrows)))))
    empty_muon_data_sets
  = Raise TypeError.
Proof.
  intros Hc H1 H2 H3 H4 H5 H6 Hne.
  destruct mrows as [|[parent m] rest]; [congruence|].
  cbn [mcols_of md_columns cols_of event_group_ids]. rewrite !length_map.
  cbn [List.length seq muon_event_loop].
  rewrite (muon_event_step_raises ((parent, m) :: rest) 0 parent m eq_refl
             attributes empty_muon_data_sets TypeError); [reflexivity|].
  unfold muon_selected.
  exact (tuple_test_on_box attributes xmin xmax ymin ymax zmin zmax _ _
           Hc H1 H2 H3 H4 H5 H6).
Qed.

End MuonLoop.

Lemma single_id_slices (x K : Z) :
  1 <= K ->
  evt_ids_of_file [x] K 0 = [x] /\ evt_ids_of_file [x] K (0 + 1) = [].
Proof.
  intros HK. unfold evt_ids_of_file, py_slice, py_bound.
  cbn [List.length]. change (Z.of_nat 1) with 1.
  replace (0 * K) with 0 by lia. replace ((0 + 1) * K) with K by lia.
  replace ((0 + 1 + 1) * K) with (2 * K) by lia.
  change (0 <? 0) with false. cbv iota.
  destruct (Z.ltb_spec K 0); [lia|]. destruct (Z.ltb_spec (2 * K) 0); [lia|].
  rewrite !(Z.min_r K 1), (Z.min_r (2 * K) 1) by lia.
  rewrite (Z.min_l 0 1) by lia. split; reflexivity.
Qed.

(** The writer on a table of one row. *)
Lemma write_one_row (filename : string) (id0 n_events start_event_id : Z)
    (n_events_per_file : option Z) (start_file_id : Z) :
  let K := match n_events_per_file with Some k => k | None => n_events end in
  1 <= K ->
  write_events_to_hdf5 filename [id0] n_events (Some start_event_id)
    n_events_per_file start_file_id
  = Some (Ok [mkShard (part_name filename n_events K start_file_id 0)
                n_events n_events id0 id0 0 1]).
Proof.
  intros K HK. unfold write_events_to_hdf5. fold K.
  change (np_unique [id0]) with [id0].
  destruct (single_id_slices id0 K HK) as [H0 H1].
  cbn [List.length write_loop]. rewrite H0, H1.
  cbn [List.last argwhere argwhere_from is_empty].
  rewrite Z.eqb_refl. cbn [List.length Nat.eqb andb Z.eqb].
  unfold part_name. cbn [Z.add].
  destruct (id0 =? n_events); reflexivity.
Qed.

Lemma first_entry_length {A : Type} (l : list A) :
  (0 < List.length l)%nat -> List.length (first_entry A l) = 1%nat.
Proof. destruct l; simpl; [lia|reflexivity]. Qed.

Lemma min_len_shower_energies (d : data_sets) :
  (min_len d <= List.length (shower_energies d))%nat.
Proof.
  unfold min_len. cbn [fold_right].
  do 11 (etransitivity; [apply Nat.le_min_r|]). apply Nat.le_min_l.
Qed.

(** X19: when no muon leaves a shower in the fiducial volume,
    [generate_surface_muons] writes the placeholder: exactly one file,
    holding one row (the first muon row with flavor 14 and shower id 0) and
    the requested number of events as its [n_events] attribute. This needs
    at least one muon and at least one event per file. *)
Theorem empty_muon_run_writes_one_row :
  forall (filename : string) (d : muon_data_sets)
         (n_events start_event_id : Z) (n_events_per_file : option Z)
         (start_file_id : Z) (id0 : Z) (rest : list Z),
    let K := match n_events_per_file with Some k => k | None => n_events end in
    event_group_ids (md_columns d) = id0 :: rest ->
    (0 < Nat.min (min_len (md_columns d)) (List.length (muon_energies d)))%nat ->
    1 <= K ->
    surface_muons_finish filename d empty_muon_data_sets n_events
      start_event_id n_events_per_file start_file_id
    = (Ok (placeholder d, [0]),
       Some (Ok [mkShard (part_name filename n_events K start_file_id 0)
                   n_events n_events id0 id0 0 1]))
    /\ flavors (md_columns (placeholder d)) = [14]
    /\ event_group_ids (md_columns (placeholder d)) = [id0]
    /\ List.length (shower_energies (md_columns (placeholder d))) = 1%nat
    /\ List.length (muon_energies (placeholder d)) = 1%nat.
Proof.
  intros filename d n_events start_event_id n_events_per_file start_file_id
         id0 rest K Hids Hlen HK.
  assert (Hsh : List.length (shower_energies (md_columns (placeholder d))) = 1%nat).
  { cbn [placeholder md_columns shower_energies for_each_key].
    apply first_entry_length. pose proof (min_len_shower_energies (md_columns d)).
    lia. }
  assert (Hmu : List.length (muon_energies (placeholder d)) = 1%nat).
  { cbn [placeholder muon_energies]. apply first_entry_length. lia. }
  assert (Hid : event_group_ids (md_columns (placeholder d)) = [id0]).
  { cbn [placeholder md_columns event_group_ids for_each_key].
    now rewrite Hids. }
  split; [|split; [reflexivity|split; [exact Hid|split; [exact Hsh|exact Hmu]]]].
  unfold surface_muons_finish.
  cbn [empty_muon_data_sets md_columns empty_data_sets event_group_ids
       List.length Nat.eqb].
  destruct (Nat.ltb_spec 0 (Nat.min (min_len (md_columns d))
                              (List.length (muon_energies d)))); [|lia].
  rewrite Hsh, Hid. change (arange 0 (Z.of_nat 1)) with [0].
  now rewrite (write_one_row filename id0 n_events start_event_id
                 n_events_per_file start_file_id HK).
Qed.

Lemma empty_muon_run_writes_one_row_witness :
  surface_muons_finish "muons.hdf5" sample_muons empty_muon_data_sets 5 1
    None 0
  = (Ok (placeholder sample_muons, [0]),
     Some (Ok [mkShard "muons.hdf5" 5 5 1 1 0 1])).
Proof.
  refine (proj1 (empty_muon_run_writes_one_row "muons.hdf5" sample_muons 5 1
                   None 0 1 [] eq_refl _ _)).
  - vm_compute. lia.
  - lia.
Defined.

(** X20: in the loop over the muons of [generate_surface_muons] (lines
    760-799) the direction handed to the volume test is a tuple. For
    attributes without the key [xmax] the test is skipped and every product
    of every muon becomes exactly one row, in the order of the muons and of
    their products. The row of a product copies the muon row (event group
    id, direction, energy and muon energy) and carries the running
    interaction index starting at 1, the energy, shower class and particle
    code of the product, its position and time, and inelasticity 1. For
    attributes with the key [xmax] and the six bounds of a box, the test of
    the first muon raises [TypeError] at [1 / direction] (line 514) and no
    row is appended. *)
Theorem muon_products_become_rows :
  forall (E : Extern) (attributes : gmap string pynum)
         (mrows : list (row * Q)),
    (contains attributes "xmax" = false ->
     muon_event_loop attributes (mcols_of mrows)
       (seq 0 (List.length (event_group_ids (md_columns (mcols_of mrows)))))
       empty_muon_data_sets
     = Ok (mcols_of (flat_map muon_product_rows mrows)))
    /\ (forall xmin xmax ymin ymax zmin zmax : pynum,
           contains attributes "xmax" = true ->
           attributes !! "fiducial_xmin" = Some xmin ->
           attributes !! "fiducial_xmax" = Some xmax ->
           attributes !! "fiducial_ymin" = Some ymin ->
           attributes !! "fiducial_ymax" = Some ymax ->
           attributes !! "fiducial_zmin" = Some zmin ->
           attributes !! "fiducial_zmax" = Some zmax ->
           mrows <> [] ->
           muon_event_loop attributes (mcols_of mrows)
             (seq 0 (List.length
                       (event_group_ids (md_columns (mcols_of mrows)))))
             empty_muon_data_sets
           = Raise TypeError)
    /\ (forall (parent : row) (m : Q) (k : nat),
           nth_error (muon_product_rows (parent, m)) k
           = option_map
               (fun p => (muon_secondary_row parent (1 + Z.of_nat k) p, m))
               (nth_error (muon_products parent) k))
    /\ (forall (parent : row) (n : Z) (p : secondary_properties),
           let s := muon_secondary_row parent n p in
           r_n_interaction s = n
           /\ r_shower_energy s = Fl (product_energy p)
           /\ r_shower_type s = product_shower_type p
           /\ r_interaction_type s = product_shower_type p
           /\ (r_x s, r_y s, r_z s, r_vertex_time s) = product_position parent p
           /\ r_inelasticity s = Fl 1
           /\ r_flavor s = product_code p
           /\ r_event_group_id s = r_event_group_id parent
           /\ (r_energy s, r_zenith s, r_azimuth s)
              = (r_energy parent, r_zenith parent, r_azimuth parent)).
Proof.
  intros E attributes mrows. split; [|split; [|split]].
  - apply muon_event_loop_products.
  - intros xmin xmax ymin ymax zmin zmax.
    apply muon_event_loop_on_box.
  - intros parent m. unfold muon_product_rows. cbn [fst snd].
    generalize (muon_products parent) as products. generalize 1 as n.
    intros n products. revert n.
    induction products as [|p rest IH]; intros n k.
    + destruct k; reflexivity.
    + destruct k as [|k]; cbn [muon_secondaries nth_error option_map].
      * now rewrite Z.add_0_r.
      * rewrite IH. destruct (nth_error rest k); [|reflexivity].
        cbn [option_map]. do 3 f_equal. lia.
  - intros parent n p. unfold muon_secondary_row.
    destruct (product_position parent p) as [[[x y] z] t].
    cbn. repeat split.
Qed.

Lemma muon_products_become_rows_witness :
  @muon_event_loop sample_extern_with_products cylinder_attributes
    (mcols_of sample_muon_rows)
    (seq 0 (List.length
              (event_group_ids (md_columns (mcols_of sample_muon_rows)))))
    empty_muon_data_sets
  = Ok (mcols_of
          (flat_map (@muon_product_rows sample_extern_with_products)
             sample_muon_rows)).
Proof.
  refine (proj1 (muon_products_become_rows sample_extern_with_products
                   cylinder_attributes sample_muon_rows) _).
  reflexivity.
Defined.

(** ** [generate_surface_muons] from end to end *)

Lemma map_fst_combine {A B : Type} (l1 : list A) (l2 : list B) :
  List.length l1 = List.length l2 -> map fst (combine l1 l2) = l1.
Proof.
  revert l2. induction l1 as [|a l1 IH]; intros [|b l2] Hlen;
    try discriminate; [reflexivity|].
  cbn. f_equal. apply IH. now injection Hlen.
Qed.

Lemma map_snd_combine {A B : Type} (l1 : list A) (l2 : list B) :
  List.length l1 = List.length l2 -> map snd (combine l1 l2) = l2.
Proof.
  revert l2. induction l1 as [|a l1 IH]; intros [|b l2] Hlen;
    try discriminate; [reflexivity|].
  cbn. f_equal. apply IH. now injection Hlen.
Qed.

(** A first file is written whenever the table has a row and at least one
    event goes into a file. *)
Lemma writer_writes_a_file (filename : string) (ids : list Z) (n_events : Z)
    (start_event_id n_events_per_file : option Z) (start_file_id : Z)
    (shards : list shard) :
  1 <= match n_events_per_file with Some k => k | None => n_events end ->
  write_events_to_hdf5 filename ids n_events start_event_id n_events_per_file
    start_file_id = Some (Ok shards) ->
  shards <> [].
Proof.
  intros HK Hrun Hnil. subst shards.
  destruct (writer_loop_run _ _ _ _ _ _ _ Hrun) as [Hne _].
  destruct (writer_stop _ _ _ _ _ _ _ Hrun) as [Hend|(j & Hlen & _)];
    [|discriminate].
  cbn [List.length] in Hend. change (Z.of_nat 0) with 0 in Hend.
  pose proof (np_unique_nonempty ids Hne) as Hu.
  assert (H0 : 0 * match n_events_per_file with Some k => k | None => n_events end
               < Z.of_nat (List.length (np_unique ids))).
  { destruct (np_unique ids); [congruence|]. cbn [List.length]. lia. }
  apply (evt_ids_nonempty_iff _ _ HK 0) in H0; [|lia]. contradiction.
Qed.

Section MuonRuns.
Context `{Extern}.
Variable np_arcsin : Q -> Q.



(** The muon table that [muon_baseline_table] returns is a list of rows. *)
Lemma muon_baseline_table_rows (n_events : Z) (Emin Emax : Q)
    (volume : gmap string pynum) (thetamin thetamax phimin phimax : Q)
    (start_event_id : Z) (plus_minus spectrum : string) (w w' : world)
    (attrs : gmap string pynum) (d : muon_data_sets) :
  muon_baseline_table np_arcsin n_events Emin Emax volume thetamin thetamax
    phimin phimax start_event_id plus_minus spectrum w
  = (Ok (attrs, d), w') ->
  0 <= n_events
  /\ (exists (w1 w2 : world) (pos : list Q * list Q * list Q),
         generate_vertex_positions volume false
           (initial_attributes n_events start_event_id Emin Emax thetamin
              thetamax phimin phimax) w1
         = (Ok (attrs, Some pos), w2))
  /\ exists mrows : list (row * Q),
       d = mcols_of mrows
       /\ List.length mrows = Z.to_nat n_events
       /\ event_group_ids (md_columns d) = arange start_event_id n_events.
Proof.
  intros Hrun. unfold muon_baseline_table, bind in Hrun.
  destruct (np_random_uniform phimin phimax _ w) as [[az|e] w0] eqn:Haz;
    [|discriminate].
  destruct (np_random_uniform _ _ _ w0) as [[u|e] w1] eqn:Hu; [|discriminate].
  destruct (generate_vertex_positions _ _ _ w1)
    as [[[attrs' [[[vx vy] vz]|]]|e] w2] eqn:Hvp;
    cbn [fst snd] in Hrun; [| |discriminate]; [|discriminate].
  destruct (np_random_randint _ _ w2) as [[idx|e] w3] eqn:Hidx; [|discriminate].
  destruct (get_energies _ _ _ _ w3) as [[en|e] w4] eqn:Hen; [|discriminate].
  unfold ret in Hrun. injection Hrun as <- <- <-.
  apply uniform_Ok in Haz. destruct Haz as (m & Hm & Hpos & Haz & _).
  injection Hm as <-.
  apply uniform_Ok in Hu. destruct Hu as (m & Hm & _ & Hu & _).
  injection Hm as <-.
  pose proof (vertex_lengths _ _ _ _ _ _ _ _ _ Hvp) as (Hvy & Hvz & Hvx).
  specialize (Hvx eq_refl n_events (initial_attributes_n_events _ _ _ _ _ _ _ _)).
  apply get_energies_length in Hen.
  assert (Hidx' : List.length idx = Z.to_nat n_events).
  { unfold np_random_randint in Hidx.
    destruct (_ || _); [discriminate|]. injection Hidx as <- _.
    now rewrite length_map, length_seq. }
  split; [exact Hpos|]. split; [now exists w1, w2, (vx, vy, vz)|].
  set (ids := arange start_event_id n_events).
  assert (Hids : List.length ids = Z.to_nat n_events) by apply arange_length.
  destruct (columns_are_rows (Z.to_nat n_events) az
              (map (fun x => np_arcsin (np_power x (1 # 2))) u) vx vy vz ids
              (map (fun _ => 1) ids) (map (fun _ => 0%Q) ids)
              (map (fun i => nth (Z.to_nat i) (muon_flavor plus_minus) 0) idx)
              en (map (fun _ => ""%string) ids) (map (fun _ => Fl 0) ids)
              (map (fun e => Fl (e * 0)%Q) en)
              (map (fun _ => "had"%string) ids))
    as (rows & tx & ty & tz & Hlen & Htx & Hty & Htz & Heq);
    rewrite ?length_map; try assumption; try lia.
  assert (tx = [] /\ ty = [] /\ tz = []) as (-> & -> & ->)
    by (repeat split; apply length_zero_nil; lia).
  rewrite with_extra_nil in Heq.
  exists (combine rows en). unfold mcols_of.
  rewrite map_fst_combine, map_snd_combine by lia.
  rewrite <- Heq. cbn [md_columns event_group_ids].
  split; [reflexivity|]. split; [|reflexivity].
  rewrite length_combine. lia.
Qed.


End MuonRuns.



(** X22: [generate_surface_muons] never returns for a cylinder volume (it
    calls [generate_vertex_positions] without secondary interactions, which
    then stops at the read of [full_rmax]) nor for a run without muons
    ([n_events] zero leaves the loop variable [iE] unbound at the timing
    line; a negative [n_events] is refused by the first draw). *)
Theorem surface_muons_need_a_box_and_a_muon :
  forall (E : Extern) (np_arcsin : Q -> Q) (filename : string) (n_events : Z)
         (Emin Emax : Q) (volume : gmap string pynum)
         (thetamin thetamax phimin phimax : Q) (start_event_id : Z)
         (plus_minus : string) (n_events_per_file : option Z)
         (spectrum : string) (start_file_id : Z) (w : world),
    contains volume "fiducial_rmax" = true \/ n_events <= 0 ->
    (exists (e : exn) (w' : world),
        generate_surface_muons np_arcsin filename n_events Emin Emax volume
          thetamin thetamax phimin phimax start_event_id plus_minus
          n_events_per_file spectrum start_file_id w
        = (Some (Raise e), w'))
    /\ (forall (attrs : gmap string pynum) (d : muon_data_sets) (w' : world),
           muon_baseline_table np_arcsin n_events Emin Emax volume thetamin
             thetamax phimin phimax start_event_id plus_minus spectrum w
           = (Ok (attrs, d), w') ->
           n_events = 0
           /\ generate_surface_muons np_arcsin filename n_events Emin Emax
                volume thetamin thetamax phimin phimax start_event_id
                plus_minus n_events_per_file spectrum start_file_id w
              = (Some (Raise (UnboundLocalError "iE")), w')).
Proof.
  intros E np_arcsin filename n_events Emin Emax volume thetamin thetamax
         phimin phimax start_event_id plus_minus n_events_per_file spectrum
         start_file_id w Hcase.
  assert (Hok : forall (attrs : gmap string pynum) (d : muon_data_sets)
                       (w' : world),
             muon_baseline_table np_arcsin n_events Emin Emax volume thetamin
               thetamax phimin phimax start_event_id plus_minus spectrum w
             = (Ok (attrs, d), w') ->
             n_events = 0
             /\ generate_surface_muons np_arcsin filename n_events Emin Emax
                  volume thetamin thetamax phimin phimax start_event_id
                  plus_minus n_events_per_file spectrum start_file_id w
                = (Some (Raise (UnboundLocalError "iE")), w')).
  { intros attrs d w' Hbase.
    destruct (muon_baseline_table_rows np_arcsin _ _ _ _ _ _ _ _ _ _ _ _ _ _ _
                Hbase) as (Hpos & (w1 & w2 & pos & Hvp) & mrows & -> & Hlen & Hids).
    destruct Hcase as [Hcyl|Hn].
    { destruct (cylinder_returns_only_if _ _ _ _ _ _ Hcyl Hvp) as (Hp & _).
      discriminate. }
    assert (Hzero : n_events = 0) by lia. split; [exact Hzero|].
    assert (Hrows : mrows = []).
    { destruct mrows; [reflexivity|]. rewrite Hzero in Hlen. discriminate. }
    subst mrows. unfold generate_surface_muons. rewrite Hbase. reflexivity. }
  split; [|exact Hok].
  destruct (muon_baseline_table np_arcsin n_events Emin Emax volume thetamin
              thetamax phimin phimax start_event_id plus_minus spectrum w)
    as [[[attrs d]|e] w'] eqn:Hbase.
  - destruct (Hok attrs d w' eq_refl) as [_ Hgen]. eauto.
  - exists e, w'. unfold generate_surface_muons. now rewrite Hbase.
Qed.

Lemma surface_muons_need_a_box_and_a_muon_witness :
  exists (e : exn) (w' : world),
    @generate_surface_muons sample_extern (fun x => x) "muons.hdf5" 3 1 2
      sample_cylinder 0 1 0 1 1 "mix" None "log_uniform" 0 []
    = (Some (Raise e), w').
Proof.
  exact (proj1 (surface_muons_need_a_box_and_a_muon sample_extern (fun x => x)
                  "muons.hdf5" 3 1 2 sample_cylinder 0 1 0 1 1 "mix" None
                  "log_uniform" 0 [] (or_introl eq_refl))).
Defined.

(** ** Edge cases of the writer and the part number *)

(** X23: [write_events_to_hdf5] writes no file, and raises nothing, when
    [n_events_per_file] (the total when unset) is 0; it writes at least one
    file when that number is at least 1. *)
Theorem files_and_events_per_file :
  forall (filename : string) (ids : list Z) (n_events : Z)
         (start_event_id n_events_per_file : option Z) (start_file_id : Z),
    let K := match n_events_per_file with Some k => k | None => n_events end in
    ids <> [] ->
    (K = 0 ->
     write_events_to_hdf5 filename ids n_events start_event_id
       n_events_per_file start_file_id = Some (Ok []))
    /\ (1 <= K ->
        exists shards : list shard,
          write_events_to_hdf5 filename ids n_events start_event_id
            n_events_per_file start_file_id = Some (Ok shards)
          /\ shards <> []).
Proof.
  intros filename ids n_events start_event_id n_events_per_file start_file_id
         K Hne.
  split.
  - intros HK. unfold write_events_to_hdf5. fold K.
    destruct ids as [|x t]; [congruence|].
    cbn [write_loop]. rewrite HK.
    unfold evt_ids_of_file, py_slice, py_bound.
    change (0 * 0) with 0. change ((0 + 1) * 0) with 0.
    change (0 <? 0) with false. cbv iota.
    rewrite Z.sub_diag. reflexivity.
  - intros HK.
    destruct (write_events_returns filename ids n_events start_event_id
                n_events_per_file start_file_id Hne) as [shards Hw].
    exists shards. split; [exact Hw|].
    exact (writer_writes_a_file _ _ _ _ _ _ _ HK Hw).
Qed.

Lemma files_and_events_per_file_witness :
  write_events_to_hdf5 "f" sample_ids 3 (Some 1) (Some 0) 0 = Some (Ok []).
Proof.
  refine (proj1 (files_and_events_per_file "f" sample_ids 3 (Some 1) (Some 0)
                   0 _) eq_refl).
  discriminate.
Defined.

Lemma format_04_width_table :
  forallb (fun k => (String.length (format_04 (Z.of_nat k - 999)) =? 4)%nat)
          (seq 0 (Z.to_nat 10999))
  = true.
Proof. vm_compute. reflexivity. Qed.

(** X24: the part number of a file name can be read back: the string that
    ["{:04}".format] prints for a number stands for that number, and for
    every number from -999 to 9999 it has exactly four characters. *)
Theorem part_number_round_trip :
  (forall z : Z, read_04 (format_04 z) = Some z)
  /\ (forall z : Z,
         -999 <= z <= 9999 -> String.length (format_04 z) = 4%nat).
Proof.
  split; [exact read_format_04|].
  intros z Hz. pose proof format_04_width_table as Ht.
  rewrite forallb_forall in Ht.
  specialize (Ht (Z.to_nat (z + 999))).
  replace (Z.of_nat (Z.to_nat (z + 999)) - 999) with z in Ht by lia.
  apply Nat.eqb_eq. apply Ht. apply in_seq. lia.
Qed.

Lemma part_number_round_trip_witness :
  String.length (format_04 17) = 4%nat.
Proof.
  refine (proj2 part_number_round_trip 17 _). lia.
Defined.

(** ** Deposited energies *)

Lemma all_some_nth {A : Type} (l : list (option A)) (r : list A) (i : nat)
    (o : option A) :
  all_some l = Some r -> nth_error l i = Some o ->
  exists x : A, o = Some x /\ nth_error r i = Some x.
Proof.
  revert r i. induction l as [|[x|] l IH]; intros r i Hr Hi; simpl in Hr.
  - destruct i; discriminate.
  - destruct (all_some l) as [t|] eqn:Ht; [|discriminate].
    injection Hr as <-. destruct i as [|i]; cbn [nth_error] in *.
    + injection Hi as <-. now exists x.
    + now apply (IH t i).
  - discriminate.
Qed.

Lemma all_ok_nth {A : Type} (l : list (res A)) (r : list A) (i : nat)
    (o : res A) :
  all_ok l = Ok r -> nth_error l i = Some o ->
  exists x : A, o = Ok x /\ nth_error r i = Some x.
Proof.
  revert r i. induction l as [|[x|e] l IH]; intros r i Hr Hi; simpl in Hr.
  - destruct i; discriminate.
  - destruct (all_ok l) as [t|] eqn:Ht; [|discriminate].
    cbn in Hr. injection Hr as <-. destruct i as [|i]; cbn [nth_error] in *.
    + injection Hi as <-. now exists x.
    + now apply (IH t i).
  - discriminate.
Qed.

Lemma all_finite_nth (l : list float64) (r : list Q) (i : nat) (v : float64) :
  all_finite l = Some r -> nth_error l i = Some v ->
  exists q : Q, v = Finite q /\ nth_error r i = Some q.
Proof.
  revert r i. induction l as [|[q|] l IH]; intros r i Hr Hi; simpl in Hr.
  - destruct i; discriminate.
  - destruct (all_finite l) as [t|] eqn:Ht; [|discriminate].
    cbn in Hr. injection Hr as <-. destruct i as [|i]; cbn [nth_error] in *.
    + injection Hi as <-. now exists q.
    + now apply (IH t i).
  - discriminate.
Qed.

(** A finite quotient comes from a divisor that is not zero. *)
Lemma float_div_finite (k : float_kind) (a b q : Q) :
  float_div k a b = Ok (Finite q) -> ~ (b == 0)%Q /\ q = (a / b)%Q.
Proof.
  unfold float_div. destruct (Qeq_bool b 0) eqn:Hb.
  - destruct k; discriminate.
  - intros Hq. injection Hq as <-. split; [|reflexivity].
    now apply Qeq_bool_neq.
Qed.

(** X25: with [deposited] on, in every table that the model builds (no
    row without a primary energy, no row that divides by a zero
    inelasticity), the energy drawn from the spectrum is the energy that
    goes into showers. The primary energy of every event is
    [primary_energy_from_deposited] of the drawn energy, a finite value;
    for an electron charged-current event it is the drawn energy itself,
    shared between the hadronic shower (y E) and the electromagnetic twin
    ((1 - y) E); for any other event the inelasticity y is not zero and
    the hadronic shower energy y E is the drawn energy. *)
Theorem deposited_energy_is_the_shower_energy :
  forall (E : Extern) (n_events : Z) (Emin Emax : Q)
         (volume : gmap string pynum) (thetamin thetamax phimin phimax : Q)
         (start_event_id : Z) (flavor : list Z) (spectrum : string)
         (proposal : bool) (w w' : world) (attrs : gmap string pynum)
         (base : data_sets),
    baseline_table n_events Emin Emax volume thetamin thetamax phimin phimax
      start_event_id flavor spectrum true proposal w
    = (Ok (attrs, base), w') ->
    exists en : list Q,
      (exists w3 w4 : world,
          get_energies n_events Emin Emax spectrum w3 = (Ok en, w4))
      /\ List.length en = Z.to_nat n_events
      /\ forall (i : nat) (Edep : Q),
           nth_error en i = Some Edep ->
           exists (E0 : Q) (c : string) (f : Z) (y : Q),
             nth_error (energies base) i = Some E0
             /\ nth_error (interaction_type base) i = Some c
             /\ nth_error (flavors base) i = Some f
             /\ nth_error (inelasticity base) i = Some (Fl y)
             /\ nth_error (shower_energies base) i = Some (Fl (E0 * y))
             /\ primary_energy_from_deposited numpy_float64 Edep c f y
                = Ok (Some (Finite E0))
             /\ (is_em_shower c f = true ->
                 E0 = Edep /\ (E0 * y + (1 - y) * E0 == Edep)%Q)
             /\ (is_em_shower c f = false ->
                 ~ (y == 0)%Q /\ (E0 * y == Edep)%Q).
Proof.
  intros E n_events Emin Emax volume thetamin thetamax phimin phimax
         start_event_id flavor spectrum proposal w w' attrs base Hrun.
  unfold baseline_table, bind in Hrun.
  destruct (np_random_uniform phimin phimax _ w) as [[az|e] w0];
    [|discriminate].
  destruct (np_random_uniform _ _ _ w0) as [[u|e] w1]; [|discriminate].
  destruct (generate_vertex_positions _ _ _ w1)
    as [[[attrs' [[[vx vy] vz]|]]|e] w2];
    cbn [fst snd] in Hrun; [| |discriminate]; [|discriminate].
  destruct (np_random_randint _ _ w2) as [[idx|e] w3] eqn:Hidx; [|discriminate].
  destruct (get_energies _ _ _ _ w3) as [[en|e] w4] eqn:Hen; [|discriminate].
  destruct (get_ccnc _ w4) as [[ccnc|e] w5] eqn:Hcc; [|discriminate].
  destruct (get_neutrino_inelasticity _ w5) as [[inel|e] w6] eqn:Hin;
    [|discriminate].
  set (fl := map (fun i => nth (Z.to_nat i) flavor 0) idx) in *.
  unfold lift in Hrun.
  destruct (primary_energies en ccnc fl inel) as [en'|] eqn:Hprims;
    [|discriminate].
  unfold ret in Hrun. injection Hrun as <- <- <-.
  destruct (primary_energies_Ok _ _ _ _ _ Hprims)
    as (rows & vals & Hrows & Hvals & Hfin).
  pose proof (get_energies_length _ _ _ _ _ _ _ Hen) as Hlen_en.
  assert (Hidx' : List.length fl = Z.to_nat n_events).
  { unfold fl. unfold np_random_randint in Hidx.
    destruct (_ || _); [discriminate|]. injection Hidx as <- _.
    now rewrite !length_map, length_seq. }
  assert (Hcc' : List.length ccnc = Z.to_nat n_events).
  { unfold get_ccnc in Hcc. destruct (n_events <? 0); [discriminate|].
    injection Hcc as <- _. now rewrite length_map, variates_length. }
  assert (Hin' : List.length inel = Z.to_nat n_events).
  { unfold get_neutrino_inelasticity in Hin.
    destruct (n_events <? 0); [discriminate|].
    injection Hin as <- _. now rewrite length_map, variates_length. }
  exists en. split; [now exists w3, w4|]. split; [exact Hlen_en|].
  intros i Edep Hi.
  assert (Hlt : (i < Z.to_nat n_events)%nat)
    by (rewrite <- Hlen_en; apply nth_error_Some; congruence).
  destruct (nth_error ccnc i) as [c|] eqn:Hc;
    [|apply nth_error_None in Hc; lia].
  destruct (nth_error fl i) as [f|] eqn:Hf;
    [|apply nth_error_None in Hf; lia].
  destruct (nth_error inel i) as [y|] eqn:Hy;
    [|apply nth_error_None in Hy; lia].
  assert (Hrow : nth_error
                   (map (fun p => let '(Edep, c, f, y) := p in
                                  primary_energy_from_deposited numpy_float64
                                    Edep c f y)
                        (combine (combine (combine en ccnc) fl) inel)) i
                 = Some (primary_energy_from_deposited numpy_float64
                           Edep c f y)).
  { rewrite nth_error_map, !nth_error_combine, Hi, Hc, Hf, Hy. reflexivity. }
  destruct (all_ok_nth _ _ _ _ Hrows Hrow) as (o & Hprim & Ho).
  destruct (all_some_nth _ _ _ _ Hvals Ho) as (v & -> & Hv).
  destruct (all_finite_nth _ _ _ _ Hfin Hv) as (E0 & -> & HE0).
  exists E0, c, f, y.
  cbn [energies interaction_type flavors inelasticity shower_energies].
  split; [exact HE0|]. split; [exact Hc|]. split; [exact Hf|].
  split; [now rewrite nth_error_map, Hy|].
  split; [now rewrite nth_error_map, nth_error_combine, HE0, Hy|].
  split; [exact Hprim|].
  assert (Hquot : res_map Some (float_div numpy_float64 Edep y)
                  = Ok (Some (Finite E0)) ->
                  ~ (y == 0)%Q /\ (E0 * y == Edep)%Q).
  { intros Hq. destruct (float_div numpy_float64 Edep y) as [v|] eqn:Hd;
      [|discriminate].
    cbn in Hq. injection Hq as ->.
    destruct (float_div_finite _ _ _ _ Hd) as [Hy0 ->].
    split; [exact Hy0|]. field. exact Hy0. }
  unfold primary_energy_from_deposited in Hprim. unfold is_em_shower.
  destruct (String.eqb c "nc") eqn:Hnc.
  { assert (Hcc0 : String.eqb c "cc" = false).
    { apply String.eqb_eq in Hnc. now subst c. }
    rewrite Hcc0. cbn [andb].
    split; [discriminate|]. intros _. exact (Hquot Hprim). }
  destruct (String.eqb c "cc"); [|discriminate].
  cbn [andb].
  destruct (Z.abs f =? 12).
  { injection Hprim as <-. split; [|discriminate].
    intros _. split; [reflexivity|ring]. }
  split; [discriminate|]. intros _.
  destruct (Z.abs f =? 14); [exact (Hquot Hprim)|].
  destruct (Z.abs f =? 16); [exact (Hquot Hprim)|].
  discriminate.
Qed.

Lemma sample_deposited_run :
  @baseline_table sample_extern 3 1 2 sample_box 0 1 0 1 1 [12; -12; 14]
    "log_uniform" true false []
  = (Ok (sample_attributes, sample_deposited), sample_world).
Proof. vm_compute. reflexivity. Qed.

Lemma deposited_energy_is_the_shower_energy_witness :
  exists en : list Q,
    (exists w3 w4 : world,
        @get_energies sample_extern 3 1 2 "log_uniform" w3 = (Ok en, w4))
    /\ List.length en = 3%nat.
Proof.
  destruct (deposited_energy_is_the_shower_energy sample_extern 3 1 2
              sample_box 0 1 0 1 1 [12; -12; 14] "log_uniform" false []
              sample_world sample_attributes sample_deposited
              sample_deposited_run) as (en & Hen & Hlen & _).
  exists en. split; [exact Hen|exact Hlen].
Defined.
